(** * gitlab-mr-stats: the synchronisation engine and its analytics

    A shallow embedding of [src/index.ts] and [src/database.ts].

    - Promises that may reject are functions into [completion]; a [while]
      loop whose exit depends on the remote side takes a [fuel] argument
      and answers [None] while it is still running.
    - The GitLab API and the SQLite engine are the environment: the first
      is a family of functions from page numbers to optional responses, the
      second a finite map per table together with the operations that
      reject.
    - JavaScript numbers that come out of [Number(...)] are [option Z],
      [None] standing for NaN. *)

From Stdlib Require Import ZArith String Ascii List Lia QArith Qcanon Floats.
From stdpp Require Import base option list gmap strings pretty.

Open Scope Z_scope.

(** ** JavaScript preliminaries *)

(** How an awaited call ends: with a value, or with a rejection. *)
Inductive completion (A : Type) : Type :=
  | Return (a : A)
  | Throw.
Arguments Return {A} a.
Arguments Throw {A}.

(** A JavaScript number restricted to what [Number] yields on the values
    met here: an integer, or NaN. *)
Definition number := option Z.
Definition NaN : number := None.

(** [a > b] and [a < b]: every comparison with NaN is false. *)
Definition js_gt (a b : number) : bool :=
  match a, b with
  | Some x, Some y => y <? x
  | _, _ => false
  end.

Definition js_lt (a b : number) : bool :=
  match a, b with
  | Some x, Some y => x <? y
  | _, _ => false
  end.

(** What [response.headers.get(name)] can hold: nothing ([null]), a numeral,
    or text that [Number] does not read. *)
Inductive header : Type :=
  | Absent
  | Numeric (n : Z)
  | Garbage.

(** [Number(response.headers.get(h) || '0')] *)
Definition Number_or_zero (h : header) : number :=
  match h with
  | Absent => Some 0
  | Numeric n => Some n
  | Garbage => NaN
  end.

(** [Number(response.headers.get(h)) || 1]: [Number(null)] is [0], and both
    [0] and NaN are falsy. *)
Definition Number_or_one (h : header) : Z :=
  match h with
  | Absent => 1
  | Numeric n => if n =? 0 then 1 else n
  | Garbage => 1
  end.

(** A page as the HTTP client hands it over: the decoded array and the
    pagination header. *)
Record response (A : Type) : Type := mkResponse {
  json : list A;
  x_total_pages : header
}.
Arguments mkResponse {A} json x_total_pages.
Arguments json {A} r.
Arguments x_total_pages {A} r.

(** A paginated endpoint: [None] is a request (or a decoding) that
    rejects. *)
Definition endpoint (A : Type) : Type := Z -> option (response A).

(** ** index.ts: the two pagination loops *)

Section Pagination.
Context {A : Type}.

(** Line 98: the value assigned to [hasMorePages] after a non-empty
    page. *)
Definition hasMorePages (page : Z) (r : response A) : bool :=
  let totalPages := Number_or_zero (x_total_pages r) in
  (js_gt totalPages (Some 0) && js_lt (Some page) totalPages)
  || (Z.of_nat (length (json r)) =? 100).

(** The [while (hasMorePages)] loop of [fetchMergeRequests], lines
    67-103. *)
Fixpoint fetchMergeRequests_loop (fuel : nat) (api : endpoint A)
    (page : Z) (allMergeRequests : list A) : option (completion (list A)) :=
  match fuel with
  | O => None
  | S fuel =>
    match api page with
    | None => Some Throw
    | Some r =>
      let mergeRequests := json r in
      if Z.of_nat (length mergeRequests) =? 0 then
        Some (Return allMergeRequests)
      else
        let allMergeRequests := allMergeRequests ++ mergeRequests in
        if hasMorePages page r then
          fetchMergeRequests_loop fuel api (page + 1) allMergeRequests
        else Some (Return allMergeRequests)
    end
  end.

(** [fetchMergeRequests]: the loop inside [try], and [catch] answering
    the empty array. *)
Definition fetchMergeRequests (fuel : nat) (api : endpoint A)
    : option (list A) :=
  match fetchMergeRequests_loop fuel api 1 [] with
  | None => None
  | Some (Return allMergeRequests) => Some allMergeRequests
  | Some Throw => Some []
  end.

(** The notes loop of [fetchMergeRequestDetails], lines 121-143. *)
Fixpoint fetchNotes_loop (fuel : nat) (api : endpoint A)
    (page : Z) (allNotes : list A) : option (completion (list A)) :=
  match fuel with
  | O => None
  | S fuel =>
    match api page with
    | None => Some Throw
    | Some r =>
      let totalPages := Number_or_one (x_total_pages r) in
      let notes := json r in
      let allNotes := allNotes ++ notes in
      if page <? totalPages then
        fetchNotes_loop fuel api (page + 1) allNotes
      else Some (Return allNotes)
    end
  end.

(** A collection served by offset pagination with the page size the
    client asks for ([per_page = 100]); the server is free in what it
    reports as total page count. *)
Definition serve (coll : list A) (hdr : Z -> header) : endpoint A :=
  fun page =>
    Some (mkResponse (take 100 (drop (Z.to_nat ((page - 1) * 100)) coll))
                     (hdr page)).

(** The page count a well-behaved server reports. *)
Definition page_count (coll : list A) : Z :=
  (Z.of_nat (length coll) + 99) / 100.

End Pagination.

(** ** The remote records

    The fields of GitLab's JSON that the program reads. *)

Record Author : Type := mkAuthor {
  author_id_of : Z;
  author_username_of : string
}.

Record MergeRequest : Type := mkMergeRequest {
  mr_id : Z;
  mr_iid : Z;
  mr_title : string;
  mr_created_at : string;
  mr_updated_at : string;
  mr_state : string;
  mr_author : Author;
  mr_merged_at : option string
}.

Record Note : Type := mkNote {
  note_created_at : string;
  note_system : bool
}.

Record ApprovalEvent : Type := mkApprovalEvent {
  event_created_at : string
}.

Record Project : Type := mkProject {
  repo_id : Z;
  repo_name : string;
  repo_path_with_namespace : string;
  repo_created_at : string
}.

(** The three resources of one project that a sync run reads. *)
Record GitLab : Type := mkGitLab {
  merge_requests_endpoint : endpoint MergeRequest;
  notes_endpoint : Z -> endpoint Note;
  resource_approval_events : Z -> option (list ApprovalEvent)
}.

(** ** database.ts *)

Module database.

Record MergeRequestData : Type := mkMergeRequestData {
  id : Z;
  project_id : Z;
  title : string;
  description : option string;
  created_at : string;
  updated_at : string;
  state : string;
  author_id : Z;
  author_username : string;
  first_comment_at : option string;
  approved_at : option string;
  merged_at : option string;
  squad : option string
}.

(** The two tables. [merge_requests] has [PRIMARY KEY (id, project_id)]. *)
Record Tables : Type := mkTables {
  projects : gmap Z Project;
  merge_requests : gmap (Z * Z) MergeRequestData
}.

(** The statements the engine rejects (a locked file, an I/O error, a
    violated constraint). *)
Record Engine : Type := mkEngine {
  get_rejects : Z -> Z -> bool;
  run_rejects : MergeRequestData -> bool;
  run_rejects_project : Project -> bool
}.

(** An engine on which every statement succeeds. *)
Definition healthy : Engine :=
  mkEngine (fun _ _ => false) (fun _ => false) (fun _ => false).

(** [INSERT OR REPLACE INTO projects]. *)
Definition saveProject (e : Engine) (project : Project) (t : Tables)
    : completion Tables :=
  if run_rejects_project e project then Throw
  else Return (mkTables (<[repo_id project := project]> (projects t))
                        (merge_requests t)).

(** [INSERT OR REPLACE INTO merge_requests] with all thirteen columns
    bound from [mr]; a field left [undefined] is bound as NULL. The row
    with the same key, if any, is replaced as a whole. *)
Definition saveMergeRequest (e : Engine) (mr : MergeRequestData) (t : Tables)
    : completion Tables :=
  if run_rejects e mr then Throw
  else Return (mkTables (projects t)
                        (<[(id mr, project_id mr) := mr]> (merge_requests t))).

(** [SELECT * ... WHERE project_id = ? AND id = ?] inside [try]; [catch]
    answers [null]. *)
Definition getMergeRequest (e : Engine) (t : Tables) (projectId mrId : Z)
    : option MergeRequestData :=
  if get_rejects e projectId mrId then None
  else merge_requests t !! (mrId, projectId).

(** *** The two aggregation queries *)

(** Comparison of TEXT values under the BINARY collation: byte by byte,
    a proper prefix being smaller. *)
Definition text_le (a b : string) : bool :=
  match String.compare a b with
  | Gt => false
  | _ => true
  end.

Definition text_ge (a b : string) : bool := text_le b a.

(** [if (startDate)], [if (endDate)]: [undefined] and the empty string
    are falsy and add no condition. *)
Definition date_bounds (startDate endDate : option string)
    (r : MergeRequestData) : bool :=
  match startDate with
  | Some (String c d) => text_ge (created_at r) (String c d)
  | _ => true
  end
  &&
  match endDate with
  | Some (String c d) => text_le (created_at r) (String c d)
  | _ => true
  end.

Definition is_not_null {A : Type} (v : option A) : bool :=
  match v with
  | Some _ => true
  | None => false
  end.

(** The rows of a table, in the order of a scan. *)
Definition rows (t : Tables) : list MergeRequestData :=
  (map_to_list (merge_requests t)).*2.

(** [GROUP BY squad] over rows whose squad is not NULL: the labels that
    occur, each once. *)
Definition group_by_squad (rs : list MergeRequestData) : list string :=
  remove_dups (omap squad rs).

Definition in_group (s : string) (r : MergeRequestData) : bool :=
  match squad r with
  | Some s' => String.eqb s' s
  | None => false
  end.

(** REAL values are IEEE 754 doubles. An INTEGER becomes a REAL by the
    conversion of C, which rounds to nearest, ties to even. *)
Definition real_of_int (z : Z) : float :=
  SF2Prim (binary_normalize prec emax z 0 false).

(** SQL [AVG] over a column of REAL values, as the engine computes it
    (func.c of SQLite 3.44 and later): the context holds a running sum
    [rSum], the error term [rErr] of the Kahan-Babuska-Neumaier summation
    and the number [cnt] of values seen. *)
Record SumCtx : Type := mkSumCtx {
  rSum : float;
  rErr : float;
  cnt : Z
}.

Definition kahanBabuskaStep (p : SumCtx) (r : float) : SumCtx :=
  let s := rSum p in
  let t := PrimFloat.add s r in
  if PrimFloat.ltb (PrimFloat.abs r) (PrimFloat.abs s)
  then mkSumCtx t (PrimFloat.add (rErr p)
                     (PrimFloat.add (PrimFloat.sub s t) r)) (cnt p)
  else mkSumCtx t (PrimFloat.add (rErr p)
                     (PrimFloat.add (PrimFloat.sub r t) s)) (cnt p).

(** [sumStep]: a NULL is skipped; any other value is counted and added. *)
Definition sumStep (p : SumCtx) (v : option float) : SumCtx :=
  match v with
  | Some r => kahanBabuskaStep (mkSumCtx (rSum p) (rErr p) (cnt p + 1)) r
  | None => p
  end.

(** [sqlite3IsOverflow]: an infinity or a NaN. *)
Definition IsOverflow (r : float) : bool :=
  PrimFloat.is_nan r || PrimFloat.is_infinity r.

(** [avgFinalize]: NULL when no value was seen. *)
Definition avgFinalize (p : SumCtx) : option float :=
  if 0 <? cnt p then
    let r := if IsOverflow (rErr p) then rSum p
             else PrimFloat.add (rSum p) (rErr p) in
    Some (PrimFloat.div r (real_of_int (cnt p)))
  else None.

Definition AVG (vs : list (option float)) : option float :=
  avgFinalize (fold_left sumStep vs (mkSumCtx PrimFloat.zero PrimFloat.zero 0)).

(** SQL [SUM(CASE WHEN c THEN 1 ELSE 0 END)] over a non-empty group. *)
Definition SUM_when {A : Type} (c : A -> bool) (rs : list A) : Z :=
  fold_left (fun acc r => acc + (if c r then 1 else 0)) rs 0.

Record StatsRow : Type := mkStatsRow {
  stats_squad : string;
  total_mrs : Z;
  merged_mrs : Z;
  avg_time_to_first_comment : option float;
  avg_time_to_approval : option float;
  avg_time_to_merge : option float
}.

Record LateRow : Type := mkLateRow {
  late_squad : string;
  count : Z
}.

Section Queries.
(** [strftime('%s', x)] read as an integer: seconds since the epoch,
    NULL when [x] is not a date. *)
Variable strftime_s : string -> option Z.

(** [(strftime('%s', later) - strftime('%s', earlier)) / 60.0]: the
    difference of the two integers, converted to REAL and divided by the
    double 60. *)
Definition minutes_between (later earlier : string) : option float :=
  match strftime_s later, strftime_s earlier with
  | Some a, Some b => Some (PrimFloat.div (real_of_int (a - b)) 60%float)
  | _, _ => None
  end.

(** [CASE WHEN ts IS NOT NULL THEN (...) / 60.0 ELSE NULL END] *)
Definition time_to (ts : MergeRequestData -> option string)
    (r : MergeRequestData) : option float :=
  match ts r with
  | Some t => minutes_between t (created_at r)
  | None => None
  end.

(** Lines 623-634: the WHERE clause of [getMergeRequestStats]. *)
Definition stats_where (projectId : Z) (startDate endDate : option string)
    (r : MergeRequestData) : bool :=
  (project_id r =? projectId)
  && negb (String.eqb (state r) "closed")
  && is_not_null (squad r)
  && date_bounds startDate endDate r.

Definition stats_row (s : string) (g : list MergeRequestData) : StatsRow :=
  mkStatsRow s
    (Z.of_nat (length g))
    (SUM_when (fun r => String.eqb (state r) "merged") g)
    (AVG (map (time_to first_comment_at) g))
    (AVG (map (time_to approved_at) g))
    (AVG (map (time_to merged_at) g)).

Definition getMergeRequestStats (t : Tables) (projectId : Z)
    (startDate endDate : option string) : list StatsRow :=
  let selected :=
    List.filter (stats_where projectId startDate endDate) (rows t) in
  map (fun s => stats_row s (List.filter (in_group s) selected))
      (group_by_squad selected).

(** Lines 675-690: the WHERE clause of [countMrsWithLateFirstComment];
    a comparison with NULL does not select the row. *)
Definition late_where (projectId : Z) (thresholdMinutes : float)
    (startDate endDate : option string) (r : MergeRequestData) : bool :=
  (project_id r =? projectId)
  && negb (String.eqb (state r) "closed")
  && is_not_null (first_comment_at r)
  && is_not_null (squad r)
  && date_bounds startDate endDate r
  && match time_to first_comment_at r with
     | Some m => PrimFloat.ltb thresholdMinutes m
     | None => false
     end.

Definition countMrsWithLateFirstComment (t : Tables) (projectId : Z)
    (thresholdMinutes : float) (startDate endDate : option string)
    : list LateRow :=
  let selected :=
    List.filter (late_where projectId thresholdMinutes startDate endDate)
                (rows t) in
  map (fun s => mkLateRow s
                  (Z.of_nat (length (List.filter (in_group s) selected))))
      (group_by_squad selected).
End Queries.

(** *** update_squads.sql: the two UPDATE statements *)

Definition cms_usernames : list string :=
  ["miduddin.wartek"; "alvin.yaputra"; "qoyyim"; "sangbas-wartek";
   "burhan-wartek"]%string.

Definition username_in (l : list string) (u : string) : bool :=
  existsb (String.eqb u) l.

Definition with_squad (s : option string) (r : MergeRequestData)
    : MergeRequestData :=
  mkMergeRequestData (id r) (project_id r) (title r) (description r)
    (created_at r) (updated_at r) (state r) (author_id r)
    (author_username r) (first_comment_at r) (approved_at r) (merged_at r) s.

Definition set_cms (r : MergeRequestData) : MergeRequestData :=
  if username_in cms_usernames (author_username r)
  then with_squad (Some "CMS"%string) r else r.

Definition set_web (r : MergeRequestData) : MergeRequestData :=
  if negb (username_in (cms_usernames ++ ["ikhsan.hari"%string])
                       (author_username r))
     && negb (is_not_null (squad r))
  then with_squad (Some "WEB"%string) r else r.

Definition update_squads (t : Tables) : Tables :=
  mkTables (projects t) (set_web <$> (set_cms <$> merge_requests t)).

End database.

(** ** index.ts: the detail enricher *)

Record Details : Type := mkDetails {
  notes : list Note;
  approvalEvents : list ApprovalEvent
}.

(** [fetchMergeRequestDetails]: the notes loop and the approval events (whose
    own [.catch] answers the empty array) inside [try]; [catch] answers
    empty details. *)
Definition fetchMergeRequestDetails (fuel : nat) (gl : GitLab) (mrIid : Z)
    : option Details :=
  match fetchNotes_loop fuel (notes_endpoint gl mrIid) 1 [] with
  | None => None
  | Some Throw => Some (mkDetails [] [])
  | Some (Return allNotes) =>
    let approvalEvents :=
      match resource_approval_events gl mrIid with
      | Some events => events
      | None => []
      end in
    Some (mkDetails allNotes approvalEvents)
  end.

(** [Array.prototype.sort] with a comparison function. The sort is stable,
    and a comparison result of NaN counts as [+0]; insertion from the right
    computes the one stable ordering there is for a consistent comparison
    function. *)
Section ArraySort.
Context {A : Type} (comparefn : A -> A -> number).

Definition sorts_before (a b : A) : bool :=
  match comparefn a b with
  | Some v => v <? 0
  | None => false
  end.

Fixpoint sort_insert (x : A) (l : list A) : list A :=
  match l with
  | [] => [x]
  | y :: l' => if sorts_before y x then y :: sort_insert x l' else x :: l
  end.

Definition Array_sort (l : list A) : list A := foldr sort_insert [] l.
End ArraySort.

Section Derivation.
(** [new Date(s).getTime()]: milliseconds, NaN for an invalid date. *)
Variable Date_getTime : string -> number.

Definition js_sub (a b : number) : number :=
  match a, b with
  | Some x, Some y => Some (x - y)
  | _, _ => NaN
  end.

(** Lines 212-223. *)
Definition firstComment (details : Details) : option string :=
  if negb (Z.of_nat (length (notes details)) <=? 0) then
    let userNotes := List.filter (fun note => negb (note_system note))
                                 (notes details) in
    if negb (Z.of_nat (length userNotes) <=? 0) then
      match Array_sort (fun a b => js_sub (Date_getTime (note_created_at a))
                                          (Date_getTime (note_created_at b)))
                       userNotes with
      | first :: _ => Some (note_created_at first)
      | [] => None
      end
    else None
  else None.

(** Lines 225-236. *)
Definition approvedAt (details : Details) : option string :=
  if negb (Z.of_nat (length (approvalEvents details)) <=? 0) then
    match Array_sort (fun a b => js_sub (Date_getTime (event_created_at a))
                                        (Date_getTime (event_created_at b)))
                     (approvalEvents details) with
    | first :: _ => Some (event_created_at first)
    | [] => None
    end
  else None.

(** Lines 239-251: the object literal has no [squad] and no
    [description]. *)
Definition mrData (projectId : Z) (mr : MergeRequest) (details : Details)
    : database.MergeRequestData :=
  database.mkMergeRequestData
    (mr_id mr) projectId (mr_title mr) None
    (mr_created_at mr) (mr_updated_at mr) (mr_state mr)
    (author_id_of (mr_author mr)) (author_username_of (mr_author mr))
    (firstComment details) (approvedAt details) (mr_merged_at mr) None.
End Derivation.

(** ** index.ts: the reconciler *)

(** What a run has done so far: the tables, the invocations of
    [fetchMergeRequestDetails] (the merge request being processed and the
    [iid] passed), and the three counters. *)
Record Sync : Type := mkSync {
  tables : database.Tables;
  detail_calls : list (Z * Z);
  skippedCount : nat;
  updatedCount : nat;
  newCount : nat
}.

(** A run either reaches its end or is left by a rejection that nothing
    catches (it reaches [main], and the process ends). *)
Inductive outcome : Type :=
  | Finished (s : Sync)
  | Aborted (s : Sync).

Definition final (o : outcome) : Sync :=
  match o with
  | Finished s => s
  | Aborted s => s
  end.

Section Reconciler.
Variable Date_getTime : string -> number.
Variables (fuel : nat) (gl : GitLab) (e : database.Engine) (projectId : Z).

Definition skipped (s : Sync) : Sync :=
  mkSync (tables s) (detail_calls s) (S (skippedCount s))
         (updatedCount s) (newCount s).

(** Lines 201-207. *)
Definition counted (existingMR : option database.MergeRequestData)
    (s : Sync) : Sync :=
  match existingMR with
  | Some _ => mkSync (tables s) (detail_calls s) (skippedCount s)
                     (S (updatedCount s)) (newCount s)
  | None => mkSync (tables s) (detail_calls s) (skippedCount s)
                   (updatedCount s) (S (newCount s))
  end.

(** Lines 200-253: what an iteration does once it has decided not to
    skip. *)
Definition enrich_and_save (existingMR : option database.MergeRequestData)
    (mr : MergeRequest) (s : Sync) : option outcome :=
  let s := counted existingMR s in
  match fetchMergeRequestDetails fuel gl (mr_iid mr) with
  | None => None
  | Some details =>
    let s := mkSync (tables s) (detail_calls s ++ [(mr_id mr, mr_iid mr)])
                    (skippedCount s) (updatedCount s) (newCount s) in
    match database.saveMergeRequest e
            (mrData Date_getTime projectId mr details) (tables s) with
    | Throw => Some (Aborted s)
    | Return t =>
      Some (Finished (mkSync t (detail_calls s) (skippedCount s)
                             (updatedCount s) (newCount s)))
    end
  end.

(** The body of [for (const mr of mergeRequests)], lines 177-198, followed
    by [enrich_and_save]. *)
Definition process_mr (mr : MergeRequest) (s : Sync) : option outcome :=
  let existingMR :=
    database.getMergeRequest e (tables s) projectId (mr_id mr) in
  if match existingMR with
     | Some existing =>
         String.eqb (mr_state mr) "merged"
         && String.eqb (database.state existing) "merged"
     | None => false
     end
  then Some (Finished (skipped s))
  else
    let needsUpdate :=
      match existingMR with
      | Some existing =>
          negb (String.eqb (database.updated_at existing) (mr_updated_at mr))
          || negb (String.eqb (database.state existing) (mr_state mr))
      | None => false
      end in
    if match existingMR with Some _ => negb needsUpdate | None => false end
    then Some (Finished (skipped s))
    else enrich_and_save existingMR mr s.

(** The [for ... of] loop: an iteration that throws ends it. *)
Fixpoint for_of (mergeRequests : list MergeRequest) (s : Sync)
    : option outcome :=
  match mergeRequests with
  | [] => Some (Finished s)
  | mr :: rest =>
    match process_mr mr s with
    | Some (Finished s') => for_of rest s'
    | stopped => stopped
    end
  end.

Definition processAndStoreMergeRequests (project : Project)
    (t : database.Tables) : option outcome :=
  match fetchMergeRequests fuel (merge_requests_endpoint gl) with
  | None => None
  | Some mergeRequests =>
    if Z.of_nat (length mergeRequests) =? 0 then
      Some (Finished (mkSync t [] 0 0 0))
    else
      match database.saveProject e project t with
      | Throw => Some (Aborted (mkSync t [] 0 0 0))
      | Return t => for_of mergeRequests (mkSync t [] 0 0 0)
      end
  end.
End Reconciler.

(** ** A reading of timestamps

    The timestamps GitLab sends are ISO 8601 in UTC. Both [Date] and SQLite's
    [strftime] read the three shapes below the same way; they instantiate
    [Date_getTime] and [strftime_s] wherever a concrete run is evaluated. *)

Module clock.

Definition digit (c : ascii) : option Z :=
  let n := Z.of_N (N_of_ascii c) in
  if (48 <=? n) && (n <=? 57) then Some (n - 48) else None.

Fixpoint digits (s : string) (acc : Z) : option Z :=
  match s with
  | EmptyString => Some acc
  | String c s' =>
    match digit c with
    | Some d => digits s' (10 * acc + d)
    | None => None
    end
  end.

(** The [len] characters from [start], read as a decimal numeral. *)
Definition field (s : string) (start len : nat) : option Z :=
  let f := substring start len s in
  if Nat.eqb (String.length f) len then digits f 0 else None.

Definition char_at (s : string) (i : nat) (c : ascii) : bool :=
  match get i s with
  | Some c' => Ascii.eqb c c'
  | None => false
  end.

(** Days from 1970-01-01 to a date of the proleptic Gregorian calendar. *)
Definition days_from_civil (y m d : Z) : Z :=
  let y := if m <=? 2 then y - 1 else y in
  let era := y / 400 in
  let yoe := y - era * 400 in
  let doy := (153 * (if 2 <? m then m - 3 else m + 9) + 2) / 5 + d - 1 in
  let doe := yoe * 365 + yoe / 4 - yoe / 100 + doy in
  era * 146097 + doe - 719468.

Definition in_range (lo hi v : Z) : option Z :=
  if (lo <=? v) && (v <=? hi) then Some v else None.

(** [YYYY-MM-DD] at the head of [s]: milliseconds at midnight. *)
Definition date_ms (s : string) : option Z :=
  if char_at s 4 "-" && char_at s 7 "-" then
    y ← field s 0 4;
    m ← field s 5 2 ≫= in_range 1 12;
    d ← field s 8 2 ≫= in_range 1 31;
    Some (days_from_civil y m d * 86400000)
  else None.

(** [THH:MM:SS] from position 10: milliseconds into the day. *)
Definition time_ms (s : string) : option Z :=
  if char_at s 10 "T" && char_at s 13 ":" && char_at s 16 ":" then
    h ← field s 11 2 ≫= in_range 0 23;
    mi ← field s 14 2 ≫= in_range 0 59;
    se ← field s 17 2 ≫= in_range 0 59;
    Some ((h * 60 + mi) * 60000 + se * 1000)
  else None.

(** [YYYY-MM-DD], [YYYY-MM-DDTHH:MM:SSZ] or [YYYY-MM-DDTHH:MM:SS.mmmZ]. *)
Definition iso8601_ms (s : string) : option Z :=
  match String.length s with
  | 10%nat => date_ms s
  | 20%nat =>
    if char_at s 19 "Z" then
      d ← date_ms s; t ← time_ms s; Some (d + t)
    else None
  | 24%nat =>
    if char_at s 19 "." && char_at s 23 "Z" then
      d ← date_ms s; t ← time_ms s; f ← field s 20 3; Some (d + t + f)
    else None
  | _ => None
  end.

Definition Date_getTime (s : string) : number := iso8601_ms s.

Definition strftime_s (s : string) : option Z :=
  ms ← iso8601_ms s; Some (ms / 1000).

End clock.

(** ** Vocabulary of the statements *)

(** The two signals of the walker's termination policy, as the
    specification words them: the source declares a total page count
    greater than the current page index; the page just fetched is full. *)
Definition declares_more_pages {A : Type} (page : Z) (r : response A) : Prop :=
  exists n, Number_or_zero (x_total_pages r) = Some n /\ page < n.

Definition full_page {A : Type} (r : response A) : Prop :=
  length (json r) = 100%nat.

(** Requests the merge-request walk issues when [remaining] items are still
    to be served. *)
Definition requests_needed (remaining : nat) : nat :=
  match remaining with
  | O => 1
  | _ => remaining / 100 + 2
  end.

(** An endpoint whose first page holds two items and announces a second
    page, and whose second page fails. *)
Definition flaky_endpoint : endpoint Z :=
  fun page => if page =? 1 then Some (mkResponse [7; 8] (Numeric 2)) else None.

(** A collection of 250 items. *)
Definition items_250 : list nat := seq 0 250.

(** A merge request with 250 human comments, served newest first as GitLab
    does: 249 of them written at 10:05 and the oldest one at 10:01. *)
Definition notes_250 : list Note :=
  replicate 249 (mkNote "2025-04-01T10:05:00Z" false)
  ++ [mkNote "2025-04-01T10:01:00Z" false].

(** A project whose only traffic is the notes of its merge requests. *)
Definition notes_only (ns : list Note) (hdr : Z -> header) : GitLab :=
  mkGitLab (fun _ => None) (fun _ => serve ns hdr) (fun _ => Some []).

(** [a <= b] on numbers; false when either is NaN. *)
Definition js_le (a b : number) : Prop :=
  match a, b with
  | Some x, Some y => x <= y
  | _, _ => False
  end.

(** The comments of the specification's example: a system note one minute
    after 10:00 and a human comment five minutes after. *)
Definition system_then_human : Details :=
  mkDetails [mkNote "2025-04-01T10:01:00Z" true;
             mkNote "2025-04-01T10:05:00Z" false] [].

(** The four outcomes of the reconciler, read off the conditions of lines
    181-198. *)
Inductive action : Type :=
  | skip_terminal
  | skip_unchanged
  | update
  | insert.

Definition decide_action (existingMR : option database.MergeRequestData)
    (mr : MergeRequest) : action :=
  match existingMR with
  | None => insert
  | Some existing =>
    if String.eqb (mr_state mr) "merged"
       && String.eqb (database.state existing) "merged"
    then skip_terminal
    else if negb (String.eqb (database.updated_at existing) (mr_updated_at mr))
            || negb (String.eqb (database.state existing) (mr_state mr))
    then update
    else skip_unchanged
  end.

Definition is_skip (a : action) : bool :=
  match a with
  | skip_terminal | skip_unchanged => true
  | update | insert => false
  end.

(** A remote record is settled in a table when the stored row agrees with it
    on [state], and either on [updated_at] or on being merged. *)
Definition settled (projectId : Z) (t : database.Tables) (mr : MergeRequest)
    : Prop :=
  exists row,
    database.merge_requests t !! (mr_id mr, projectId) = Some row
    /\ database.state row = mr_state mr
    /\ (mr_state mr = "merged"
        \/ database.updated_at row = mr_updated_at mr).

(** Two remote records that, if they carry the same id, also carry the same
    [updated_at] and [state]. *)
Definition agree (a b : MergeRequest) : Prop :=
  mr_id a = mr_id b ->
  mr_updated_at a = mr_updated_at b /\ mr_state a = mr_state b.

(** [t2] is [t1] up to the squad column of the merge requests. *)
Definition relabelled (t1 t2 : database.Tables) : Prop :=
  database.projects t2 = database.projects t1
  /\ forall k,
       option_Forall2
         (fun r1 r2 => exists s, r2 = database.with_squad s r1)
         (database.merge_requests t1 !! k) (database.merge_requests t2 !! k).

(** *** A small project, for concrete runs *)

Definition project_1 : Project :=
  mkProject 1 "web" "murid/web" "2025-01-01T00:00:00Z".

Definition alvin : Author := mkAuthor 11 "alvin.yaputra".
Definition dewi : Author := mkAuthor 12 "dewi".

(** GitLab serving the given merge requests, each with the same notes, page
    counts reported truthfully and no approval events. *)
Definition gitlab_with (mrs : list MergeRequest) (ns : list Note) : GitLab :=
  mkGitLab (serve mrs (fun _ => Numeric (page_count mrs)))
           (fun _ => serve ns (fun _ => Numeric (page_count ns)))
           (fun _ => Some []).

Definition one_comment : list Note :=
  [mkNote "2025-04-01T10:05:00Z" false].

Definition no_tables : database.Tables := database.mkTables ∅ ∅.

Definition table_of (rs : list database.MergeRequestData) : database.Tables :=
  database.mkTables
    {[ 1 := project_1 ]}
    (list_to_map (map (fun r => ((database.id r, database.project_id r), r)) rs)).

(** Merge request 1 as the remote side shows it: still open, touched on
    April 2nd. *)
Definition mr_1_opened : MergeRequest :=
  mkMergeRequest 1 1 "Add login" "2025-04-01T10:00:00Z"
                 "2025-04-02T09:00:00Z" "opened" alvin None.

(** The same merge request, merged remotely, touched on April 3rd. *)
Definition mr_1_merged : MergeRequest :=
  mkMergeRequest 1 1 "Add login" "2025-04-01T10:00:00Z"
                 "2025-04-03T09:00:00Z" "merged" alvin
                 (Some "2025-04-02T08:00:00Z").

Definition mr_2_opened : MergeRequest :=
  mkMergeRequest 2 2 "Fix logout" "2025-04-01T11:00:00Z"
                 "2025-04-01T11:30:00Z" "opened" dewi None.

(** Row 1 as an earlier run and the squad script left it: open, last
    touched on April 1st, labelled CMS. *)
Definition row_1_opened_cms : database.MergeRequestData :=
  database.mkMergeRequestData 1 1 "Add login" None "2025-04-01T10:00:00Z"
    "2025-04-01T12:00:00Z" "opened" 11 "alvin.yaputra"
    None None None (Some "CMS").

(** Row 1 stored as merged, with its derived timestamps, labelled CMS. *)
Definition row_1_merged_cms : database.MergeRequestData :=
  database.mkMergeRequestData 1 1 "Add login" None "2025-04-01T10:00:00Z"
    "2025-04-02T08:00:00Z" "merged" 11 "alvin.yaputra"
    (Some "2025-04-01T10:02:00Z") (Some "2025-04-01T10:30:00Z")
    (Some "2025-04-02T08:00:00Z") (Some "CMS").

(** An engine that rejects every point lookup. *)
Definition lookups_fail : database.Engine :=
  database.mkEngine (fun _ _ => true) (fun _ => false) (fun _ => false).

(** An engine that rejects the upsert of merge request 1. *)
Definition write_1_fails : database.Engine :=
  database.mkEngine (fun _ _ => false) (fun r => database.id r =? 1)
                    (fun _ => false).

(** A run of the whole sync with the concrete clock, on project 1. *)
Definition sync (e : database.Engine) (gl : GitLab) (t : database.Tables)
    : option outcome :=
  processAndStoreMergeRequests clock.Date_getTime 4 gl e 1 project_1 t.

(** The stored row of merge request [i] of project 1 after a run. *)
Definition row_after (o : option outcome) (i : Z)
    : option database.MergeRequestData :=
  o ≫= fun out => database.merge_requests (tables (final out)) !! (i, 1).

(** Where a first run, on a healthy engine, leaves the tables that held
    row 1 labelled CMS, GitLab showing merge requests 1 and 2. *)
Definition after_first_run : Sync :=
  match sync database.healthy (gitlab_with [mr_1_opened; mr_2_opened] one_comment)
             (table_of [row_1_opened_cms]) with
  | Some out => final out
  | None => mkSync no_tables [] 0 0 0
  end.

(** *** Vocabulary of the analytics statements *)

Definition sum_Qc (l : list Qc) : Qc := foldr Qcplus (Qc_of_Z 0) l.

(** The mean as the specification words it, of exact numbers: the sum
    divided by the number of values; no mean of no values. *)
Definition mean (l : list Qc) : option Qc :=
  match l with
  | [] => None
  | _ :: _ => Some (sum_Qc l / Qc_of_Z (Z.of_nat (length l)))%Qc
  end.

(** The delta of a record, as the specification words it: the derived
    timestamp minus [created_at], in seconds, divided by 60; none for a
    record without that timestamp. *)
Definition delta_minutes (strftime_s : string -> option Z)
    (ts : database.MergeRequestData -> option string)
    (r : database.MergeRequestData) : option Qc :=
  match ts r with
  | Some t =>
      let seconds := default 0 (strftime_s t)
                     - default 0 (strftime_s (database.created_at r)) in
      Some (Qc_of_Z seconds / Qc_of_Z 60)%Qc
  | None => None
  end.

(** A row all of whose timestamps are dates to [strftime]. *)
Definition readable (strftime_s : string -> option Z)
    (r : database.MergeRequestData) : Prop :=
  is_Some (strftime_s (database.created_at r))
  /\ forall t,
       database.first_comment_at r = Some t
       \/ database.approved_at r = Some t
       \/ database.merged_at r = Some t ->
       is_Some (strftime_s t).

(** A labelled open merge request of project 1 created at [created], first
    commented at [commented]. *)
Definition web_row (i : Z) (created : string) (commented : option string)
    : database.MergeRequestData :=
  database.mkMergeRequestData i 1 "Change" None created created "opened"
    12 "dewi" commented None None (Some "WEB").

(** Three records whose first comments came after 10 minutes, never, and
    after 30 minutes. *)
Definition three_records : list database.MergeRequestData :=
  [web_row 1 "2025-04-01T10:00:00Z" (Some "2025-04-01T10:10:00Z");
   web_row 2 "2025-04-01T11:00:00Z" None;
   web_row 3 "2025-04-01T12:00:00Z" (Some "2025-04-01T12:30:00Z")].

Definition three_rows : database.Tables := table_of three_records.

(** One record created on April 30th at 10:20:30, first commented two hours
    later. *)
Definition april_30 : database.Tables :=
  table_of [web_row 1 "2025-04-30T10:20:30.000Z"
                    (Some "2025-04-30T12:20:30.000Z")].

(** ** index.ts: the remaining helpers *)

Record Group : Type := mkGroup {
  group_id : Z;
  group_name : string;
  group_path : string
}.

(** [getGroupId]: the groups the search returned ([None] when the request
    rejects), [find] by exact name or path, and [null] from [catch]. *)
Definition getGroupId (groups : option (list Group)) (groupName : string)
    : option Z :=
  match groups with
  | None => None
  | Some groups =>
    match List.find (fun g => String.eqb (group_name g) groupName
                              || String.eqb (group_path g) groupName)
                    groups with
    | Some group => Some (group_id group)
    | None => None
    end
  end.

(** The whole numbers that a JS number holds exactly: up to 2^53 - 1 in
    magnitude. *)
Definition MAX_SAFE_INTEGER : Z := 2 ^ 53 - 1.

Definition isSafeInteger (n : Z) : bool := Z.abs n <=? MAX_SAFE_INTEGER.

(** The three numbers [formatTime] computes, lines 264-266, for a whole
    number of minutes: [Math.floor] of a quotient is the floor division,
    [%] is the remainder that takes the sign of the dividend. The numbers
    are doubles: the quotients are rounded before [Math.floor] sees them,
    which leaves the floor as it is up to [MAX_SAFE_INTEGER]; beyond, the
    integers say nothing ([None]). *)
Definition time_parts (minutes : Z) : option (Z * Z * Z) :=
  if isSafeInteger minutes then
    let days := minutes / (60 * 24) in
    let hours := Z.rem minutes (60 * 24) / 60 in
    let mins := Z.rem minutes 60 in
    Some (days, hours, mins)
  else None.

(** [formatTime], lines 261-275. The argument is [null] ([None]), NaN
    ([Some None]) or a whole number of minutes up to [MAX_SAFE_INTEGER] in
    magnitude, the range on which the result is [Some]; a template literal
    prints an integer in decimal. *)
Definition formatTime (minutes : option number) : option string :=
  match minutes with
  | None | Some None => Some "N/A"
  | Some (Some minutes) =>
    match time_parts minutes with
    | Some (days, hours, mins) =>
      Some (if 0 <? days then
              pretty days +:+ "d " +:+ pretty hours +:+ "h "
                +:+ pretty mins +:+ "m"
            else if 0 <? hours then
              pretty hours +:+ "h " +:+ pretty mins +:+ "m"
            else pretty mins +:+ "m")
    | None => None
    end
  end.

(** ** database.ts: the schema that [initDatabase] leaves

    A database file is seen here as its ordinary tables, in the order of
    their creation, each with its column names in order: no views, no
    virtual and no STRICT tables, which reject statements for reasons of
    their own. *)
Module schema.

(** Names of tables and columns are compared as the engine compares
    identifiers ([sqlite3StrICmp]): the letters A to Z of ASCII fold to
    lower case, no other byte does. *)
Definition UpperToLower (c : ascii) : ascii :=
  let n := N_of_ascii c in
  if ((65 <=? n) && (n <=? 90))%N then ascii_of_N (n + 32) else c.

Fixpoint fold_case (s : string) : string :=
  match s with
  | EmptyString => EmptyString
  | String c s => String (UpperToLower c) (fold_case s)
  end.

Definition same_name (a b : string) : bool :=
  String.eqb (fold_case a) (fold_case b).

Record Table : Type := mkTable {
  table_name : string;
  columns : list string
}.

Definition find_table (name : string) (s : list Table) : option Table :=
  List.find (fun t => same_name (table_name t) name) s.

Definition has_column (column : string) (cols : list string) : bool :=
  existsb (same_name column) cols.

(** The most columns a table may have, as the engine is built by default. *)
Definition SQLITE_MAX_COLUMN : nat := 2000.

Definition create_table_if_not_exists (table : string) (cols : list string)
    (s : list Table) : list Table :=
  match find_table table s with
  | Some _ => s
  | None => s ++ [mkTable table cols]
  end.

(** [ALTER TABLE t ADD COLUMN c] is rejected when the table is missing,
    when it is at the limit of columns, and when it has a column of that
    name, in whatever case. *)
Fixpoint add_column (table column : string) (s : list Table)
    : completion (list Table) :=
  match s with
  | [] => Throw
  | t :: rest =>
    if same_name (table_name t) table then
      if Nat.ltb SQLITE_MAX_COLUMN (length (columns t) + 1) then Throw
      else if has_column column (columns t) then Throw
      else Return (mkTable (table_name t) (columns t ++ [column]) :: rest)
    else
      match add_column table column rest with
      | Return rest' => Return (t :: rest')
      | Throw => Throw
      end
  end.

(** [try { await db.exec(ALTER ...) } catch { log }] *)
Definition try_add_column (table column : string) (s : list Table)
    : list Table :=
  match add_column table column s with
  | Return s' => s'
  | Throw => s
  end.

Definition projects_columns : list string :=
  ["id"; "name"; "path_with_namespace"; "created_at"].

Definition merge_requests_columns : list string :=
  ["id"; "project_id"; "title"; "created_at"; "updated_at"; "state";
   "author_id"; "author_username"; "first_comment_at"; "approved_at";
   "merged_at"].

(** Lines 526-569. *)
Definition migrate (s : list Table) : list Table :=
  let s := create_table_if_not_exists "projects" projects_columns s in
  let s := create_table_if_not_exists "merge_requests" merge_requests_columns s in
  let s := try_add_column "merge_requests" "squad" s in
  try_add_column "merge_requests" "description" s.

(** [initDatabase]: the module variable [db] ([opened]) short-cuts a second
    call. *)
Definition initDatabase (opened : bool) (s : list Table)
    : bool * list Table :=
  if opened then (true, s) else (true, migrate s).

End schema.

(** *** Vocabulary of the further statements *)

(** The items of a page, none for a page whose request fails. *)
Definition page_items {A : Type} (api : endpoint A) (page : Z) : list A :=
  match api page with
  | Some r => json r
  | None => []
  end.

(** Pages 1 to [k], one after the other. *)
Definition pages_through {A : Type} (api : endpoint A) (k : nat) : list A :=
  flat_map (fun i => page_items api (Z.of_nat i + 1)) (seq 0 k).

(** A source that answers every page with the same 100 items and declares
    a single page. *)
Definition endless_endpoint : endpoint Z :=
  fun _ => Some (mkResponse (replicate 100 0) (Numeric 1)).

(** The search result for "murid": a group whose name only contains the
    term, then the group itself. *)
Definition murid_groups : list Group :=
  [mkGroup 7 "murid-archive" "murid-archive"; mkGroup 9 "Murid" "murid"].

(** The condition of [getGroupId]'s [find]. *)
Definition group_matches (groupName : string) (g : Group) : Prop :=
  group_name g = groupName \/ group_path g = groupName.

(** A file written by the first version of the program: both tables, no
    [squad] and no [description] column. *)
Definition old_file : list schema.Table :=
  [schema.mkTable "projects" schema.projects_columns;
   schema.mkTable "merge_requests" schema.merge_requests_columns].

(** A file whose [merge_requests] table spells the column SQUAD. *)
Definition shouting_file : list schema.Table :=
  [schema.mkTable "merge_requests" ["id"; "SQUAD"]].

(** A file whose table, named in capitals, has 1999 columns c0 to c1998. *)
Definition crowded_columns : list string :=
  map (fun i => "c" +:+ pretty (Z.of_nat i)) (seq 0 1999).

Definition crowded_file : list schema.Table :=
  [schema.mkTable "MERGE_REQUESTS" crowded_columns].

(** GitLab whose notes come in two pages, the second of which fails, while
    an approval event is on record. *)
Definition flaky_notes : GitLab :=
  mkGitLab (serve [mr_1_opened] (fun _ => Numeric 1))
           (fun _ page =>
              if page =? 1 then Some (mkResponse one_comment (Numeric 2))
              else None)
           (fun _ => Some [mkApprovalEvent "2025-04-01T10:30:00Z"]).

(** GitLab whose approval-event request fails. *)
Definition no_approvals_service : GitLab :=
  mkGitLab (serve [mr_1_opened] (fun _ => Numeric 1))
           (fun _ => serve one_comment (fun _ => Numeric 1))
           (fun _ => None).

(** Two approvals, the later one listed first. *)
Definition two_approvals : Details :=
  mkDetails [] [mkApprovalEvent "2025-04-01T11:00:00Z";
                mkApprovalEvent "2025-04-01T10:30:00Z"].

(** The comments of [system_then_human] in the opposite order. *)
Definition human_then_system : Details :=
  mkDetails [mkNote "2025-04-01T10:05:00Z" false;
             mkNote "2025-04-01T10:01:00Z" true] [].

(** Merge request 1 as GitLab shows it after a title edit that left
    [updated_at] and [state] as row 1 has them. *)
Definition mr_1_retitled : MergeRequest :=
  mkMergeRequest 1 1 "Add login page" "2025-04-01T10:00:00Z"
                 "2025-04-01T12:00:00Z" "opened" alvin None.

(** An engine that rejects the upsert of the project. *)
Definition project_write_fails : database.Engine :=
  database.mkEngine (fun _ _ => false) (fun _ => false) (fun _ => true).

(** GitLab whose merge-request list fails on its second page. *)
Definition flaky_list : GitLab :=
  mkGitLab (fun page =>
              if page =? 1
              then Some (mkResponse [mr_1_opened; mr_2_opened] (Numeric 2))
              else None)
           (fun _ => serve one_comment (fun _ => Numeric 1))
           (fun _ => Some []).

(** Merge request 1 of another project: same id, project 2. *)
Definition row_1_of_project_2 : database.MergeRequestData :=
  database.mkMergeRequestData 1 2 "Bump" None "2025-03-01T09:00:00Z"
    "2025-03-01T09:30:00Z" "opened" 12 "dewi" None None None None.

Definition sum_Z (l : list Z) : Z := foldr Z.add 0 l.

(** A closed record, an unlabelled one and one of another project. *)
Definition excluded_rows : database.Tables :=
  table_of
    [database.mkMergeRequestData 1 1 "Closed" None "2025-04-01T10:00:00Z"
       "2025-04-01T10:00:00Z" "closed" 12 "dewi"
       (Some "2025-04-01T12:00:00Z") None None (Some "WEB");
     database.mkMergeRequestData 2 1 "Unlabelled" None "2025-04-01T10:00:00Z"
       "2025-04-01T10:00:00Z" "opened" 12 "dewi"
       (Some "2025-04-01T12:00:00Z") None None None;
     database.mkMergeRequestData 3 2 "Elsewhere" None "2025-04-01T10:00:00Z"
       "2025-04-01T10:00:00Z" "opened" 12 "dewi"
       (Some "2025-04-01T12:00:00Z") None None (Some "WEB")].

(** The label a row carries after update_squads.sql, by author: CMS for
    the five CMS usernames whatever the row held, the old label for
    ikhsan.hari, and for anyone else the old label if there is one and WEB
    otherwise. *)
Definition label_after (r : database.MergeRequestData) : option string :=
  if database.username_in database.cms_usernames (database.author_username r)
  then Some "CMS"
  else if String.eqb (database.author_username r) "ikhsan.hari"
  then database.squad r
  else match database.squad r with
       | Some s => Some s
       | None => Some "WEB"
       end.

(** A table with an unlabelled row of ikhsan.hari. *)
Definition ikhsan_table : database.Tables :=
  table_of [database.mkMergeRequestData 5 1 "Docs" None "2025-04-01T10:00:00Z"
              "2025-04-01T10:00:00Z" "opened" 13 "ikhsan.hari"
              None None None None].

(** What [try_add_column] leaves of the columns of the table it names. *)
Definition with_column (column : string) (cols : list string)
    : list string :=
  if Nat.ltb schema.SQLITE_MAX_COLUMN (length cols + 1)
     || schema.has_column column cols
  then cols else cols ++ [column].

(** What [initDatabase] leaves of the columns of [merge_requests]. *)
Definition upgraded (cols : list string) : list string :=
  with_column "description" (with_column "squad" cols).

(** The first table of that name, its columns changed by [f]. *)
Fixpoint alter_first (table : string) (f : list string -> list string)
    (s : list schema.Table) : list schema.Table :=
  match s with
  | [] => []
  | t :: rest =>
    if schema.same_name (schema.table_name t) table
    then schema.mkTable (schema.table_name t) (f (schema.columns t)) :: rest
    else t :: alter_first table f rest
  end.

(** The tables that the two CREATE statements add to a file. *)
Definition fresh_tables (s : list schema.Table) : list schema.Table :=
  (match schema.find_table "projects" s with
   | Some _ => []
   | None => [schema.mkTable "projects" schema.projects_columns]
   end)
  ++ (match schema.find_table "merge_requests" s with
      | Some _ => []
      | None => [schema.mkTable "merge_requests" schema.merge_requests_columns]
      end).

(** A table after the upgrade: the name it had; the columns it had, in
    order, then what was added; nothing added unless it is
    [merge_requests]. *)
Definition kept_as (t t' : schema.Table) : Prop :=
  schema.table_name t' = schema.table_name t
  /\ exists more,
       schema.columns t' = schema.columns t ++ more
       /\ (schema.same_name (schema.table_name t) "merge_requests" = false ->
           more = []).

(** *** Vocabulary of the averages in double arithmetic *)

(** The mean of a list of doubles as double arithmetic gives it: the
    compensated sum of the values, in the order given, divided by their
    number; no mean of no values. *)
Definition double_mean (l : list float) : option float :=
  match l with
  | [] => None
  | _ :: _ =>
    let p := fold_left database.kahanBabuskaStep l
               (database.mkSumCtx PrimFloat.zero PrimFloat.zero 0) in
    let total := if database.IsOverflow (database.rErr p) then database.rSum p
                 else PrimFloat.add (database.rSum p) (database.rErr p) in
    Some (PrimFloat.div total (database.real_of_int (Z.of_nat (length l))))
  end.

(** The delta of a record in doubles: the derived timestamp minus
    [created_at], in seconds, divided by the double 60; none for a record
    without that timestamp. *)
Definition double_delta (strftime_s : string -> option Z)
    (ts : database.MergeRequestData -> option string)
    (r : database.MergeRequestData) : option float :=
  match ts r with
  | Some t =>
      let seconds := default 0 (strftime_s t)
                     - default 0 (strftime_s (database.created_at r)) in
      Some (PrimFloat.div (database.real_of_int seconds) 60%float)
  | None => None
  end.

(** The rational number a finite double stands for. *)
Definition exact_value (x : float) : option Q :=
  match Prim2SF x with
  | S754_zero _ => Some (0 # 1)
  | S754_finite s m e =>
      let magnitude :=
        match e with
        | Z0 => Zpos m # 1
        | Zpos k => (Zpos m * 2 ^ Zpos k) # 1
        | Zneg k => Zpos m # (2 ^ k)
        end in
      Some (if s then Qopp magnitude else magnitude)
  | _ => None
  end.

(** Three records whose first comments came after 6, 12 and 18 seconds:
    a tenth, a fifth and three tenths of a minute. *)
Definition seconds_records : list database.MergeRequestData :=
  [web_row 1 "2025-04-01T10:00:00Z" (Some "2025-04-01T10:00:06Z");
   web_row 2 "2025-04-01T11:00:00Z" (Some "2025-04-01T11:00:12Z");
   web_row 3 "2025-04-01T12:00:00Z" (Some "2025-04-01T12:00:18Z")].

(** The double printed 0.19999999999999998, one unit in the last place
    below the double nearest to a fifth. *)
Definition below_one_fifth : float := 0x1.9999999999999p-3%float.

(** * Properties *)

(** ** The pagination loops *)

Section WalkFacts.
Context {A : Type}.
Implicit Types (coll : list A) (hdr : Z -> header) (api : endpoint A).

Lemma hasMorePages_spec page (r : response A) :
  1 <= page ->
  hasMorePages page r = true <-> declares_more_pages page r \/ full_page r.
Proof.
  intros Hpage. unfold hasMorePages, declares_more_pages, full_page.
  rewrite orb_true_iff, andb_true_iff, Z.eqb_eq.
  destruct (Number_or_zero (x_total_pages r)) as [n|]; cbn.
  - rewrite !Z.ltb_lt. split.
    + intros [[_ Hlt]|Hfull]; [left; eauto | right; lia].
    + intros [(m & [= <-] & Hlt)|Hfull]; [left; lia | right; lia].
  - split.
    + intros [[[=] _]|Hfull]. right; lia.
    + intros [(m & [=] & _)|Hfull]. right; lia.
Qed.

Lemma loop_empty_page fuel api page (r : response A) acc :
  api page = Some r -> json r = [] ->
  fetchMergeRequests_loop (S fuel) api page acc = Some (Return acc).
Proof. intros Hr Hnil. cbn. by rewrite Hr, Hnil. Qed.

Lemma loop_nonempty_page fuel api page (r : response A) acc :
  api page = Some r -> json r <> [] ->
  fetchMergeRequests_loop (S fuel) api page acc
  = if hasMorePages page r
    then fetchMergeRequests_loop fuel api (page + 1) (acc ++ json r)
    else Some (Return (acc ++ json r)).
Proof.
  intros Hr Hne. cbn [fetchMergeRequests_loop]. rewrite Hr.
  destruct (json r) as [|x l] eqn:Hj; [done|]. done.
Qed.

Lemma serve_page coll hdr (k : nat) :
  serve coll hdr (Z.of_nat k + 1)
  = Some (mkResponse (take 100 (drop (100 * k) coll)) (hdr (Z.of_nat k + 1))).
Proof.
  unfold serve.
  replace (Z.to_nat ((Z.of_nat k + 1 - 1) * 100)) with (100 * k)%nat by lia.
  done.
Qed.

Lemma loop_serve coll hdr (fuel k : nat) :
  (requests_needed (length coll - 100 * k) <= fuel)%nat ->
  fetchMergeRequests_loop fuel (serve coll hdr) (Z.of_nat k + 1)
                          (take (100 * k) coll)
  = Some (Return coll).
Proof.
  revert k. induction fuel as [|fuel IH]; intros k Hfuel.
  - unfold requests_needed in Hfuel. destruct (length coll - 100 * k)%nat; lia.
  - cbn [fetchMergeRequests_loop]. rewrite serve_page. cbn [json].
    set (pg := take 100 (drop (100 * k) coll)).
    assert (Hlen : length pg = ((length coll - 100 * k) `min` 100)%nat).
    { unfold pg. rewrite length_take, length_drop. lia. }
    destruct (Z.of_nat (length pg) =? 0) eqn:Hempty.
    + apply Z.eqb_eq in Hempty. do 2 f_equal. apply take_ge. lia.
    + apply Z.eqb_neq in Hempty.
      assert (Hacc : take (100 * k) coll ++ pg = take (100 * S k) coll).
      { unfold pg. rewrite take_take_drop. f_equal. lia. }
      rewrite Hacc.
      destruct (hasMorePages _ _) eqn:Hmore.
      * replace (Z.of_nat k + 1 + 1) with (Z.of_nat (S k) + 1) by lia.
        apply IH. unfold requests_needed in *.
        destruct (length coll - 100 * k)%nat as [|r] eqn:Hr; [lia|].
        destruct (length coll - 100 * S k)%nat as [|r'] eqn:Hr'; [lia|].
        assert (Hshift : (S r' + 100 = S r)%nat) by lia.
        assert (S r / 100 = S r' / 100 + 1)%nat.
        { rewrite <- Hshift. rewrite <- (Nat.div_add _ 1 100) by lia. f_equal. }
        lia.
      * unfold hasMorePages in Hmore. cbn [json] in Hmore.
        apply orb_false_iff in Hmore as [_ Hfull].
        apply Z.eqb_neq in Hfull.
        do 2 f_equal. apply take_ge. lia.
Qed.

Lemma fetchMergeRequests_serve coll hdr (fuel : nat) :
  (length coll / 100 + 2 <= fuel)%nat ->
  fetchMergeRequests fuel (serve coll hdr) = Some coll.
Proof.
  intros Hfuel. unfold fetchMergeRequests.
  pose proof (loop_serve coll hdr fuel 0) as H.
  rewrite take_0 in H. change (Z.of_nat 0 + 1) with 1 in H. rewrite H; [done|].
  unfold requests_needed. rewrite Nat.mul_0_r, Nat.sub_0_r.
  destruct (length coll); lia.
Qed.

(** A walk that reaches a failing page ends in the [catch] block. *)
Lemma loop_reaches_failure api (k : nat) : forall (fuel : nat) page acc,
  (forall q, page <= q < page + Z.of_nat k ->
     exists r, api q = Some r /\ json r <> [] /\ hasMorePages q r = true) ->
  api (page + Z.of_nat k) = None ->
  (k < fuel)%nat ->
  fetchMergeRequests_loop fuel api page acc = Some Throw.
Proof.
  induction k as [|k IH]; intros fuel page acc Hok Hfail Hfuel.
  - destruct fuel as [|fuel]; [lia|]. cbn.
    replace (page + Z.of_nat 0) with page in Hfail by lia. by rewrite Hfail.
  - destruct fuel as [|fuel]; [lia|].
    destruct (Hok page) as (r & Hr & Hne & Hmore); [lia|].
    rewrite (loop_nonempty_page _ _ _ r) by done. rewrite Hmore.
    apply IH; [|by replace (page + 1 + Z.of_nat k) with (page + Z.of_nat (S k)) by lia|lia].
    intros q Hq. apply Hok. lia.
Qed.

(** The notes loop asks for one page when the header is absent. *)
Lemma fetchNotes_absent_header coll (fuel : nat) :
  fetchNotes_loop (S fuel) (serve coll (fun _ => Absent)) 1 []
  = Some (Return (take 100 coll)).
Proof. cbn. by rewrite drop_0. Qed.

(** The notes loop drains a collection whose page count is reported
    truthfully. *)
Lemma fetchNotes_truthful_header_from coll (fuel k : nat) :
  (Z.to_nat (Number_or_one (Numeric (page_count coll))) - k <= fuel)%nat ->
  Z.of_nat k < Number_or_one (Numeric (page_count coll)) ->
  fetchNotes_loop fuel (serve coll (fun _ => Numeric (page_count coll)))
                  (Z.of_nat k + 1) (take (100 * k) coll)
  = Some (Return coll).
Proof.
  revert k. induction fuel as [|fuel IH]; intros k Hfuel Hk; [lia|].
  cbn [fetchNotes_loop]. rewrite serve_page. cbn [json x_total_pages].
  rewrite take_take_drop.
  replace (100 * k + 100)%nat with (100 * S k)%nat by lia.
  destruct (Z.of_nat k + 1 <? _) eqn:Hlt.
  - apply Z.ltb_lt in Hlt.
    replace (Z.of_nat k + 1 + 1) with (Z.of_nat (S k) + 1) by lia.
    apply IH; lia.
  - apply Z.ltb_ge in Hlt. do 2 f_equal. apply take_ge.
    unfold Number_or_one, page_count in Hlt.
    destruct (_ =? 0) eqn:Hz.
    + apply Z.eqb_eq in Hz. Z.div_mod_to_equations. lia.
    + Z.div_mod_to_equations. lia.
Qed.

Lemma fetchNotes_truthful_header coll (fuel : nat) :
  (length coll / 100 + 1 <= fuel)%nat ->
  fetchNotes_loop fuel (serve coll (fun _ => Numeric (page_count coll))) 1 []
  = Some (Return coll).
Proof.
  intros Hfuel.
  pose proof (fetchNotes_truthful_header_from coll fuel 0) as H.
  rewrite take_0 in H. change (Z.of_nat 0 + 1) with 1 in H. apply H.
  - unfold Number_or_one, page_count. destruct (_ =? 0) eqn:Hz.
    + lia.
    + assert ((Z.of_nat (length coll) + 99) / 100
              <= Z.of_nat (length coll / 100) + 1); [|lia].
      rewrite Nat2Z.inj_div. change (Z.of_nat 100) with 100.
      Z.div_mod_to_equations. lia.
  - unfold Number_or_one, page_count. destruct (_ =? 0) eqn:Hz; [lia|].
    apply Z.eqb_neq in Hz. change (Z.of_nat 0) with 0.
    Z.div_mod_to_equations. lia.
Qed.
End WalkFacts.

(** C5: on a collection served with the requested page size, the
    merge-request walk stops at an empty page, otherwise goes on exactly
    while the declared page count exceeds the page index or the page was
    full, and returns every item in order; 250 items at page size 100 come
    back complete whether the page count is reported as 3 or as 0. *)
Theorem fetchMergeRequests_walks_whole_collection :
  (forall (A : Type) (fuel : nat) (api : endpoint A) page r acc,
      1 <= page -> api page = Some r ->
      (json r = [] ->
         fetchMergeRequests_loop (S fuel) api page acc = Some (Return acc))
      /\ (json r <> [] -> declares_more_pages page r \/ full_page r ->
            fetchMergeRequests_loop (S fuel) api page acc
            = fetchMergeRequests_loop fuel api (page + 1) (acc ++ json r))
      /\ (json r <> [] -> ~ (declares_more_pages page r \/ full_page r) ->
            fetchMergeRequests_loop (S fuel) api page acc
            = Some (Return (acc ++ json r))))
  /\ (forall (A : Type) (coll : list A) (hdr : Z -> header) (fuel : nat),
        (length coll / 100 + 2 <= fuel)%nat ->
        fetchMergeRequests fuel (serve coll hdr) = Some coll)
  /\ length items_250 = 250%nat
  /\ fetchMergeRequests 4 (serve items_250 (fun _ => Numeric 3))
     = Some items_250
  /\ fetchMergeRequests 4 (serve items_250 (fun _ => Numeric 0))
     = Some items_250.
Proof.
  split; [|split; [|split; [|split]]].
  - intros A fuel api page r acc Hpage Hr. split; [|split].
    + intros Hnil. by apply (loop_empty_page _ _ _ r).
    + intros Hne Hmore. rewrite (loop_nonempty_page _ _ _ r) by done.
      apply hasMorePages_spec in Hmore; [|done]. by rewrite Hmore.
    + intros Hne Hstop. rewrite (loop_nonempty_page _ _ _ r) by done.
      destruct (hasMorePages page r) eqn:Hmore; [|done].
      apply hasMorePages_spec in Hmore; [|done]. contradiction.
  - intros A coll hdr fuel. apply fetchMergeRequests_serve.
  - reflexivity.
  - apply fetchMergeRequests_serve. vm_compute. lia.
  - apply fetchMergeRequests_serve. vm_compute. lia.
Qed.

Lemma fetchMergeRequests_walks_whole_collection_witness :
  (length items_250 / 100 + 2 <= 4)%nat
  /\ fetchMergeRequests 4 (serve items_250 (fun _ => Absent)) = Some items_250
  /\ 1 <= 1
  /\ flaky_endpoint 1 = Some (mkResponse [7; 8] (Numeric 2))
  /\ fetchMergeRequests_loop 2 flaky_endpoint 1 []
     = fetchMergeRequests_loop 1 flaky_endpoint 2 ([] ++ [7; 8]).
Proof.
  split; [vm_compute; lia|]. split.
  - apply (proj1 (proj2 fetchMergeRequests_walks_whole_collection)).
    vm_compute. lia.
  - split; [lia|]. split; [reflexivity|].
    apply (proj1 (proj2 (proj1 fetchMergeRequests_walks_whole_collection
                           Z 1%nat flaky_endpoint 1
                           (mkResponse [7; 8] (Numeric 2)) []
                           ltac:(lia) eq_refl))).
    + discriminate.
    + left. exists 2. split; [reflexivity | lia].
Defined.

(** C3 as stated fails: page 1 delivers two items and announces a second
    page, page 2 fails, and the walk answers the empty array, not the two
    items. *)
Lemma fetchMergeRequests_drops_accumulated_pages :
  flaky_endpoint 1 = Some (mkResponse [7; 8] (Numeric 2))
  /\ flaky_endpoint 2 = None
  /\ fetchMergeRequests 3 flaky_endpoint = Some []
  /\ fetchMergeRequests 3 flaky_endpoint <> Some [7; 8].
Proof. repeat split. discriminate. Qed.

(** C3, amended: when the walk reaches a page whose request fails, after any
    number of pages that succeeded, it does not raise and returns the empty
    sequence; what the earlier pages delivered is discarded. *)
Theorem fetchMergeRequests_failure_yields_empty
    (A : Type) (api : endpoint A) (k fuel : nat) :
  (forall q, 1 <= q <= Z.of_nat k ->
     exists r, api q = Some r /\ json r <> [] /\ hasMorePages q r = true) ->
  api (Z.of_nat k + 1) = None ->
  (k < fuel)%nat ->
  fetchMergeRequests fuel api = Some [].
Proof.
  intros Hok Hfail Hfuel. unfold fetchMergeRequests.
  rewrite (loop_reaches_failure api k); [done| |by rewrite Z.add_comm|done].
  intros q Hq. apply Hok. lia.
Qed.

Lemma fetchMergeRequests_failure_yields_empty_witness :
  fetchMergeRequests 3 flaky_endpoint = Some [].
Proof.
  apply (fetchMergeRequests_failure_yields_empty Z flaky_endpoint 1 3).
  - intros q Hq. assert (q = 1) as -> by lia.
    exists (mkResponse [7; 8] (Numeric 2)). repeat split. discriminate.
  - reflexivity.
  - lia.
Defined.

(** C6: the notes loop has neither the empty-page stop nor the full-page
    fallback of the merge-request walk. With the page count missing (or
    reported as 0) it fetches the first 100 of 250 notes where the
    merge-request walk fetches all 250, and the first comment derived from
    the truncated history is the wrong one. *)
Theorem fetchNotes_lacks_full_page_fallback :
  length notes_250 = 250%nat
  /\ fetchMergeRequests 4 (serve notes_250 (fun _ => Absent)) = Some notes_250
  /\ fetchMergeRequests 4 (serve notes_250 (fun _ => Numeric 0))
     = Some notes_250
  /\ fetchMergeRequestDetails 4 (notes_only notes_250 (fun _ => Absent)) 1
     = Some (mkDetails (take 100 notes_250) [])
  /\ fetchMergeRequestDetails 4 (notes_only notes_250 (fun _ => Numeric 0)) 1
     = Some (mkDetails (take 100 notes_250) [])
  /\ firstComment clock.Date_getTime (mkDetails (take 100 notes_250) [])
     = Some "2025-04-01T10:05:00Z"
  /\ firstComment clock.Date_getTime (mkDetails notes_250 [])
     = Some "2025-04-01T10:01:00Z"
  /\ (forall (A : Type) (coll : list A) (fuel : nat),
        fetchNotes_loop (S fuel) (serve coll (fun _ => Absent)) 1 []
        = Some (Return (take 100 coll))).
Proof.
  split; [reflexivity|].
  split; [apply fetchMergeRequests_serve; vm_compute; lia|].
  split; [apply fetchMergeRequests_serve; vm_compute; lia|].
  split; [vm_compute; reflexivity|].
  split; [vm_compute; reflexivity|].
  split; [vm_compute; reflexivity|].
  split; [vm_compute; reflexivity|].
  intros A coll fuel. apply fetchNotes_absent_header.
Qed.

(** ** The derived timestamps *)

Section SortFacts.
Context {A : Type} (key : A -> number).

Abbreviation by_key := (fun a b : A => js_sub (key a) (key b)).

Lemma sort_insert_head (x : A) (l : list A) :
  head (sort_insert by_key x l)
  = match l with
    | [] => Some x
    | y :: _ => if sorts_before by_key y x then Some y else Some x
    end.
Proof. destruct l as [|y l]; [done|]. cbn. by destruct (sorts_before _ _ _). Qed.

Lemma sort_insert_nonempty (x : A) (l : list A) : sort_insert by_key x l <> [].
Proof. destruct l as [|y l]; cbn; [done|]. by destruct (sorts_before _ _ _). Qed.

(** On readable dates the sorted array starts with an element of the
    input that no other element precedes in time. *)
Lemma Array_sort_head_earliest (l : list A) :
  l <> [] ->
  (forall x, x ∈ l -> is_Some (key x)) ->
  exists first, head (Array_sort by_key l) = Some first
    /\ first ∈ l
    /\ forall x, x ∈ l -> js_le (key first) (key x).
Proof.
  induction l as [|x l IH]; [done|]. intros _ Hvalid.
  destruct (Hvalid x) as [tx Htx]; [left|].
  cbn [Array_sort foldr]. fold (Array_sort by_key l).
  rewrite sort_insert_head.
  destruct l as [|x' l'].
  - exists x. cbn. split; [done|]. split; [left|].
    intros y Hy%list_elem_of_singleton. subst y.
    unfold js_le. rewrite Htx. lia.
  - destruct IH as (y & Hhead & Hy & Hmin); [done| |].
    { intros z Hz. apply Hvalid. by right. }
    destruct (Array_sort by_key (x' :: l')) as [|y0 sorted] eqn:Hsorted;
      [done|].
    cbn in Hhead. injection Hhead as ->.
    destruct (Hvalid y) as [ty Hty]; [by right|].
    unfold sorts_before, js_sub. rewrite Hty, Htx.
    destruct (ty - tx <? 0) eqn:Hlt.
    + apply Z.ltb_lt in Hlt. exists y. split; [done|]. split; [by right|].
      intros z [->|Hz]%elem_of_cons.
      * unfold js_le. rewrite Hty, Htx. lia.
      * by apply Hmin.
    + apply Z.ltb_ge in Hlt. exists x. split; [done|]. split; [left|].
      intros z [->|Hz]%elem_of_cons.
      * unfold js_le. rewrite Htx. lia.
      * specialize (Hmin z Hz). unfold js_le in *. rewrite Htx.
        rewrite Hty in Hmin. destruct (key z); [lia|done].
Qed.
End SortFacts.

Lemma length_positive {A : Type} (l : list A) :
  negb (Z.of_nat (length l) <=? 0) = true <-> l <> [].
Proof.
  destruct l; cbn; [split; [done|congruence]|split; [done|]].
  intros _. apply negb_true_iff, Z.leb_gt. lia.
Qed.

Lemma firstComment_earliest (Date_getTime : string -> number)
    (details : Details) :
  (forall n, n ∈ notes details -> note_system n = false ->
     is_Some (Date_getTime (note_created_at n))) ->
  match firstComment Date_getTime details with
  | Some t =>
      exists n, n ∈ notes details /\ note_system n = false
        /\ note_created_at n = t
        /\ forall m, m ∈ notes details -> note_system m = false ->
             js_le (Date_getTime t) (Date_getTime (note_created_at m))
  | None => forall n, n ∈ notes details -> note_system n = true
  end.
Proof.
  intros Hvalid. unfold firstComment.
  set (userNotes := List.filter _ (notes details)).
  assert (Huser : forall n, n ∈ userNotes
                    <-> n ∈ notes details /\ note_system n = false).
  { intros n. unfold userNotes. rewrite !list_elem_of_In, filter_In.
    by rewrite negb_true_iff. }
  assert (Hnone : userNotes = [] ->
                  forall n, n ∈ notes details -> note_system n = true).
  { intros Hnil n Hn. destruct (note_system n) eqn:Hs; [done|].
    assert (n ∈ userNotes) as Hin by (by apply Huser).
    rewrite Hnil in Hin. by apply not_elem_of_nil in Hin. }
  destruct (negb (Z.of_nat (length (notes details)) <=? 0)) eqn:Hany.
  - destruct (negb (Z.of_nat (length userNotes) <=? 0)) eqn:Huserany.
    + apply length_positive in Huserany.
      destruct (Array_sort_head_earliest
                  (fun n => Date_getTime (note_created_at n)) userNotes)
        as (first & Hhead & Hin & Hmin); [done| |].
      { intros n Hn. apply Huser in Hn as [? ?]. by apply Hvalid. }
      cbv zeta in Hhead.
      destruct (Array_sort _ userNotes) as [|f rest]; [done|].
      cbn in Hhead. injection Hhead as ->.
      apply Huser in Hin as [Hin Hsys].
      exists first. repeat split; [done..|].
      intros m Hm Hms. apply Hmin. by apply Huser.
    + apply Hnone. destruct userNotes; [done|].
      exfalso. revert Huserany. rewrite (proj2 (length_positive _)); done.
  - apply Hnone. destruct (notes details) eqn:Hn; [done|].
    exfalso. revert Hany. rewrite (proj2 (length_positive _)); done.
Qed.

(** C7: [first_comment_at] is the [created_at] of a non-system note that no
    other non-system note precedes in time, and null exactly when every note
    is a system note; a system note at T+1 and a human comment at T+5 give
    T+5. *)
Theorem firstComment_is_earliest_human_comment :
  (forall (Date_getTime : string -> number) (details : Details),
     (forall n, n ∈ notes details -> note_system n = false ->
        is_Some (Date_getTime (note_created_at n))) ->
     match firstComment Date_getTime details with
     | Some t =>
         exists n, n ∈ notes details /\ note_system n = false
           /\ note_created_at n = t
           /\ forall m, m ∈ notes details -> note_system m = false ->
                js_le (Date_getTime t) (Date_getTime (note_created_at m))
     | None => forall n, n ∈ notes details -> note_system n = true
     end)
  /\ firstComment clock.Date_getTime system_then_human
     = Some "2025-04-01T10:05:00Z".
Proof. split; [apply firstComment_earliest | reflexivity]. Qed.

Lemma firstComment_is_earliest_human_comment_witness :
  exists n, n ∈ notes system_then_human /\ note_system n = false
    /\ note_created_at n = "2025-04-01T10:05:00Z"
    /\ forall m, m ∈ notes system_then_human -> note_system m = false ->
         js_le (clock.Date_getTime "2025-04-01T10:05:00Z")
               (clock.Date_getTime (note_created_at m)).
Proof.
  apply (proj1 firstComment_is_earliest_human_comment
           clock.Date_getTime system_then_human).
  intros n Hn Hs.
  apply elem_of_cons in Hn as [->|Hn]; [discriminate|].
  apply list_elem_of_singleton in Hn as ->. vm_compute. eauto.
Defined.

(** ** The reconciler *)

Section ReconcilerFacts.
Variable Date_getTime : string -> number.
Variables (fuel : nat) (gl : GitLab) (e : database.Engine) (projectId : Z).

Abbreviation iteration := (process_mr Date_getTime fuel gl e projectId).
Abbreviation changed :=
  (enrich_and_save Date_getTime fuel gl e projectId).
Abbreviation batch := (for_of Date_getTime fuel gl e projectId).
Abbreviation lookup_mr s mr :=
  (database.getMergeRequest e (tables s) projectId (mr_id mr)).
Abbreviation inserted details mr s :=
  (database.mkTables
     (database.projects (tables s))
     (<[(mr_id mr, projectId) := mrData Date_getTime projectId mr details]>
        (database.merge_requests (tables s)))).

Lemma process_mr_action mr s :
  iteration mr s
  = if is_skip (decide_action (lookup_mr s mr) mr)
    then Some (Finished (skipped s))
    else changed (lookup_mr s mr) mr s.
Proof.
  unfold process_mr, decide_action.
  destruct (lookup_mr s mr) as [existing|]; cbn; [|done].
  destruct (_ && _); [done|]. by destruct (_ || _).
Qed.

Lemma counted_frame existingMR s :
  tables (counted existingMR s) = tables s
  /\ detail_calls (counted existingMR s) = detail_calls s.
Proof. by destruct existingMR. Qed.

Lemma enrich_and_save_inv existingMR mr s out :
  changed existingMR mr s = Some out ->
  exists details,
    fetchMergeRequestDetails fuel gl (mr_iid mr) = Some details
    /\ detail_calls (final out) = detail_calls s ++ [(mr_id mr, mr_iid mr)]
    /\ match out with
       | Finished s' =>
           database.run_rejects e (mrData Date_getTime projectId mr details)
           = false
           /\ tables s' = inserted details mr s
       | Aborted s' =>
           database.run_rejects e (mrData Date_getTime projectId mr details)
           = true
           /\ tables s' = tables s
       end.
Proof.
  unfold enrich_and_save, database.saveMergeRequest.
  destruct (counted_frame existingMR s) as [Ht Hc].
  destruct (fetchMergeRequestDetails fuel gl (mr_iid mr)) as [details|];
    [|done].
  intros Hout. exists details. split; [done|].
  destruct (database.run_rejects e _) eqn:Hrej;
    injection Hout as <-; cbn; rewrite Ht, Hc; done.
Qed.

Lemma process_mr_inv mr s out :
  iteration mr s = Some out ->
  (is_skip (decide_action (lookup_mr s mr) mr) = true
   /\ out = Finished (skipped s))
  \/ (is_skip (decide_action (lookup_mr s mr) mr) = false
      /\ changed (lookup_mr s mr) mr s = Some out).
Proof.
  rewrite process_mr_action. destruct (is_skip _); [left|right].
  - split; [done|congruence].
  - done.
Qed.

(** An iteration touches no row but the one of its merge request, and
    never the projects. *)
Lemma process_mr_frame mr s out k :
  iteration mr s = Some out ->
  k <> (mr_id mr, projectId) ->
  database.merge_requests (tables (final out)) !! k
  = database.merge_requests (tables s) !! k.
Proof.
  intros [[_ ->]|[_ Hsave]]%process_mr_inv Hk; [done|].
  apply enrich_and_save_inv in Hsave as (details & _ & _ & Hout).
  destruct out as [s'|s']; cbn; destruct Hout as [_ ->]; cbn; [|done].
  by rewrite lookup_insert_ne.
Qed.

Lemma process_mr_projects mr s out :
  iteration mr s = Some out ->
  database.projects (tables (final out)) = database.projects (tables s).
Proof.
  intros [[_ ->]|[_ Hsave]]%process_mr_inv; [done|].
  apply enrich_and_save_inv in Hsave as (details & _ & _ & Hout).
  by destruct out as [s'|s']; cbn; destruct Hout as [_ ->].
Qed.

Lemma process_mr_calls mr s out :
  iteration mr s = Some out ->
  detail_calls (final out) = detail_calls s
  \/ detail_calls (final out) = detail_calls s ++ [(mr_id mr, mr_iid mr)].
Proof.
  intros [[_ ->]|[_ Hsave]]%process_mr_inv; [by left|right].
  by apply enrich_and_save_inv in Hsave as (details & _ & ? & _).
Qed.

(** *** Skipping *)

Lemma decide_skip_terminal existing mr :
  database.state existing = "merged" -> mr_state mr = "merged" ->
  decide_action (Some existing) mr = skip_terminal.
Proof. intros Hs Hr. unfold decide_action. by rewrite Hs, Hr. Qed.

Lemma settled_skip s mr :
  database.get_rejects e projectId (mr_id mr) = false ->
  settled projectId (tables s) mr ->
  is_skip (decide_action (lookup_mr s mr) mr) = true.
Proof.
  intros Hget (row & Hrow & Hstate & Hsame).
  unfold database.getMergeRequest. rewrite Hget, Hrow.
  unfold decide_action. rewrite Hstate.
  destruct (String.eqb (mr_state mr) "merged") eqn:Hm; [done|].
  destruct Hsame as [Hmerged|Hupd].
  - rewrite Hmerged in Hm. done.
  - rewrite Hupd, !String.eqb_refl. done.
Qed.

Lemma skip_settled s mr :
  database.get_rejects e projectId (mr_id mr) = false ->
  is_skip (decide_action (lookup_mr s mr) mr) = true ->
  settled projectId (tables s) mr.
Proof.
  intros Hget. unfold database.getMergeRequest. rewrite Hget.
  destruct (database.merge_requests (tables s) !! _) as [row|] eqn:Hrow;
    [|done].
  unfold decide_action.
  destruct (String.eqb (mr_state mr) "merged"
            && String.eqb (database.state row) "merged") eqn:Hboth.
  - intros _. apply andb_true_iff in Hboth as [Hm Hr].
    apply String.eqb_eq in Hm, Hr. exists row. split; [done|].
    split; [congruence | by left].
  - destruct (_ || _) eqn:Hdiff; [done|]. intros _.
    apply orb_false_iff in Hdiff as [Hu Hs].
    apply negb_false_iff, String.eqb_eq in Hu, Hs.
    exists row. split; [done|]. split; [done | by right].
Qed.

(** An iteration that ends normally leaves its record settled. *)
Lemma process_mr_settles mr s s' :
  iteration mr s = Some (Finished s') ->
  settled projectId (tables s') mr.
Proof.
  intros [[Hskip [= ->]]|[_ Hsave]]%process_mr_inv.
  - destruct (database.get_rejects e projectId (mr_id mr)) eqn:Hget.
    + unfold database.getMergeRequest in Hskip. by rewrite Hget in Hskip.
    + by apply skip_settled.
  - apply enrich_and_save_inv in Hsave as (details & _ & _ & _ & ->).
    exists (mrData Date_getTime projectId mr details). cbn.
    rewrite lookup_insert_eq. split; [done|]. split; [done | by right].
Qed.

Lemma process_mr_keeps_settled mr0 mr s s' :
  agree mr0 mr ->
  settled projectId (tables s) mr0 ->
  iteration mr s = Some (Finished s') ->
  settled projectId (tables s') mr0.
Proof.
  intros Hagree Hset [[_ [= ->]]|[_ Hsave]]%process_mr_inv; [done|].
  apply enrich_and_save_inv in Hsave as (details & _ & _ & _ & ->).
  destruct (decide (mr_id mr0 = mr_id mr)) as [Heq|Hne].
  - destruct (Hagree Heq) as [Hu Hs].
    exists (mrData Date_getTime projectId mr details). cbn.
    rewrite Heq, lookup_insert_eq. split; [done|].
    split; [done | by right].
  - destruct Hset as (row & Hrow & Hrest). exists row. cbn.
    rewrite lookup_insert_ne by congruence. done.
Qed.

Lemma for_of_keeps_settled mr0 mrs : forall s s',
  (forall mr, mr ∈ mrs -> agree mr0 mr) ->
  settled projectId (tables s) mr0 ->
  batch mrs s = Some (Finished s') ->
  settled projectId (tables s') mr0.
Proof.
  induction mrs as [|mr mrs IH]; intros s s' Hagree Hset Hrun.
  - by injection Hrun as <-.
  - cbn in Hrun.
    destruct (iteration mr s) as [[s1|s1]|] eqn:Hstep; [|done..].
    eapply IH; [|eapply process_mr_keeps_settled|]; eauto.
    + intros mr' Hmr'. apply Hagree. by right.
    + apply Hagree. by left.
Qed.

(** After a run that reached its end, every record of the batch is
    settled. *)
Lemma for_of_settles mrs : forall s s',
  (forall a b, a ∈ mrs -> b ∈ mrs -> agree a b) ->
  batch mrs s = Some (Finished s') ->
  forall mr, mr ∈ mrs -> settled projectId (tables s') mr.
Proof.
  induction mrs as [|mr0 mrs IH]; intros s s' Hagree Hrun mr Hmr.
  - by apply elem_of_nil in Hmr.
  - cbn in Hrun.
    destruct (iteration mr0 s) as [[s1|s1]|] eqn:Hstep; [|done..].
    apply elem_of_cons in Hmr as [->|Hmr].
    + eapply for_of_keeps_settled; [| |done].
      * intros mr' Hmr'. apply Hagree; [by left | by right].
      * by eapply process_mr_settles.
    + eapply IH; [|done..].
      intros a b Ha Hb. apply Hagree; by right.
Qed.

(** A batch of settled records is skipped one by one: nothing is fetched
    and nothing is written. *)
Lemma for_of_all_settled mrs : forall s,
  (forall mr, mr ∈ mrs ->
     database.get_rejects e projectId (mr_id mr) = false) ->
  (forall mr, mr ∈ mrs -> settled projectId (tables s) mr) ->
  exists s', batch mrs s = Some (Finished s')
    /\ tables s' = tables s /\ detail_calls s' = detail_calls s.
Proof.
  induction mrs as [|mr mrs IH]; intros s Hget Hset.
  - by exists s.
  - cbn. rewrite process_mr_action.
    rewrite settled_skip; [|apply Hget; by left|apply Hset; by left].
    destruct (IH (skipped s)) as (s' & Hrun & Ht & Hc).
    + intros mr' Hmr'. apply Hget. by right.
    + intros mr' Hmr'. apply Hset. by right.
    + by exists s'.
Qed.
End ReconcilerFacts.

Section RunFacts.
Variable Date_getTime : string -> number.
Variables (fuel : nat) (gl : GitLab) (projectId : Z).

Abbreviation run_for_of e := (for_of Date_getTime fuel gl e projectId).
Abbreviation run_process_mr e := (process_mr Date_getTime fuel gl e projectId).

Lemma for_of_app e before after : forall s,
  run_for_of e (before ++ after) s
  = match run_for_of e before s with
    | Some (Finished s1) => run_for_of e after s1
    | stopped => stopped
    end.
Proof.
  induction before as [|mr before IH]; intros s; [done|]. cbn.
  destruct (run_process_mr e mr s) as [[s1|s1]|]; [apply IH|done..].
Qed.

Lemma for_of_projects e mrs : forall s out,
  run_for_of e mrs s = Some out ->
  database.projects (tables (final out)) = database.projects (tables s).
Proof.
  induction mrs as [|mr mrs IH]; intros s out Hrun.
  - by injection Hrun as <-.
  - cbn in Hrun.
    destruct (run_process_mr e mr s) as [[s1|s1]|] eqn:Hstep; [| |done].
    + rewrite (IH _ _ Hrun).
      apply (process_mr_projects _ _ _ _ _ _ _ _ Hstep).
    + injection Hrun as <-.
      apply (process_mr_projects _ _ _ _ _ _ _ _ Hstep).
Qed.

(** A stored merged row survives a batch in which its own remote record
    is still merged, and no detail is fetched for it. *)
Lemma for_of_terminal e mrId row mrs : forall s out,
  database.merge_requests (tables s) !! (mrId, projectId) = Some row ->
  database.state row = "merged" ->
  database.get_rejects e projectId mrId = false ->
  (forall mr, mr ∈ mrs -> mr_id mr = mrId -> mr_state mr = "merged") ->
  run_for_of e mrs s = Some out ->
  database.merge_requests (tables (final out)) !! (mrId, projectId)
  = Some row
  /\ forall c, c ∈ detail_calls (final out) -> c.1 = mrId ->
       c ∈ detail_calls s.
Proof.
  induction mrs as [|mr mrs IH]; intros s out Hrow Hstate Hget Hremote Hrun.
  - by injection Hrun as <-.
  - cbn in Hrun.
    assert (Hstep : forall o, run_process_mr e mr s = Some o ->
              database.merge_requests (tables (final o)) !! (mrId, projectId)
              = Some row
              /\ forall c, c ∈ detail_calls (final o) -> c.1 = mrId ->
                   c ∈ detail_calls s).
    { intros o Ho. destruct (decide (mr_id mr = mrId)) as [Heq|Hne].
      - rewrite process_mr_action in Ho.
        unfold database.getMergeRequest in Ho.
        rewrite Heq, Hget, Hrow in Ho.
        rewrite decide_skip_terminal in Ho;
          [|done|apply Hremote; [by left|done]].
        injection Ho as <-. done.
      - split.
        + rewrite (process_mr_frame _ _ _ _ _ _ _ _ _ Ho) by congruence.
          done.
        + intros c Hc Hc1.
          destruct (process_mr_calls _ _ _ _ _ _ _ _ Ho) as [Hsame|Hmore].
          * by rewrite Hsame in Hc.
          * rewrite Hmore in Hc. apply elem_of_app in Hc as [Hc|Hc]; [done|].
            apply list_elem_of_singleton in Hc. subst c. done. }
    destruct (run_process_mr e mr s) as [[s1|s1]|]; [| |done].
    + destruct (Hstep _ eq_refl) as [Hrow1 Hcalls1].
      destruct (IH s1 out) as [Hrow2 Hcalls2]; [done..| |done|].
      { intros mr' Hmr'. apply Hremote. by right. }
      split; [done|]. intros c Hc Hc1. apply Hcalls1; [|done].
      by apply Hcalls2.
    + injection Hrun as <-. by apply Hstep.
Qed.

Lemma relabelled_settled t1 t2 mr :
  relabelled t1 t2 -> settled projectId t1 mr -> settled projectId t2 mr.
Proof.
  intros [_ Hrows] (row & Hrow & Hrest).
  specialize (Hrows (mr_id mr, projectId)). rewrite Hrow in Hrows.
  inversion Hrows as [r1 r2 [s ->] Heq1 Heq2|]; subst.
  exists (database.with_squad s row). done.
Qed.

(** Two runs in a row: the second one skips everything. *)
Lemma second_run_is_idle e1 e2 project t s1 t2 :
  processAndStoreMergeRequests Date_getTime fuel gl e1 projectId project t
  = Some (Finished s1) ->
  (forall mrs a b,
     fetchMergeRequests fuel (merge_requests_endpoint gl) = Some mrs ->
     a ∈ mrs -> b ∈ mrs -> agree a b) ->
  (forall i, database.get_rejects e2 projectId i = false) ->
  database.run_rejects_project e2 project = false ->
  relabelled (tables s1) t2 ->
  exists s2,
    processAndStoreMergeRequests Date_getTime fuel gl e2 projectId project t2
    = Some (Finished s2)
    /\ tables s2 = t2 /\ detail_calls s2 = [].
Proof.
  unfold processAndStoreMergeRequests. intros Hrun1 Hagree Hget Hproj Hrel.
  destruct (fetchMergeRequests fuel _) as [mrs|]; [|done].
  destruct (Z.of_nat (length mrs) =? 0); [by eexists|].
  unfold database.saveProject in *. rewrite Hproj.
  destruct (database.run_rejects_project e1 project); [done|].
  pose proof (for_of_projects _ _ _ _ Hrun1) as Hprojects.
  pose proof (for_of_settles _ _ _ _ _ _ _ _
                (fun a b => Hagree mrs a b eq_refl) Hrun1) as Hset.
  cbn in Hprojects.
  destruct Hrel as [Hp Hrows]. destruct t2 as [projects2 rows2]. cbn in *.
  assert (Hsame : <[repo_id project:=project]> projects2 = projects2).
  { rewrite Hp, Hprojects. apply insert_insert_eq. }
  rewrite Hsame.
  destruct (for_of_all_settled Date_getTime fuel gl e2 projectId mrs
              (mkSync (database.mkTables projects2 rows2) [] 0 0 0))
    as (s2 & Hrun2 & Ht & Hc); [by intros | |by exists s2].
  intros mr Hmr. eapply relabelled_settled; [|by apply Hset].
  split; [done|]. apply Hrows.
Qed.
End RunFacts.

Lemma update_squads_relabels (t : database.Tables) :
  relabelled t (database.update_squads t).
Proof.
  split; [done|]. intros k. unfold database.update_squads. cbn.
  rewrite !lookup_fmap.
  destruct (database.merge_requests t !! k) as [r|]; constructor.
  unfold database.set_web, database.set_cms.
  destruct (database.username_in database.cms_usernames _).
  - destruct (_ && _); by eexists.
  - destruct (_ && _); [by eexists|].
    exists (database.squad r). by destruct r.
Qed.

(** C1 as stated fails: row 1 is stored with squad CMS, the remote record
    has a newer [updated_at], the run takes the update path, and the row
    written back has a null squad. *)
Lemma update_path_nulls_squad :
  database.squad
    <$> database.merge_requests (table_of [row_1_opened_cms]) !! (1, 1)
  = Some (Some "CMS")
  /\ decide_action
       (database.getMergeRequest database.healthy
          (table_of [row_1_opened_cms]) 1 (mr_id mr_1_opened))
       mr_1_opened
     = update
  /\ database.squad
       <$> row_after (sync database.healthy
                           (gitlab_with [mr_1_opened] one_comment)
                           (table_of [row_1_opened_cms])) 1
     = Some None.
Proof. vm_compute. done. Qed.

(** C1, amended: a record that the run skips keeps its row, squad included;
    a record on the update path has its whole row replaced by one built from
    the remote data, whose squad is null; and a second full sync against an
    unchanged remote dataset, with lookups that succeed, skips every record
    and leaves the tables as it found them, squads assigned since the first
    run included. *)
Theorem squad_survives_only_skipped_records :
  (forall Date_getTime fuel gl e projectId mr s s' existing,
     database.getMergeRequest e (tables s) projectId (mr_id mr)
     = Some existing ->
     decide_action (Some existing) mr = update ->
     process_mr Date_getTime fuel gl e projectId mr s = Some (Finished s') ->
     exists row,
       database.merge_requests (tables s') !! (mr_id mr, projectId) = Some row
       /\ database.squad row = None)
  /\ (forall Date_getTime fuel gl e projectId mr s,
        is_skip (decide_action
                   (database.getMergeRequest e (tables s) projectId (mr_id mr))
                   mr) = true ->
        exists s',
          process_mr Date_getTime fuel gl e projectId mr s = Some (Finished s')
          /\ tables s' = tables s)
  /\ (forall Date_getTime fuel gl e1 e2 projectId project t s1 t2,
        processAndStoreMergeRequests Date_getTime fuel gl e1 projectId project t
        = Some (Finished s1) ->
        (forall mrs a b,
           fetchMergeRequests fuel (merge_requests_endpoint gl) = Some mrs ->
           a ∈ mrs -> b ∈ mrs -> agree a b) ->
        (forall i, database.get_rejects e2 projectId i = false) ->
        database.run_rejects_project e2 project = false ->
        relabelled (tables s1) t2 ->
        exists s2,
          processAndStoreMergeRequests Date_getTime fuel gl e2 projectId
                                       project t2
          = Some (Finished s2)
          /\ tables s2 = t2 /\ detail_calls s2 = []).
Proof.
  split; [|split].
  - intros Date_getTime fuel gl e projectId mr s s' existing Hex Hact Hrun.
    rewrite process_mr_action, Hex, Hact in Hrun. cbn in Hrun.
    apply enrich_and_save_inv in Hrun as (details & _ & _ & _ & ->).
    exists (mrData Date_getTime projectId mr details). cbn.
    by rewrite lookup_insert_eq.
  - intros Date_getTime fuel gl e projectId mr s Hskip.
    exists (skipped s). by rewrite process_mr_action, Hskip.
  - intros Date_getTime fuel gl e1 e2 projectId project t s1 t2.
    apply second_run_is_idle.
Qed.

Lemma squad_survives_only_skipped_records_witness :
  (exists row,
     database.merge_requests
       (tables (final (default (Finished (mkSync no_tables [] 0 0 0))
                  (process_mr clock.Date_getTime 4
                     (gitlab_with [mr_1_opened] one_comment)
                     database.healthy 1 mr_1_opened
                     (mkSync (table_of [row_1_opened_cms]) [] 0 0 0)))))
     !! (1, 1) = Some row
     /\ database.squad row = None)
  /\ (exists s',
        process_mr clock.Date_getTime 4 (gitlab_with [mr_1_merged] one_comment)
                   database.healthy 1 mr_1_merged
                   (mkSync (table_of [row_1_merged_cms]) [] 0 0 0)
        = Some (Finished s')
        /\ tables s' = table_of [row_1_merged_cms])
  /\ (exists s2,
        sync database.healthy (gitlab_with [mr_1_opened; mr_2_opened] one_comment)
             (database.update_squads (tables after_first_run))
        = Some (Finished s2)
        /\ tables s2 = database.update_squads (tables after_first_run)
        /\ detail_calls s2 = []).
Proof.
  split; [|split].
  - eapply (proj1 squad_survives_only_skipped_records
              clock.Date_getTime 4%nat (gitlab_with [mr_1_opened] one_comment)
              database.healthy 1 mr_1_opened
              (mkSync (table_of [row_1_opened_cms]) [] 0 0 0) _
              row_1_opened_cms).
    + reflexivity.
    + reflexivity.
    + vm_compute. reflexivity.
  - apply (proj1 (proj2 squad_survives_only_skipped_records)). reflexivity.
  - apply (proj2 (proj2 squad_survives_only_skipped_records)
             clock.Date_getTime 4%nat
             (gitlab_with [mr_1_opened; mr_2_opened] one_comment)
             database.healthy database.healthy 1 project_1
             (table_of [row_1_opened_cms]) after_first_run).
    + vm_compute. reflexivity.
    + intros mrs a b [= <-] Ha Hb.
      apply elem_of_cons in Ha as [->|Ha]; apply elem_of_cons in Hb as [->|Hb];
        try apply list_elem_of_singleton in Ha as ->;
        try apply list_elem_of_singleton in Hb as ->;
        intros Hid; try done; split; reflexivity.
    + reflexivity.
    + reflexivity.
    + apply update_squads_relabels.
Defined.

(** C2 as stated fails: row 1 is stored as merged, the remote record shows
    another state, and the run fetches its details again and rewrites its
    first-comment time. *)
Lemma merged_row_refetched_when_remote_state_differs :
  database.state
    <$> database.merge_requests (table_of [row_1_merged_cms]) !! (1, 1)
  = Some "merged"
  /\ detail_calls ∘ final
       <$> sync database.healthy (gitlab_with [mr_1_opened] one_comment)
                (table_of [row_1_merged_cms])
     = Some [(1, 1)]
  /\ database.first_comment_at <$> Some row_1_merged_cms
     = Some (Some "2025-04-01T10:02:00Z")
  /\ database.first_comment_at
       <$> row_after (sync database.healthy
                           (gitlab_with [mr_1_opened] one_comment)
                           (table_of [row_1_merged_cms])) 1
     = Some (Some "2025-04-01T10:05:00Z").
Proof. vm_compute. done. Qed.

(** C2, amended: for a merge request whose stored row has state merged,
    whose point lookup succeeds and whose remote record is still merged, a
    sync run never invokes [fetchMergeRequestDetails] and leaves the row as
    it is, whatever the remote [updated_at]. *)
Theorem merged_row_is_terminal
    (Date_getTime : string -> number) (fuel : nat) (gl : GitLab)
    (e : database.Engine) (projectId : Z) (project : Project)
    (t : database.Tables) (mrId : Z) (row : database.MergeRequestData)
    (out : outcome) :
  database.merge_requests t !! (mrId, projectId) = Some row ->
  database.state row = "merged" ->
  database.get_rejects e projectId mrId = false ->
  (forall mrs mr,
     fetchMergeRequests fuel (merge_requests_endpoint gl) = Some mrs ->
     mr ∈ mrs -> mr_id mr = mrId -> mr_state mr = "merged") ->
  processAndStoreMergeRequests Date_getTime fuel gl e projectId project t
  = Some out ->
  database.merge_requests (tables (final out)) !! (mrId, projectId) = Some row
  /\ forall iid, (mrId, iid) ∉ detail_calls (final out).
Proof.
  intros Hrow Hstate Hget Hremote. unfold processAndStoreMergeRequests.
  destruct (fetchMergeRequests fuel _) as [mrs|]; [|done].
  destruct (Z.of_nat (length mrs) =? 0).
  { intros [= <-]. cbn. split; [done|]. intros iid. apply not_elem_of_nil. }
  unfold database.saveProject.
  destruct (database.run_rejects_project e project).
  { intros [= <-]. cbn. split; [done|]. intros iid. apply not_elem_of_nil. }
  intros Hrun.
  pose proof (fun H1 H4 =>
                for_of_terminal Date_getTime fuel gl projectId e mrId row mrs
                  _ out H1 Hstate Hget H4 Hrun) as Hterminal.
  destruct Hterminal as [Hkept Hcalls];
    [done|exact (fun mr => Hremote mrs mr eq_refl)|].
  split; [done|]. intros iid Hin.
  apply (not_elem_of_nil (mrId, iid)). by apply Hcalls.
Qed.

Lemma merged_row_is_terminal_witness :
  row_after (sync database.healthy (gitlab_with [mr_1_merged] one_comment)
                  (table_of [row_1_merged_cms])) 1
  = Some row_1_merged_cms
  /\ database.updated_at row_1_merged_cms <> mr_updated_at mr_1_merged.
Proof.
  split; [|discriminate].
  destruct (sync database.healthy (gitlab_with [mr_1_merged] one_comment)
                 (table_of [row_1_merged_cms])) as [out|] eqn:Hrun;
    [|by vm_compute in Hrun].
  apply (merged_row_is_terminal clock.Date_getTime 4
           (gitlab_with [mr_1_merged] one_comment) database.healthy 1
           project_1 (table_of [row_1_merged_cms]) 1 row_1_merged_cms out).
  - reflexivity.
  - reflexivity.
  - reflexivity.
  - intros mrs mr [= <-] Hmr _.
    apply list_elem_of_singleton in Hmr as ->. reflexivity.
  - exact Hrun.
Defined.

(** C4 as stated fails: merge requests 1 and 2 are new, the upsert of 1 is
    rejected, and the run ends there; merge request 2 is neither looked at
    nor stored, although a run on a healthy engine stores it. *)
Lemma rejected_upsert_leaves_later_record_unprocessed :
  (exists s,
     sync write_1_fails (gitlab_with [mr_1_opened; mr_2_opened] one_comment)
          no_tables
     = Some (Aborted s)
     /\ detail_calls s = [(1, 1)]
     /\ database.merge_requests (tables s) !! (2, 1) = None)
  /\ database.id
       <$> row_after (sync database.healthy
                           (gitlab_with [mr_1_opened; mr_2_opened] one_comment)
                           no_tables) 2
     = Some 2.
Proof. split; [eexists|]; vm_compute; done. Qed.

(** C4, amended: a rejected upsert is surfaced, the rejection leaves the
    loop and the run, and processing stops with it: the tables are those the
    earlier records left, the failed record's details are the last ones
    fetched, and no later record of the batch is reconciled or persisted. *)
Theorem rejected_upsert_aborts_batch
    (Date_getTime : string -> number) (fuel : nat) (gl : GitLab)
    (e : database.Engine) (projectId : Z)
    (before after : list MergeRequest) (mr : MergeRequest)
    (s s1 : Sync) (details : Details) :
  for_of Date_getTime fuel gl e projectId before s = Some (Finished s1) ->
  is_skip (decide_action
             (database.getMergeRequest e (tables s1) projectId (mr_id mr)) mr)
  = false ->
  fetchMergeRequestDetails fuel gl (mr_iid mr) = Some details ->
  database.run_rejects e (mrData Date_getTime projectId mr details) = true ->
  exists s2,
    for_of Date_getTime fuel gl e projectId (before ++ mr :: after) s
    = Some (Aborted s2)
    /\ tables s2 = tables s1
    /\ detail_calls s2 = detail_calls s1 ++ [(mr_id mr, mr_iid mr)].
Proof.
  intros Hbefore Hact Hdetails Hrej.
  rewrite for_of_app, Hbefore. cbn [for_of].
  rewrite process_mr_action, Hact.
  unfold enrich_and_save, database.saveMergeRequest.
  rewrite Hdetails. cbn.
  destruct (counted_frame
              (database.getMergeRequest e (tables s1) projectId (mr_id mr)) s1)
    as [Ht Hc].
  rewrite Ht, Hrej. eexists. split; [reflexivity|]. cbn. by rewrite Hc.
Qed.

Lemma rejected_upsert_aborts_batch_witness :
  exists s2,
    for_of clock.Date_getTime 4
           (gitlab_with [mr_1_opened; mr_2_opened] one_comment)
           write_1_fails 1 ([] ++ mr_1_opened :: [mr_2_opened])
           (mkSync no_tables [] 0 0 0)
    = Some (Aborted s2)
    /\ tables s2 = no_tables
    /\ detail_calls s2 = [] ++ [(1, 1)].
Proof.
  apply (rejected_upsert_aborts_batch clock.Date_getTime 4
           (gitlab_with [mr_1_opened; mr_2_opened] one_comment)
           write_1_fails 1 [] [mr_2_opened] mr_1_opened
           (mkSync no_tables [] 0 0 0) (mkSync no_tables [] 0 0 0)
           (mkDetails one_comment [])).
  - reflexivity.
  - reflexivity.
  - vm_compute. reflexivity.
  - reflexivity.
Defined.

(** C10: a point lookup that the store rejects answers null, whatever the
    table holds; the reconciler then treats the record as new: it fetches
    the details, counts it as new and writes a row built from the remote
    record alone over whatever row there was. Row 1, stored as merged with
    squad CMS, is replaced that way. *)
Theorem failed_lookup_takes_insert_path :
  (forall e t projectId mrId,
     database.get_rejects e projectId mrId = true ->
     database.getMergeRequest e t projectId mrId = None)
  /\ (forall Date_getTime fuel gl e projectId mr s details,
        database.get_rejects e projectId (mr_id mr) = true ->
        fetchMergeRequestDetails fuel gl (mr_iid mr) = Some details ->
        database.run_rejects e (mrData Date_getTime projectId mr details)
        = false ->
        decide_action
          (database.getMergeRequest e (tables s) projectId (mr_id mr)) mr
        = insert
        /\ exists s',
             process_mr Date_getTime fuel gl e projectId mr s
             = Some (Finished s')
             /\ database.merge_requests (tables s') !! (mr_id mr, projectId)
                = Some (mrData Date_getTime projectId mr details)
             /\ detail_calls s' = detail_calls s ++ [(mr_id mr, mr_iid mr)]
             /\ newCount s' = S (newCount s)
             /\ updatedCount s' = updatedCount s
             /\ skippedCount s' = skippedCount s)
  /\ database.merge_requests (table_of [row_1_merged_cms]) !! (1, 1)
     = Some row_1_merged_cms
  /\ row_after (sync lookups_fail (gitlab_with [mr_1_merged] one_comment)
                     (table_of [row_1_merged_cms])) 1
     = Some (mrData clock.Date_getTime 1 mr_1_merged
                    (mkDetails one_comment [])).
Proof.
  split; [|split; [|split]].
  - intros e t projectId mrId Hget. unfold database.getMergeRequest.
    by rewrite Hget.
  - intros Date_getTime fuel gl e projectId mr s details Hget Hdetails Hrun.
    assert (Hnone : database.getMergeRequest e (tables s) projectId (mr_id mr)
                    = None).
    { unfold database.getMergeRequest. by rewrite Hget. }
    split; [by rewrite Hnone|].
    rewrite process_mr_action, Hnone. cbn.
    unfold enrich_and_save, database.saveMergeRequest.
    rewrite Hdetails. cbn. rewrite Hrun.
    eexists. split; [reflexivity|]. cbn. by rewrite lookup_insert_eq.
  - reflexivity.
  - vm_compute. reflexivity.
Qed.

Lemma failed_lookup_takes_insert_path_witness :
  database.getMergeRequest lookups_fail (table_of [row_1_merged_cms]) 1 1 = None
  /\ decide_action
       (database.getMergeRequest lookups_fail (table_of [row_1_merged_cms]) 1
                                 (mr_id mr_1_merged)) mr_1_merged
     = insert.
Proof.
  split.
  - apply (proj1 failed_lookup_takes_insert_path). reflexivity.
  - apply (proj1 (proj2 failed_lookup_takes_insert_path)
             clock.Date_getTime 4%nat (gitlab_with [mr_1_merged] one_comment)
             lookups_fail 1 mr_1_merged
             (mkSync (table_of [row_1_merged_cms]) [] 0 0 0)
             (mkDetails one_comment [])).
    + reflexivity.
    + vm_compute. reflexivity.
    + reflexivity.
Defined.

(** ** The analytics *)

Section AvgFacts.
Context {A : Type}.

Lemma kahanBabuskaStep_frame (p q : database.SumCtx) (r : float) :
  database.rSum p = database.rSum q ->
  database.rErr p = database.rErr q ->
  database.rSum (database.kahanBabuskaStep p r)
  = database.rSum (database.kahanBabuskaStep q r)
  /\ database.rErr (database.kahanBabuskaStep p r)
     = database.rErr (database.kahanBabuskaStep q r)
  /\ database.cnt (database.kahanBabuskaStep p r) = database.cnt p.
Proof.
  intros Hs He. unfold database.kahanBabuskaStep. rewrite Hs, He.
  by destruct (PrimFloat.ltb _ _).
Qed.

(** The aggregate over a column with NULLs has summed and counted the
    values that are not NULL, in their order. *)
Lemma sum_fold (f : A -> option float) (l : list A) :
  forall p q : database.SumCtx,
  database.rSum p = database.rSum q ->
  database.rErr p = database.rErr q ->
  database.rSum (fold_left database.sumStep (map f l) p)
  = database.rSum (fold_left database.kahanBabuskaStep (omap f l) q)
  /\ database.rErr (fold_left database.sumStep (map f l) p)
     = database.rErr (fold_left database.kahanBabuskaStep (omap f l) q)
  /\ database.cnt (fold_left database.sumStep (map f l) p)
     = database.cnt p + Z.of_nat (length (omap f l)).
Proof.
  induction l as [|x l IH]; intros p q Hs He.
  - cbn. repeat split; [done..|lia].
  - cbn [map fold_left].
    change (omap f (x :: l))
      with (match f x with Some y => y :: omap f l | None => omap f l end).
    destruct (f x) as [v|]; cbn [database.sumStep fold_left].
    + destruct (kahanBabuskaStep_frame
                  (database.mkSumCtx (database.rSum p) (database.rErr p)
                                     (database.cnt p + 1)) q v Hs He)
        as (Hs' & He' & Hc').
      destruct (IH _ _ Hs' He') as (Hs2 & He2 & Hc2).
      repeat split; [done..|]. rewrite Hc2, Hc'. cbn [database.cnt length].
      lia.
    + by apply IH.
Qed.

(** [AVG] over a column is the double-arithmetic mean of its values that
    are not NULL. *)
Lemma AVG_double_mean (f g : A -> option float) (l : list A) :
  (forall x, x ∈ l -> f x = g x) ->
  database.AVG (map f l) = double_mean (omap g l).
Proof.
  intros Hfg.
  assert (Hsame : omap f l = omap g l).
  { induction l as [|x l IH]; [done|].
    change (omap f (x :: l))
      with (match f x with Some y => y :: omap f l | None => omap f l end).
    change (omap g (x :: l))
      with (match g x with Some y => y :: omap g l | None => omap g l end).
    rewrite (Hfg x) by left. rewrite IH; [done|].
    intros y Hy. apply Hfg. by right. }
  unfold database.AVG, database.avgFinalize.
  destruct (sum_fold f l
              (database.mkSumCtx PrimFloat.zero PrimFloat.zero 0)
              (database.mkSumCtx PrimFloat.zero PrimFloat.zero 0)
              eq_refl eq_refl) as (Hs & He & Hc).
  rewrite Hs, He, Hc, Hsame. cbn [database.cnt].
  destruct (omap g l) as [|v vs] eqn:Hvs.
  - done.
  - rewrite (proj2 (Z.ltb_lt 0 _)) by (cbn [length]; lia).
    unfold double_mean. by rewrite Z.add_0_l.
Qed.
End AvgFacts.

Lemma time_to_delta (strftime_s : string -> option Z)
    (ts : database.MergeRequestData -> option string)
    (r : database.MergeRequestData) :
  is_Some (strftime_s (database.created_at r)) ->
  (forall t, ts r = Some t -> is_Some (strftime_s t)) ->
  database.time_to strftime_s ts r = double_delta strftime_s ts r.
Proof.
  intros [b Hb] Hts. unfold database.time_to, double_delta.
  destruct (ts r) as [t|]; [|done].
  destruct (Hts t eq_refl) as [a Ha].
  unfold database.minutes_between. by rewrite Ha, Hb.
Qed.

Lemma stats_row_averages (strftime_s : string -> option Z) (s : string)
    (g : list database.MergeRequestData) :
  (forall r, r ∈ g -> readable strftime_s r) ->
  database.avg_time_to_first_comment (database.stats_row strftime_s s g)
  = double_mean (omap (double_delta strftime_s database.first_comment_at) g)
  /\ database.avg_time_to_approval (database.stats_row strftime_s s g)
     = double_mean (omap (double_delta strftime_s database.approved_at) g)
  /\ database.avg_time_to_merge (database.stats_row strftime_s s g)
     = double_mean (omap (double_delta strftime_s database.merged_at) g).
Proof.
  intros Hreadable.
  cbn [database.stats_row database.avg_time_to_first_comment
       database.avg_time_to_approval database.avg_time_to_merge].
  repeat split; apply AVG_double_mean; intros r Hr;
    destruct (Hreadable r Hr) as [Hcreated Hts];
    apply time_to_delta; [done| |done| |done|]; intros ts Hsome;
    apply Hts; auto.
Qed.

(** Comparison of doubles: below-or-equal followed by below is below. *)
Lemma SF_leb_ltb_trans (x y z : spec_float) :
  SFleb x y = true -> SFltb y z = true -> SFltb x z = true.
Proof.
  unfold SFleb, SFltb.
  destruct x as [s1|s1| |s1 m1 e1], y as [s2|s2| |s2 m2 e2],
           z as [s3|s3| |s3 m3 e3]; cbn;
    try destruct s1; try destruct s2; try destruct s3; cbn;
    try congruence;
    rewrite ?Pos.compare_cont_spec; cbn;
    repeat match goal with
           | |- context [(?a ?= ?b)%Z] => destruct (Z.compare_spec a b)
           | |- context [(?a ?= ?b)%positive] =>
               destruct (Pos.compare_spec a b)
           end; cbn; try congruence; try lia.
Qed.

Lemma float_leb_ltb_trans (a b c : float) :
  PrimFloat.leb a b = true -> PrimFloat.ltb b c = true ->
  PrimFloat.ltb a c = true.
Proof. rewrite leb_spec, !ltb_spec. apply SF_leb_ltb_trans. Qed.

Lemma ascii_compare_refl (a : ascii) : Ascii.compare a a = Eq.
Proof. unfold Ascii.compare. apply N.compare_refl. Qed.

(** A text that extends another one is greater in the BINARY collation. *)
Lemma text_le_proper_extension (d : string) (c : ascii) (rest : string) :
  database.text_le (String.append d (String c rest)) d = false.
Proof.
  unfold database.text_le.
  induction d as [|a d IH]; [done|].
  change (String.compare (String.append (String a d) (String c rest))
                         (String a d))
    with (match Ascii.compare a a with
          | Eq => String.compare (String.append d (String c rest)) d
          | ne => ne
          end).
  by rewrite ascii_compare_refl.
Qed.

Lemma text_ge_extension (d rest : string) :
  database.text_ge (String.append d rest) d = true.
Proof.
  unfold database.text_ge, database.text_le.
  induction d as [|a d IH].
  - by destruct rest.
  - change (String.compare (String a d) (String.append (String a d) rest))
      with (match Ascii.compare a a with
            | Eq => String.compare d (String.append d rest)
            | ne => ne
            end).
    by rewrite ascii_compare_refl.
Qed.

(** C8 as stated fails: the averages are computed in double arithmetic.
    For first comments after 6, 12 and 18 seconds the deltas are a tenth, a
    fifth and three tenths of a minute and their mean is a fifth, but the
    query answers the double printed 0.19999999999999998, in whatever order
    the three records are scanned; that double is not a fifth. *)
Lemma average_differs_from_exact_mean :
  mean (omap (delta_minutes clock.strftime_s database.first_comment_at)
             seconds_records)
  = Some (Q2Qc (1 # 5))
  /\ map database.avg_time_to_first_comment
         (database.getMergeRequestStats clock.strftime_s
            (table_of seconds_records) 1 None None)
     = [Some below_one_fifth]
  /\ Forall
       (fun g =>
          database.avg_time_to_first_comment
            (database.stats_row clock.strftime_s "WEB" g)
          = Some below_one_fifth)
       (permutations seconds_records)
  /\ exact_value below_one_fifth
     = Some (7205759403792793 # 36028797018963968)
  /\ ~ (7205759403792793 # 36028797018963968 == 1 # 5)%Q.
Proof.
  split; [|split; [|split; [|split]]].
  - vm_compute. f_equal. by apply Qc_is_canon.
  - vm_compute. reflexivity.
  - apply Forall_forall. intros g Hg. vm_compute in Hg.
    repeat (apply elem_of_cons in Hg as [->|Hg]);
      [vm_compute; reflexivity..|by apply elem_of_nil in Hg].
  - vm_compute. reflexivity.
  - intros H. vm_compute in H. discriminate.
Qed.

(** C8, amended: each of the three averages of a group is the mean in
    double arithmetic, as the engine's AVG computes it (the compensated
    running sum of the values divided by their number), of the deltas
    (derived timestamp minus [created_at] in seconds, converted to a double
    and divided by 60.0, unrounded otherwise) of the group's records that
    have the timestamp, in whatever order the records are scanned; records
    without it count neither in the sum nor in the number of values. Deltas
    of 10, none and 30 minutes average to exactly 20. *)
Theorem averages_skip_missing_timestamps :
  (forall strftime_s s g,
     (forall r, r ∈ g -> readable strftime_s r) ->
     database.avg_time_to_first_comment (database.stats_row strftime_s s g)
     = double_mean
         (omap (double_delta strftime_s database.first_comment_at) g)
     /\ database.avg_time_to_approval (database.stats_row strftime_s s g)
        = double_mean (omap (double_delta strftime_s database.approved_at) g)
     /\ database.avg_time_to_merge (database.stats_row strftime_s s g)
        = double_mean (omap (double_delta strftime_s database.merged_at) g))
  /\ (forall strftime_s t projectId startDate endDate row,
        row ∈ database.getMergeRequestStats strftime_s t projectId
                                            startDate endDate ->
        (forall r, r ∈ database.rows t -> readable strftime_s r) ->
        let group :=
          List.filter (database.in_group (database.stats_squad row))
            (List.filter (database.stats_where projectId startDate endDate)
                         (database.rows t)) in
        database.avg_time_to_first_comment row
        = double_mean
            (omap (double_delta strftime_s database.first_comment_at) group)
        /\ database.avg_time_to_approval row
           = double_mean
               (omap (double_delta strftime_s database.approved_at) group)
        /\ database.avg_time_to_merge row
           = double_mean
               (omap (double_delta strftime_s database.merged_at) group))
  /\ map (double_delta clock.strftime_s database.first_comment_at)
         three_records
     = [Some 10%float; None; Some 30%float]
  /\ Forall
       (fun g =>
          database.avg_time_to_first_comment
            (database.stats_row clock.strftime_s "WEB" g)
          = Some 20%float)
       (permutations three_records)
  /\ map database.avg_time_to_first_comment
         (database.getMergeRequestStats clock.strftime_s three_rows 1 None None)
     = [Some 20%float].
Proof.
  split; [|split; [|split; [|split]]].
  - apply stats_row_averages.
  - intros strftime_s t projectId startDate endDate row Hrow Hreadable group.
    unfold database.getMergeRequestStats in Hrow.
    apply list_elem_of_fmap in Hrow as (s & -> & _).
    apply stats_row_averages. intros r Hr. apply Hreadable.
    cbn [database.stats_squad database.stats_row] in Hr.
    rewrite list_elem_of_In in Hr. apply filter_In in Hr as [Hr _].
    apply filter_In in Hr as [Hr _]. by apply list_elem_of_In.
  - vm_compute. reflexivity.
  - apply Forall_forall. intros g Hg. vm_compute in Hg.
    repeat (apply elem_of_cons in Hg as [->|Hg]);
      [vm_compute; reflexivity..|by apply elem_of_nil in Hg].
  - vm_compute. reflexivity.
Qed.

Lemma averages_skip_missing_timestamps_witness :
  Forall
    (fun row =>
       database.avg_time_to_first_comment row
       = double_mean
           (omap (double_delta clock.strftime_s database.first_comment_at)
              (List.filter (database.in_group (database.stats_squad row))
                 (List.filter (database.stats_where 1 None None)
                              (database.rows three_rows)))))
    (database.getMergeRequestStats clock.strftime_s three_rows 1 None None).
Proof.
  apply Forall_forall. intros row Hrow.
  apply (proj1 (proj2 averages_skip_missing_timestamps)
           clock.strftime_s three_rows 1 None None row Hrow).
  intros r Hr. vm_compute in Hr.
  repeat (apply elem_of_cons in Hr as [->|Hr]);
    [| | |by apply elem_of_nil in Hr];
    (split; [eexists; vm_compute; reflexivity|]);
    intros t [H|[H|H]]; inversion H; subst; eexists; vm_compute; reflexivity.
Defined.

(** C9: the start bound is inclusive, the end bound is not. The bounds are
    compared as text with the stored timestamp, so a record created during
    the end date, whose timestamp extends that date, lies above it and is
    left out of both queries; a record created on April 30th at 10:20:30 is
    counted with no end date and dropped with the end date 2025-04-30. *)
Theorem end_date_drops_records_of_that_day :
  (forall (startDate : option string) (a : ascii) (d : string) (c : ascii)
          (rest : string) (r : database.MergeRequestData),
     database.created_at r = String.append (String a d) (String c rest) ->
     database.date_bounds startDate (Some (String a d)) r = false)
  /\ (forall (d rest : string) (r : database.MergeRequestData),
        database.created_at r = String.append d rest ->
        database.date_bounds (Some d) None r = true)
  /\ length (database.getMergeRequestStats clock.strftime_s april_30 1
               None None) = 1%nat
  /\ length (database.getMergeRequestStats clock.strftime_s april_30 1
               (Some "2025-04-30") None) = 1%nat
  /\ database.getMergeRequestStats clock.strftime_s april_30 1
       None (Some "2025-04-30") = []
  /\ database.getMergeRequestStats clock.strftime_s april_30 1
       (Some "2025-04-30") (Some "2025-04-30") = []
  /\ map database.count
         (database.countMrsWithLateFirstComment clock.strftime_s april_30 1
            60%float None None) = [1]
  /\ database.countMrsWithLateFirstComment clock.strftime_s april_30 1
       60%float None (Some "2025-04-30") = [].
Proof.
  split; [|split].
  - intros startDate a d c rest r Hcreated. unfold database.date_bounds.
    rewrite Hcreated, text_le_proper_extension. apply andb_false_r.
  - intros d rest r Hcreated. unfold database.date_bounds.
    destruct d as [|a d]; [done|].
    rewrite Hcreated, text_ge_extension. done.
  - vm_compute. done.
Qed.

Lemma end_date_drops_records_of_that_day_witness :
  database.date_bounds None (Some "2025-04-30")
    (web_row 1 "2025-04-30T10:20:30.000Z" None) = false
  /\ database.date_bounds (Some "2025-04-30") None
       (web_row 1 "2025-04-30T10:20:30.000Z" None) = true.
Proof.
  split.
  - apply (proj1 end_date_drops_records_of_that_day
             None "2"%char "025-04-30" "T"%char "10:20:30.000Z").
    reflexivity.
  - apply (proj1 (proj2 end_date_drops_records_of_that_day)
             "2025-04-30" "T10:20:30.000Z").
    reflexivity.
Defined.

(** * Further properties *)

(** ** The pagination loops, on any source *)

Section WalkShape.
Context {A : Type}.
Implicit Types (api : endpoint A).

Lemma pages_through_S api (k : nat) :
  pages_through api (S k)
  = pages_through api k ++ page_items api (Z.of_nat k + 1).
Proof.
  unfold pages_through. rewrite seq_S, flat_map_app. cbn.
  by rewrite app_nil_r.
Qed.

Lemma fetchMergeRequests_loop_shape api (fuel : nat) : forall (k : nat) l,
  fetchMergeRequests_loop fuel api (Z.of_nat k + 1) (pages_through api k)
  = Some (Return l) ->
  exists k', l = pages_through api k'.
Proof.
  induction fuel as [|fuel IH]; intros k l Hrun; [done|].
  cbn [fetchMergeRequests_loop] in Hrun.
  pose proof (pages_through_S api k) as Hnext. unfold page_items in Hnext.
  destruct (api (Z.of_nat k + 1)) as [r|]; [|done].
  destruct (Z.of_nat (length (json r)) =? 0).
  - injection Hrun as <-. by exists k.
  - rewrite <- Hnext in Hrun. destruct (hasMorePages _ r).
    + replace (Z.of_nat k + 1 + 1) with (Z.of_nat (S k) + 1) in Hrun by lia.
      by apply IH in Hrun.
    + injection Hrun as <-. by exists (S k).
Qed.

Lemma fetchNotes_loop_shape api (fuel : nat) : forall (k : nat) l,
  fetchNotes_loop fuel api (Z.of_nat k + 1) (pages_through api k)
  = Some (Return l) ->
  exists k', l = pages_through api k'.
Proof.
  induction fuel as [|fuel IH]; intros k l Hrun; [done|].
  cbn [fetchNotes_loop] in Hrun.
  pose proof (pages_through_S api k) as Hnext. unfold page_items in Hnext.
  destruct (api (Z.of_nat k + 1)) as [r|]; [|done].
  rewrite <- Hnext in Hrun. destruct (_ <? _).
  - replace (Z.of_nat k + 1 + 1) with (Z.of_nat (S k) + 1) in Hrun by lia.
    by apply IH in Hrun.
  - injection Hrun as <-. by exists (S k).
Qed.

(** A source whose pages are all full keeps the merge-request loop going,
    whatever page count it declares. *)
Lemma fetchMergeRequests_loop_endless api (fuel : nat) : forall page acc,
  (forall q, page <= q ->
     exists r, api q = Some r /\ length (json r) = 100%nat) ->
  fetchMergeRequests_loop fuel api page acc = None.
Proof.
  induction fuel as [|fuel IH]; intros page acc Hfull; [done|].
  cbn [fetchMergeRequests_loop].
  destruct (Hfull page) as (r & -> & Hlen); [lia|].
  unfold hasMorePages. rewrite Hlen. cbn [Z.of_nat Z.eqb Pos.eqb].
  rewrite orb_true_r. apply IH. intros q Hq. apply Hfull. lia.
Qed.

(** The notes loop asks for as many pages as a constant header says, and
    for one page when it says none. *)
Lemma fetchNotes_constant_header_from (coll : list A) (n : Z) (fuel : nat) :
  forall k : nat,
  (k < Z.to_nat (Z.max 1 n))%nat ->
  (Z.to_nat (Z.max 1 n) - k <= fuel)%nat ->
  fetchNotes_loop fuel (serve coll (fun _ => Numeric n)) (Z.of_nat k + 1)
                  (take (100 * k) coll)
  = Some (Return (take (100 * Z.to_nat (Z.max 1 n)) coll)).
Proof.
  induction fuel as [|fuel IH]; intros k Hk Hfuel; [lia|].
  cbn [fetchNotes_loop]. rewrite serve_page. cbn [json x_total_pages].
  rewrite take_take_drop.
  replace (100 * k + 100)%nat with (100 * S k)%nat by lia.
  assert (Htotal : Z.of_nat k + 1 < Number_or_one (Numeric n)
                   <-> (S k < Z.to_nat (Z.max 1 n))%nat).
  { unfold Number_or_one. destruct (n =? 0) eqn:Hn.
    - apply Z.eqb_eq in Hn. subst n. cbn. lia.
    - apply Z.eqb_neq in Hn. lia. }
  destruct (Z.of_nat k + 1 <? _) eqn:Hlt.
  - apply Z.ltb_lt, Htotal in Hlt.
    replace (Z.of_nat k + 1 + 1) with (Z.of_nat (S k) + 1) by lia.
    apply IH; lia.
  - apply Z.ltb_ge in Hlt. do 3 f_equal.
    assert (~ (S k < Z.to_nat (Z.max 1 n))%nat) by (rewrite <- Htotal; lia).
    lia.
Qed.

(** The notes loop ends in [catch] when it reaches a failing page. *)
Lemma fetchNotes_loop_reaches_failure api (k : nat) :
  forall (fuel : nat) page acc,
  (forall q, page <= q < page + Z.of_nat k ->
     exists r, api q = Some r /\ q < Number_or_one (x_total_pages r)) ->
  api (page + Z.of_nat k) = None ->
  (k < fuel)%nat ->
  fetchNotes_loop fuel api page acc = Some Throw.
Proof.
  induction k as [|k IH]; intros fuel page acc Hok Hfail Hfuel.
  - destruct fuel as [|fuel]; [lia|]. cbn.
    replace (page + Z.of_nat 0) with page in Hfail by lia. by rewrite Hfail.
  - destruct fuel as [|fuel]; [lia|].
    destruct (Hok page) as (r & Hr & Hmore); [lia|].
    cbn [fetchNotes_loop]. rewrite Hr.
    apply Z.ltb_lt in Hmore. rewrite Hmore.
    apply IH; [|by replace (page + 1 + Z.of_nat k)
                     with (page + Z.of_nat (S k)) by lia|lia].
    intros q Hq. apply Hok. lia.
Qed.
End WalkShape.

(** X1: whatever the source answers, what either loop returns is the
    content of pages 1 to k for some k, in page order: nothing is reordered,
    repeated or left out in between. *)
Theorem walks_return_leading_pages :
  (forall (A : Type) (api : endpoint A) (fuel : nat) (l : list A),
     fetchMergeRequests fuel api = Some l ->
     exists k, l = pages_through api k)
  /\ (forall (fuel : nat) (gl : GitLab) (mrIid : Z) (details : Details),
        fetchMergeRequestDetails fuel gl mrIid = Some details ->
        exists k, notes details = pages_through (notes_endpoint gl mrIid) k).
Proof.
  split.
  - intros A api fuel l. unfold fetchMergeRequests.
    destruct (fetchMergeRequests_loop fuel api 1 []) as [[l'|]|] eqn:Hrun;
      [| |done].
    + intros [= <-]. by apply (fetchMergeRequests_loop_shape api fuel 0).
    + intros [= <-]. by exists 0%nat.
  - intros fuel gl mrIid details. unfold fetchMergeRequestDetails.
    destruct (fetchNotes_loop fuel _ 1 []) as [[l'|]|] eqn:Hrun; [| |done].
    + intros [= <-]. by apply (fetchNotes_loop_shape _ fuel 0).
    + intros [= <-]. by exists 0%nat.
Qed.

Lemma walks_return_leading_pages_witness :
  (exists k, [7; 8] = pages_through (A:=Z)
                        (serve [7; 8] (fun _ => Absent)) k)
  /\ (exists k,
        notes (mkDetails one_comment [])
        = pages_through
            (notes_endpoint (gitlab_with [mr_1_opened] one_comment) 1) k).
Proof.
  split.
  - apply (proj1 walks_return_leading_pages Z
             (serve [7; 8] (fun _ => Absent)) 3%nat).
    reflexivity.
  - apply (proj2 walks_return_leading_pages 3%nat
             (gitlab_with [mr_1_opened] one_comment) 1).
    reflexivity.
Defined.

(** X2: a source that answers every page from 1 on with 100 items never
    lets the merge-request walk return, even when it declares a single
    page: a full page overrides the declared page count. *)
Theorem fetchMergeRequests_never_returns_on_full_pages
    (A : Type) (api : endpoint A) (fuel : nat) :
  (forall q, 1 <= q -> exists r, api q = Some r /\ length (json r) = 100%nat) ->
  fetchMergeRequests fuel api = None.
Proof.
  intros Hfull. unfold fetchMergeRequests.
  by rewrite fetchMergeRequests_loop_endless.
Qed.

Lemma fetchMergeRequests_never_returns_on_full_pages_witness :
  fetchMergeRequests 50 endless_endpoint = None.
Proof.
  apply (fetchMergeRequests_never_returns_on_full_pages Z endless_endpoint 50).
  intros q _. exists (mkResponse (replicate 100 0) (Numeric 1)).
  split; reflexivity.
Defined.

(** X3: on a collection served 100 per page with a constant declared page
    count n, the notes loop returns the first max(1, n) pages: everything
    when n is at least the true page count, a truncated history when it is
    smaller. *)
Theorem fetchNotes_follows_declared_page_count
    (A : Type) (coll : list A) (n : Z) (fuel : nat) :
  (Z.to_nat (Z.max 1 n) <= fuel)%nat ->
  fetchNotes_loop fuel (serve coll (fun _ => Numeric n)) 1 []
  = Some (Return (take (100 * Z.to_nat (Z.max 1 n)) coll))
  /\ (page_count coll <= n ->
      fetchNotes_loop fuel (serve coll (fun _ => Numeric n)) 1 []
      = Some (Return coll)).
Proof.
  intros Hfuel.
  pose proof (fetchNotes_constant_header_from coll n fuel 0) as H.
  rewrite take_0 in H. change (Z.of_nat 0 + 1) with 1 in H.
  rewrite H by lia. split; [done|].
  intros Hn. do 2 f_equal. apply take_ge.
  unfold page_count in Hn. Z.div_mod_to_equations. lia.
Qed.

Lemma fetchNotes_follows_declared_page_count_witness :
  fetchNotes_loop 2 (serve notes_250 (fun _ => Numeric 2)) 1 []
  = Some (Return (take (100 * Z.to_nat (Z.max 1 2)) notes_250)).
Proof.
  apply (fetchNotes_follows_declared_page_count Note notes_250 2 2).
  vm_compute. lia.
Defined.

(** X4: when a notes page fails, after any number of pages that succeeded,
    [fetchMergeRequestDetails] answers empty details: the comments already
    fetched are dropped and the approval events are not asked for, so the
    row built from them has neither a first-comment nor an approval time. *)
Theorem notes_failure_empties_details
    (fuel : nat) (gl : GitLab) (mrIid : Z) (k : nat) :
  (forall q, 1 <= q <= Z.of_nat k ->
     exists r, notes_endpoint gl mrIid q = Some r
               /\ q < Number_or_one (x_total_pages r)) ->
  notes_endpoint gl mrIid (Z.of_nat k + 1) = None ->
  (k < fuel)%nat ->
  fetchMergeRequestDetails fuel gl mrIid = Some (mkDetails [] [])
  /\ forall Date_getTime projectId mr,
       database.first_comment_at
         (mrData Date_getTime projectId mr (mkDetails [] [])) = None
       /\ database.approved_at
            (mrData Date_getTime projectId mr (mkDetails [] [])) = None.
Proof.
  intros Hok Hfail Hfuel. split; [|done].
  unfold fetchMergeRequestDetails.
  rewrite (fetchNotes_loop_reaches_failure _ k);
    [done| |by rewrite Z.add_comm|done].
  intros q Hq. apply Hok. lia.
Qed.

Lemma notes_failure_empties_details_witness :
  fetchMergeRequestDetails 3 flaky_notes 1 = Some (mkDetails [] [])
  /\ forall Date_getTime projectId mr,
       database.first_comment_at
         (mrData Date_getTime projectId mr (mkDetails [] [])) = None
       /\ database.approved_at
            (mrData Date_getTime projectId mr (mkDetails [] [])) = None.
Proof.
  apply (notes_failure_empties_details 3 flaky_notes 1 1).
  - intros q Hq. assert (q = 1) as -> by lia.
    exists (mkResponse one_comment (Numeric 2)). split; [reflexivity|].
    cbn. lia.
  - reflexivity.
  - lia.
Defined.

(** X5: for notes served 100 per page with the true page count, the details
    hold every note in order; the approval events are those the service
    returns, and none when that request fails: a failed approval request
    costs the approvals only. *)
Theorem details_keep_notes_when_approvals_fail
    (fuel : nat) (gl : GitLab) (mrIid : Z) (coll : list Note) :
  notes_endpoint gl mrIid = serve coll (fun _ => Numeric (page_count coll)) ->
  (length coll / 100 + 1 <= fuel)%nat ->
  fetchMergeRequestDetails fuel gl mrIid
  = Some (mkDetails coll (default [] (resource_approval_events gl mrIid))).
Proof.
  intros Hserved Hfuel. unfold fetchMergeRequestDetails.
  rewrite Hserved, fetchNotes_truthful_header by done.
  by destruct (resource_approval_events gl mrIid).
Qed.

Lemma details_keep_notes_when_approvals_fail_witness :
  fetchMergeRequestDetails 2 no_approvals_service 1
  = Some (mkDetails one_comment
            (default [] (resource_approval_events no_approvals_service 1))).
Proof.
  apply (details_keep_notes_when_approvals_fail 2 no_approvals_service 1
           one_comment).
  - reflexivity.
  - vm_compute. lia.
Defined.

(** ** The derived timestamps, continued *)

(** X6: [approved_at] is the [created_at] of an approval event that no
    other event precedes in time, and null exactly when there is no
    approval event. *)
Theorem approvedAt_is_earliest_approval
    (Date_getTime : string -> number) (details : Details) :
  (forall ev, ev ∈ approvalEvents details ->
     is_Some (Date_getTime (event_created_at ev))) ->
  match approvedAt Date_getTime details with
  | Some t =>
      exists ev, ev ∈ approvalEvents details /\ event_created_at ev = t
        /\ forall ev', ev' ∈ approvalEvents details ->
             js_le (Date_getTime t) (Date_getTime (event_created_at ev'))
  | None => approvalEvents details = []
  end.
Proof.
  intros Hvalid. unfold approvedAt.
  destruct (negb (Z.of_nat (length (approvalEvents details)) <=? 0)) eqn:Hany.
  - apply length_positive in Hany.
    destruct (Array_sort_head_earliest
                (fun ev => Date_getTime (event_created_at ev))
                (approvalEvents details))
      as (first & Hhead & Hin & Hmin); [done..|].
    cbv zeta in Hhead.
    destruct (Array_sort _ (approvalEvents details)) as [|f rest]; [done|].
    cbn in Hhead. injection Hhead as ->. by exists first.
  - destruct (approvalEvents details) eqn:Hev; [done|].
    exfalso. revert Hany. rewrite (proj2 (length_positive _)); done.
Qed.

Lemma approvedAt_is_earliest_approval_witness :
  exists ev, ev ∈ approvalEvents two_approvals
    /\ event_created_at ev = "2025-04-01T10:30:00Z"
    /\ forall ev', ev' ∈ approvalEvents two_approvals ->
         js_le (clock.Date_getTime "2025-04-01T10:30:00Z")
               (clock.Date_getTime (event_created_at ev')).
Proof.
  apply (approvedAt_is_earliest_approval clock.Date_getTime two_approvals).
  intros ev Hev.
  apply elem_of_cons in Hev as [->|Hev]; [vm_compute; eauto|].
  apply list_elem_of_singleton in Hev as ->. vm_compute. eauto.
Defined.

Lemma js_le_antisym (a b : number) : js_le a b -> js_le b a -> a = b.
Proof.
  destruct a as [x|], b as [y|]; cbn; try done.
  intros ? ?. f_equal. lia.
Qed.

(** X7: the moment of the first comment does not depend on the order in
    which the notes arrive: two histories that are permutations of each
    other give first comments at the same time (the same text too, unless
    two comments share the earliest time). *)
Theorem firstComment_time_ignores_order
    (Date_getTime : string -> number) (d1 d2 : Details) :
  notes d1 ≡ₚ notes d2 ->
  (forall n, n ∈ notes d1 -> note_system n = false ->
     is_Some (Date_getTime (note_created_at n))) ->
  firstComment Date_getTime d1 ≫= Date_getTime
  = firstComment Date_getTime d2 ≫= Date_getTime.
Proof.
  intros Hperm Hvalid1.
  assert (Hvalid2 : forall n, n ∈ notes d2 -> note_system n = false ->
                      is_Some (Date_getTime (note_created_at n))).
  { intros n Hn. apply Hvalid1. by rewrite Hperm. }
  pose proof (firstComment_earliest Date_getTime d1 Hvalid1) as H1.
  pose proof (firstComment_earliest Date_getTime d2 Hvalid2) as H2.
  destruct (firstComment Date_getTime d1) as [t1|],
           (firstComment Date_getTime d2) as [t2|]; cbn.
  - destruct H1 as (n1 & Hn1 & Hs1 & <- & Hmin1).
    destruct H2 as (n2 & Hn2 & Hs2 & <- & Hmin2).
    apply js_le_antisym.
    + apply Hmin1; [by rewrite Hperm|done].
    + apply Hmin2; [by rewrite <- Hperm|done].
  - destruct H1 as (n1 & Hn1 & Hs1 & _).
    rewrite (H2 n1) in Hs1; [done|by rewrite <- Hperm].
  - destruct H2 as (n2 & Hn2 & Hs2 & _).
    rewrite (H1 n2) in Hs2; [done|by rewrite Hperm].
  - done.
Qed.

Lemma firstComment_time_ignores_order_witness :
  firstComment clock.Date_getTime system_then_human ≫= clock.Date_getTime
  = firstComment clock.Date_getTime human_then_system ≫= clock.Date_getTime.
Proof.
  apply (firstComment_time_ignores_order clock.Date_getTime
           system_then_human human_then_system).
  - apply Permutation_swap.
  - intros n Hn Hs.
    apply elem_of_cons in Hn as [->|Hn]; [discriminate|].
    apply list_elem_of_singleton in Hn as ->. vm_compute. eauto.
Defined.

(** ** Whole runs *)

Section RunShape.
Variable Date_getTime : string -> number.
Variables (fuel : nat) (gl : GitLab) (e : database.Engine) (projectId : Z).

Abbreviation step := (process_mr Date_getTime fuel gl e projectId).
Abbreviation steps := (for_of Date_getTime fuel gl e projectId).

(** A stored row whose remote records show the same [updated_at] and
    [state] goes through a batch untouched. *)
Lemma for_of_unchanged_row mrId row mrs : forall s out,
  database.merge_requests (tables s) !! (mrId, projectId) = Some row ->
  database.get_rejects e projectId mrId = false ->
  (forall mr, mr ∈ mrs -> mr_id mr = mrId ->
     mr_updated_at mr = database.updated_at row
     /\ mr_state mr = database.state row) ->
  steps mrs s = Some out ->
  database.merge_requests (tables (final out)) !! (mrId, projectId) = Some row
  /\ forall c, c ∈ detail_calls (final out) -> c.1 = mrId ->
       c ∈ detail_calls s.
Proof.
  induction mrs as [|mr mrs IH]; intros s out Hrow Hget Hremote Hrun.
  - by injection Hrun as <-.
  - cbn in Hrun.
    assert (Hstep : forall o, step mr s = Some o ->
              database.merge_requests (tables (final o)) !! (mrId, projectId)
              = Some row
              /\ forall c, c ∈ detail_calls (final o) -> c.1 = mrId ->
                   c ∈ detail_calls s).
    { intros o Ho. destruct (decide (mr_id mr = mrId)) as [Heq|Hne].
      - rewrite process_mr_action in Ho.
        rewrite settled_skip in Ho.
        + injection Ho as <-. done.
        + by rewrite Heq.
        + destruct (Hremote mr) as [Hu Hs]; [by left|done|].
          exists row. rewrite Heq. split; [done|]. split; [done|by right].
      - split.
        + rewrite (process_mr_frame _ _ _ _ _ _ _ _ _ Ho) by congruence.
          done.
        + intros c Hc Hc1.
          destruct (process_mr_calls _ _ _ _ _ _ _ _ Ho) as [Hsame|Hmore].
          * by rewrite Hsame in Hc.
          * rewrite Hmore in Hc. apply elem_of_app in Hc as [Hc|Hc]; [done|].
            apply list_elem_of_singleton in Hc. subst c. done. }
    destruct (step mr s) as [[s1|s1]|]; [| |done].
    + destruct (Hstep _ eq_refl) as [Hrow1 Hcalls1].
      destruct (IH s1 out) as [Hrow2 Hcalls2]; [done..| |done|].
      { intros mr' Hmr'. apply Hremote. by right. }
      split; [done|]. intros c Hc Hc1. apply Hcalls1; [|done].
      by apply Hcalls2.
    + injection Hrun as <-. by apply Hstep.
Qed.

(** Each iteration that ends normally adds one to exactly one counter, and
    fetches details exactly when it does not skip. *)
Lemma process_mr_counts mr s s' :
  step mr s = Some (Finished s') ->
  (skippedCount s' + updatedCount s' + newCount s'
   = S (skippedCount s + updatedCount s + newCount s))%nat
  /\ (length (detail_calls s') + skippedCount s'
      = S (length (detail_calls s) + skippedCount s))%nat.
Proof.
  rewrite process_mr_action. destruct (is_skip _).
  - intros [= <-]. cbn. lia.
  - unfold enrich_and_save, database.saveMergeRequest.
    destruct (fetchMergeRequestDetails fuel gl (mr_iid mr)); [|done].
    destruct (database.run_rejects e _); [done|].
    intros [= <-]. cbn. rewrite length_app. cbn.
    destruct (database.getMergeRequest e (tables s) projectId (mr_id mr));
      cbn; lia.
Qed.

Lemma for_of_counts mrs : forall s s',
  steps mrs s = Some (Finished s') ->
  (skippedCount s' + updatedCount s' + newCount s'
   = skippedCount s + updatedCount s + newCount s + length mrs)%nat
  /\ (length (detail_calls s') + skippedCount s'
      = length (detail_calls s) + skippedCount s + length mrs)%nat.
Proof.
  induction mrs as [|mr mrs IH]; intros s s' Hrun.
  - injection Hrun as <-. cbn. lia.
  - cbn in Hrun. destruct (step mr s) as [[s1|s1]|] eqn:Hstep; [|done..].
    apply process_mr_counts in Hstep. apply IH in Hrun. cbn [length]. lia.
Qed.

Lemma process_mr_keeps_rows mr s out k :
  step mr s = Some out ->
  is_Some (database.merge_requests (tables s) !! k) ->
  is_Some (database.merge_requests (tables (final out)) !! k).
Proof.
  intros [[_ ->]|[_ Hsave]]%process_mr_inv Hk; [done|].
  apply enrich_and_save_inv in Hsave as (details & _ & _ & Hout).
  destruct out as [s'|s']; cbn; destruct Hout as [_ ->]; cbn; [|done].
  apply lookup_insert_is_Some'. by right.
Qed.

Lemma for_of_frame mrs : forall s out k,
  steps mrs s = Some out ->
  (forall mr, mr ∈ mrs -> k <> (mr_id mr, projectId)) ->
  database.merge_requests (tables (final out)) !! k
  = database.merge_requests (tables s) !! k.
Proof.
  induction mrs as [|mr mrs IH]; intros s out k Hrun Hk.
  - by injection Hrun as <-.
  - cbn in Hrun. destruct (step mr s) as [[s1|s1]|] eqn:Hstep; [| |done].
    + rewrite (IH _ _ _ Hrun) by (intros mr' ?; apply Hk; by right).
      apply (process_mr_frame _ _ _ _ _ _ _ _ _ Hstep). apply Hk. by left.
    + injection Hrun as <-.
      apply (process_mr_frame _ _ _ _ _ _ _ _ _ Hstep). apply Hk. by left.
Qed.

Lemma for_of_keeps_rows mrs : forall s out k,
  steps mrs s = Some out ->
  is_Some (database.merge_requests (tables s) !! k) ->
  is_Some (database.merge_requests (tables (final out)) !! k).
Proof.
  induction mrs as [|mr mrs IH]; intros s out k Hrun Hk.
  - by injection Hrun as <-.
  - cbn in Hrun. destruct (step mr s) as [[s1|s1]|] eqn:Hstep; [| |done].
    + apply (IH _ _ _ Hrun). by apply (process_mr_keeps_rows _ _ _ _ Hstep).
    + injection Hrun as <-. by apply (process_mr_keeps_rows _ _ _ _ Hstep).
Qed.
End RunShape.

(** X8: change detection reads [updated_at] and [state] only. A stored row
    whose remote record shows the same two values, with a lookup that
    succeeds, is left exactly as it is by a run and no details are fetched
    for it, whatever else changed remotely (a title edit is not picked
    up). *)
Theorem unchanged_record_is_left_alone
    (Date_getTime : string -> number) (fuel : nat) (gl : GitLab)
    (e : database.Engine) (projectId : Z) (project : Project)
    (t : database.Tables) (mrId : Z) (row : database.MergeRequestData)
    (out : outcome) :
  database.merge_requests t !! (mrId, projectId) = Some row ->
  database.get_rejects e projectId mrId = false ->
  (forall mrs mr,
     fetchMergeRequests fuel (merge_requests_endpoint gl) = Some mrs ->
     mr ∈ mrs -> mr_id mr = mrId ->
     mr_updated_at mr = database.updated_at row
     /\ mr_state mr = database.state row) ->
  processAndStoreMergeRequests Date_getTime fuel gl e projectId project t
  = Some out ->
  database.merge_requests (tables (final out)) !! (mrId, projectId) = Some row
  /\ forall iid, (mrId, iid) ∉ detail_calls (final out).
Proof.
  intros Hrow Hget Hremote. unfold processAndStoreMergeRequests.
  destruct (fetchMergeRequests fuel _) as [mrs|]; [|done].
  destruct (Z.of_nat (length mrs) =? 0).
  { intros [= <-]. cbn. split; [done|]. intros iid. apply not_elem_of_nil. }
  unfold database.saveProject.
  destruct (database.run_rejects_project e project).
  { intros [= <-]. cbn. split; [done|]. intros iid. apply not_elem_of_nil. }
  intros Hrun.
  pose proof (fun H1 H3 =>
                for_of_unchanged_row Date_getTime fuel gl e projectId mrId row
                  mrs _ out H1 Hget H3 Hrun) as Hkept.
  destruct Hkept as [Hkept Hcalls];
    [done|exact (fun mr => Hremote mrs mr eq_refl)|].
  split; [done|]. intros iid Hin.
  apply (not_elem_of_nil (mrId, iid)). by apply Hcalls.
Qed.

Lemma unchanged_record_is_left_alone_witness :
  row_after (sync database.healthy (gitlab_with [mr_1_retitled] one_comment)
                  (table_of [row_1_opened_cms])) 1
  = Some row_1_opened_cms
  /\ mr_title mr_1_retitled <> database.title row_1_opened_cms.
Proof.
  split; [|discriminate].
  destruct (sync database.healthy (gitlab_with [mr_1_retitled] one_comment)
                 (table_of [row_1_opened_cms])) as [out|] eqn:Hrun;
    [|by vm_compute in Hrun].
  apply (unchanged_record_is_left_alone clock.Date_getTime 4
           (gitlab_with [mr_1_retitled] one_comment) database.healthy 1
           project_1 (table_of [row_1_opened_cms]) 1 row_1_opened_cms out).
  - reflexivity.
  - reflexivity.
  - intros mrs mr [= <-] Hmr _.
    apply list_elem_of_singleton in Hmr as ->. split; reflexivity.
  - exact Hrun.
Defined.

(** X9: a run that reaches its end has counted every fetched record exactly
    once as new, updated or skipped, and has fetched details exactly once
    per record counted as new or updated. *)
Theorem run_counts_every_record
    (Date_getTime : string -> number) (fuel : nat) (gl : GitLab)
    (e : database.Engine) (projectId : Z) (project : Project)
    (t : database.Tables) (s : Sync) :
  processAndStoreMergeRequests Date_getTime fuel gl e projectId project t
  = Some (Finished s) ->
  exists mrs,
    fetchMergeRequests fuel (merge_requests_endpoint gl) = Some mrs
    /\ (skippedCount s + updatedCount s + newCount s = length mrs)%nat
    /\ (length (detail_calls s) = updatedCount s + newCount s)%nat.
Proof.
  unfold processAndStoreMergeRequests.
  destruct (fetchMergeRequests fuel _) as [mrs|]; [|done].
  intros Hrun. exists mrs. split; [done|].
  destruct (Z.of_nat (length mrs) =? 0) eqn:Hempty.
  - injection Hrun as <-. cbn. apply Z.eqb_eq in Hempty. lia.
  - unfold database.saveProject in Hrun.
    destruct (database.run_rejects_project e project); [done|].
    apply for_of_counts in Hrun. cbn in Hrun. lia.
Qed.

Lemma run_counts_every_record_witness :
  exists mrs,
    fetchMergeRequests 4
      (merge_requests_endpoint (gitlab_with [mr_1_opened; mr_2_opened]
                                            one_comment))
    = Some mrs
    /\ (skippedCount after_first_run + updatedCount after_first_run
        + newCount after_first_run = length mrs)%nat
    /\ (length (detail_calls after_first_run)
        = updatedCount after_first_run + newCount after_first_run)%nat.
Proof.
  apply (run_counts_every_record clock.Date_getTime 4
           (gitlab_with [mr_1_opened; mr_2_opened] one_comment)
           database.healthy 1 project_1 (table_of [row_1_opened_cms])).
  vm_compute. reflexivity.
Defined.

(** X10: a run, however it ends, changes no row other than those keyed by a
    fetched id under the project being synchronised (rows of other projects
    included), and deletes nothing: every key stored before is stored
    after. *)
Theorem run_touches_only_fetched_rows
    (Date_getTime : string -> number) (fuel : nat) (gl : GitLab)
    (e : database.Engine) (projectId : Z) (project : Project)
    (t : database.Tables) (out : outcome) :
  processAndStoreMergeRequests Date_getTime fuel gl e projectId project t
  = Some out ->
  (forall k,
     (forall mrs mr,
        fetchMergeRequests fuel (merge_requests_endpoint gl) = Some mrs ->
        mr ∈ mrs -> k <> (mr_id mr, projectId)) ->
     database.merge_requests (tables (final out)) !! k
     = database.merge_requests t !! k)
  /\ (forall k,
        is_Some (database.merge_requests t !! k) ->
        is_Some (database.merge_requests (tables (final out)) !! k)).
Proof.
  unfold processAndStoreMergeRequests.
  destruct (fetchMergeRequests fuel _) as [mrs|]; [|done].
  destruct (Z.of_nat (length mrs) =? 0); [by intros [= <-]|].
  unfold database.saveProject.
  destruct (database.run_rejects_project e project); [by intros [= <-]|].
  intros Hrun. split.
  - intros k Hk.
    rewrite (for_of_frame _ _ _ _ _ _ _ _ _ Hrun); [done|].
    intros mr Hmr. by apply (Hk mrs).
  - intros k Hk. by apply (for_of_keeps_rows _ _ _ _ _ _ _ _ _ Hrun).
Qed.

Lemma run_touches_only_fetched_rows_witness :
  database.merge_requests (tables after_first_run) !! (1, 2)
  = database.merge_requests (table_of [row_1_opened_cms]) !! (1, 2)
  /\ is_Some (database.merge_requests (tables after_first_run) !! (1, 1)).
Proof.
  pose proof (run_touches_only_fetched_rows clock.Date_getTime 4
                (gitlab_with [mr_1_opened; mr_2_opened] one_comment)
                database.healthy 1 project_1 (table_of [row_1_opened_cms])
                (Finished after_first_run) eq_refl) as [Hframe Hkeeps].
  split.
  - apply Hframe. intros mrs mr _ _. discriminate.
  - apply Hkeeps. vm_compute. eauto.
Defined.

(** X11: when the merge-request list cannot be fetched to its end (a page
    request fails, at the first page or later), or is empty, the run ends
    normally without writing anything: no project row, no merge request, no
    detail request. *)
Theorem failed_fetch_leaves_store_untouched
    (Date_getTime : string -> number) (fuel : nat) (gl : GitLab)
    (e : database.Engine) (projectId : Z) (project : Project)
    (t : database.Tables) (k : nat) :
  (forall q, 1 <= q <= Z.of_nat k ->
     exists r, merge_requests_endpoint gl q = Some r /\ json r <> []
               /\ hasMorePages q r = true) ->
  (merge_requests_endpoint gl (Z.of_nat k + 1) = None
   \/ exists r, merge_requests_endpoint gl (Z.of_nat k + 1) = Some r
                /\ json r = [] /\ k = 0%nat) ->
  (k < fuel)%nat ->
  processAndStoreMergeRequests Date_getTime fuel gl e projectId project t
  = Some (Finished (mkSync t [] 0 0 0)).
Proof.
  intros Hok Hend Hfuel. unfold processAndStoreMergeRequests.
  assert (Hfetch : fetchMergeRequests fuel (merge_requests_endpoint gl)
                   = Some []).
  { unfold fetchMergeRequests. destruct Hend as [Hfail|(r & Hr & Hnil & ->)].
    - rewrite (loop_reaches_failure _ k);
        [done| |by rewrite Z.add_comm|done].
      intros q Hq. apply Hok. lia.
    - destruct fuel as [|fuel']; [lia|].
      by rewrite (loop_empty_page _ _ _ r). }
  by rewrite Hfetch.
Qed.

Lemma failed_fetch_leaves_store_untouched_witness :
  sync write_1_fails flaky_list (table_of [row_1_opened_cms])
  = Some (Finished (mkSync (table_of [row_1_opened_cms]) [] 0 0 0)).
Proof.
  apply (failed_fetch_leaves_store_untouched clock.Date_getTime 4 flaky_list
           write_1_fails 1 project_1 (table_of [row_1_opened_cms]) 1).
  - intros q Hq. assert (q = 1) as -> by lia.
    exists (mkResponse [mr_1_opened; mr_2_opened] (Numeric 2)).
    repeat split. discriminate.
  - left. reflexivity.
  - lia.
Defined.

(** X12: after a run that reached its end, every fetched record has a row
    under the project with the remote [state], and with the remote
    [updated_at] unless the record is merged (records sharing an id are
    taken to agree on both fields). *)
Theorem finished_run_stores_every_fetched_record
    (Date_getTime : string -> number) (fuel : nat) (gl : GitLab)
    (e : database.Engine) (projectId : Z) (project : Project)
    (t : database.Tables) (s : Sync) (mrs : list MergeRequest) :
  processAndStoreMergeRequests Date_getTime fuel gl e projectId project t
  = Some (Finished s) ->
  fetchMergeRequests fuel (merge_requests_endpoint gl) = Some mrs ->
  (forall a b, a ∈ mrs -> b ∈ mrs -> agree a b) ->
  forall mr, mr ∈ mrs ->
    exists row,
      database.merge_requests (tables s) !! (mr_id mr, projectId) = Some row
      /\ database.state row = mr_state mr
      /\ (mr_state mr = "merged"
          \/ database.updated_at row = mr_updated_at mr).
Proof.
  unfold processAndStoreMergeRequests. intros Hrun Hfetch Hagree mr Hmr.
  rewrite Hfetch in Hrun.
  destruct (Z.of_nat (length mrs) =? 0) eqn:Hempty.
  { apply Z.eqb_eq in Hempty. destruct mrs; [|cbn in Hempty; lia].
    by apply elem_of_nil in Hmr. }
  unfold database.saveProject in Hrun.
  destruct (database.run_rejects_project e project); [done|].
  by apply (for_of_settles _ _ _ _ _ _ _ _ Hagree Hrun).
Qed.

Lemma finished_run_stores_every_fetched_record_witness :
  exists row,
    database.merge_requests (tables after_first_run) !! (mr_id mr_2_opened, 1)
    = Some row
    /\ database.state row = mr_state mr_2_opened
    /\ (mr_state mr_2_opened = "merged"
        \/ database.updated_at row = mr_updated_at mr_2_opened).
Proof.
  apply (finished_run_stores_every_fetched_record clock.Date_getTime 4
           (gitlab_with [mr_1_opened; mr_2_opened] one_comment)
           database.healthy 1 project_1 (table_of [row_1_opened_cms])
           after_first_run [mr_1_opened; mr_2_opened]).
  - vm_compute. reflexivity.
  - vm_compute. reflexivity.
  - intros a b Ha Hb.
    apply elem_of_cons in Ha as [->|Ha]; apply elem_of_cons in Hb as [->|Hb];
      try apply list_elem_of_singleton in Ha as ->;
      try apply list_elem_of_singleton in Hb as ->;
      intros Hid; try done; split; reflexivity.
  - right. left.
Defined.

(** X13: with a non-empty fetched list, the project row is written before
    any merge request is looked at: when that upsert is rejected the run
    stops with the tables as they were; otherwise, however the run ends,
    the projects table is the old one with this project's row replaced. *)
Theorem project_row_is_written_first
    (Date_getTime : string -> number) (fuel : nat) (gl : GitLab)
    (e : database.Engine) (projectId : Z) (project : Project)
    (t : database.Tables) (mrs : list MergeRequest) (out : outcome) :
  fetchMergeRequests fuel (merge_requests_endpoint gl) = Some mrs ->
  mrs <> [] ->
  processAndStoreMergeRequests Date_getTime fuel gl e projectId project t
  = Some out ->
  if database.run_rejects_project e project
  then out = Aborted (mkSync t [] 0 0 0)
  else database.projects (tables (final out))
       = <[repo_id project := project]> (database.projects t).
Proof.
  unfold processAndStoreMergeRequests. intros -> Hne.
  destruct (Z.of_nat (length mrs) =? 0) eqn:Hempty.
  { apply Z.eqb_eq in Hempty. destruct mrs; [done|cbn in Hempty; lia]. }
  unfold database.saveProject.
  destruct (database.run_rejects_project e project); [congruence|].
  intros Hrun. by rewrite (for_of_projects _ _ _ _ _ _ _ _ Hrun).
Qed.

Lemma project_row_is_written_first_witness :
  sync project_write_fails (gitlab_with [mr_1_opened] one_comment) no_tables
  = Some (Aborted (mkSync no_tables [] 0 0 0)).
Proof.
  destruct (sync project_write_fails (gitlab_with [mr_1_opened] one_comment)
                 no_tables) as [out|] eqn:Hrun; [|by vm_compute in Hrun].
  f_equal.
  apply (project_row_is_written_first clock.Date_getTime 4
           (gitlab_with [mr_1_opened] one_comment) project_write_fails 1
           project_1 no_tables [mr_1_opened] out).
  - reflexivity.
  - discriminate.
  - exact Hrun.
Defined.

(** ** The store *)

(** X14: an upsert that is not rejected is read back as written by a lookup
    of its (project, id) pair; every other pair, the same id under another
    project included, reads as before, and the projects table is not
    touched. *)
Theorem saved_record_is_read_back
    (e : database.Engine) (r : database.MergeRequestData)
    (t t' : database.Tables) :
  database.saveMergeRequest e r t = Return t' ->
  (database.get_rejects e (database.project_id r) (database.id r) = false ->
   database.getMergeRequest e t' (database.project_id r) (database.id r)
   = Some r)
  /\ (forall p i, (i, p) <> (database.id r, database.project_id r) ->
        database.getMergeRequest e t' p i = database.getMergeRequest e t p i)
  /\ database.projects t' = database.projects t.
Proof.
  unfold database.saveMergeRequest, database.getMergeRequest.
  destruct (database.run_rejects e r); [done|]. intros [= <-]. cbn.
  split; [|split; [|done]].
  - intros ->. apply lookup_insert_eq.
  - intros p i Hne. destruct (database.get_rejects e p i); [done|].
    by rewrite lookup_insert_ne.
Qed.

Lemma saved_record_is_read_back_witness :
  database.getMergeRequest database.healthy
    (database.mkTables
       (database.projects (table_of [row_1_opened_cms]))
       (<[(1, 2) := row_1_of_project_2]>
          (database.merge_requests (table_of [row_1_opened_cms])))) 2 1
  = Some row_1_of_project_2.
Proof.
  apply (saved_record_is_read_back database.healthy row_1_of_project_2
           (table_of [row_1_opened_cms]) _ eq_refl).
  reflexivity.
Defined.

(** X15: an upsert never duplicates a row: the table grows by one row when
    the (id, project) pair is new and keeps its size when the pair is
    stored already; and upserting the same record again changes nothing. *)
Theorem upsert_never_duplicates
    (e : database.Engine) (r : database.MergeRequestData)
    (t t' : database.Tables) :
  database.saveMergeRequest e r t = Return t' ->
  length (database.rows t')
  = match database.merge_requests t
          !! (database.id r, database.project_id r) with
    | Some _ => length (database.rows t)
    | None => S (length (database.rows t))
    end
  /\ database.saveMergeRequest e r t' = Return t'.
Proof.
  unfold database.saveMergeRequest, database.rows.
  destruct (database.run_rejects e r) eqn:Hrej; [done|]. intros [= <-]. cbn.
  rewrite !length_fmap, !length_map_to_list, map_size_insert.
  split.
  - by destruct (database.merge_requests t !! _).
  - by rewrite insert_insert_eq.
Qed.

Lemma upsert_never_duplicates_witness :
  database.saveMergeRequest database.healthy row_1_merged_cms
    (database.mkTables
       (database.projects (table_of [row_1_opened_cms]))
       (<[(1, 1) := row_1_merged_cms]>
          (database.merge_requests (table_of [row_1_opened_cms]))))
  = Return
      (database.mkTables
         (database.projects (table_of [row_1_opened_cms]))
         (<[(1, 1) := row_1_merged_cms]>
            (database.merge_requests (table_of [row_1_opened_cms])))).
Proof.
  apply (upsert_never_duplicates database.healthy row_1_merged_cms
           (table_of [row_1_opened_cms]) _ eq_refl).
Defined.

(** ** The aggregation queries, continued *)

Lemma SUM_when_bounds {A : Type} (c : A -> bool) (l : list A) :
  0 <= database.SUM_when c l <= Z.of_nat (length l).
Proof.
  unfold database.SUM_when.
  assert (H : forall a, a <= fold_left (fun acc r => acc + (if c r then 1 else 0)) l a
                        <= a + Z.of_nat (length l)).
  { induction l as [|x l IH]; intros a; cbn [fold_left length]; [lia|].
    specialize (IH (a + (if c x then 1 else 0))). destruct (c x); lia. }
  specialize (H 0). lia.
Qed.

Lemma in_group_true (s : string) (r : database.MergeRequestData) :
  database.in_group s r = true <-> database.squad r = Some s.
Proof.
  unfold database.in_group. destruct (database.squad r) as [s'|].
  - rewrite String.eqb_eq. split; congruence.
  - split; discriminate.
Qed.

Lemma group_by_squad_member (rs : list database.MergeRequestData) (s : string) :
  s ∈ database.group_by_squad rs
  <-> exists r, r ∈ rs /\ database.squad r = Some s.
Proof.
  unfold database.group_by_squad.
  by rewrite elem_of_remove_dups, list_elem_of_omap.
Qed.

Lemma filter_member {A : Type} (f : A -> bool) (l : list A) (x : A) :
  x ∈ List.filter f l <-> x ∈ l /\ f x = true.
Proof. by rewrite !list_elem_of_In, filter_In. Qed.

Lemma sum_Z_zero {A : Type} (l : list A) : sum_Z (map (fun _ => 0) l) = 0.
Proof. induction l as [|x l IH]; cbn; [done|]. unfold sum_Z in IH. lia. Qed.

Lemma sum_Z_plus {A : Type} (f g : A -> Z) (l : list A) :
  sum_Z (map (fun x => f x + g x) l) = sum_Z (map f l) + sum_Z (map g l).
Proof. induction l as [|x l IH]; cbn; [done|]. unfold sum_Z in IH. lia. Qed.

Lemma sum_Z_indicator (keys : list string) (s0 : string) :
  NoDup keys -> s0 ∈ keys ->
  sum_Z (map (fun s => if String.eqb s0 s then 1 else 0) keys) = 1.
Proof.
  induction 1 as [|k keys Hk Hnodup IH]; intros Hin.
  - by apply elem_of_nil in Hin.
  - cbn. destruct (String.eqb s0 k) eqn:Heq.
    + apply String.eqb_eq in Heq. subst k.
      assert (Hzero : sum_Z (map (fun s => if String.eqb s0 s then 1 else 0)
                                 keys) = 0).
      { clear IH Hin Hnodup. induction keys as [|k keys IH]; [done|]. cbn.
        destruct (String.eqb s0 k) eqn:Heq.
        - apply String.eqb_eq in Heq. subst k. exfalso. apply Hk. by left.
        - unfold sum_Z in IH. rewrite IH; [done|].
          intros Hin. apply Hk. by right. }
      unfold sum_Z in Hzero. lia.
    + apply String.eqb_neq in Heq.
      apply elem_of_cons in Hin as [->|Hin]; [done|].
      specialize (IH Hin). unfold sum_Z in IH. lia.
Qed.

(** Rows that all carry a label of [keys] are split by the groups without
    loss and without overlap. *)
Lemma groups_partition (keys : list string)
    (l : list database.MergeRequestData) :
  NoDup keys ->
  (forall r, r ∈ l -> exists s, s ∈ keys /\ database.squad r = Some s) ->
  sum_Z (map (fun s => Z.of_nat (length (List.filter (database.in_group s) l)))
             keys)
  = Z.of_nat (length l).
Proof.
  intros Hnodup. induction l as [|r l IH]; intros Hlabel.
  - cbn. apply sum_Z_zero.
  - destruct (Hlabel r) as (s0 & Hs0 & Hsquad); [by left|].
    rewrite (map_ext _ (fun s => (if String.eqb s0 s then 1 else 0)
                  + Z.of_nat (length (List.filter (database.in_group s) l)))).
    + rewrite sum_Z_plus, sum_Z_indicator by done.
      rewrite IH; [cbn [length]; lia|].
      intros r' Hr'. apply Hlabel. by right.
    + intros s. cbn [List.filter]. unfold database.in_group at 1.
      rewrite Hsquad. destruct (String.eqb s0 s); cbn [length]; lia.
Qed.

Lemma selected_rows_are_labelled (f : database.MergeRequestData -> bool)
    (l : list database.MergeRequestData) :
  (forall r, f r = true -> database.is_not_null (database.squad r) = true) ->
  forall r, r ∈ List.filter f l ->
    exists s, s ∈ database.group_by_squad (List.filter f l)
              /\ database.squad r = Some s.
Proof.
  intros Hf r Hr. pose proof Hr as [_ Hfr]%filter_member.
  apply Hf in Hfr. destruct (database.squad r) as [s|] eqn:Hs; [|done].
  exists s. split; [|done]. apply group_by_squad_member. eauto.
Qed.

Lemma stats_where_labelled projectId startDate endDate r :
  database.stats_where projectId startDate endDate r = true ->
  database.is_not_null (database.squad r) = true.
Proof.
  unfold database.stats_where. rewrite !andb_true_iff. tauto.
Qed.

Lemma late_where_stats_where strftime_s projectId thresholdMinutes
    startDate endDate r :
  database.late_where strftime_s projectId thresholdMinutes startDate endDate r
  = true
  <-> database.stats_where projectId startDate endDate r = true
      /\ exists m,
           database.time_to strftime_s database.first_comment_at r = Some m
           /\ PrimFloat.ltb thresholdMinutes m = true.
Proof.
  unfold database.late_where, database.stats_where.
  rewrite !andb_true_iff. split.
  - intros [[[[[Hp Hs] Hfc] Hsq] Hd] Hlate].
    split; [done|].
    destruct (database.time_to _ _ r) as [m|]; [|done].
    by exists m.
  - intros [[[[Hp Hs] Hsq] Hd] (m & Hm & Hlt)].
    rewrite Hm, Hlt.
    repeat split; try done.
    unfold database.time_to in Hm.
    by destruct (database.first_comment_at r).
Qed.

(** X16: the statistics hold one row per squad label, no label twice; every
    row counts at least one merge request, and its merged count lies
    between 0 and its total. *)
Theorem stats_rows_are_distinct_nonempty_groups
    (strftime_s : string -> option Z) (t : database.Tables) (projectId : Z)
    (startDate endDate : option string) :
  NoDup (map database.stats_squad
             (database.getMergeRequestStats strftime_s t projectId
                                            startDate endDate))
  /\ forall row,
       row ∈ database.getMergeRequestStats strftime_s t projectId
                                           startDate endDate ->
       1 <= database.total_mrs row
       /\ 0 <= database.merged_mrs row <= database.total_mrs row.
Proof.
  unfold database.getMergeRequestStats.
  set (selected := List.filter _ (database.rows t)). split.
  - rewrite map_map. cbn. rewrite map_id. apply NoDup_remove_dups.
  - intros row (s & -> & Hs)%list_elem_of_fmap. cbn.
    split; [|apply SUM_when_bounds].
    apply group_by_squad_member in Hs as (r & Hr & Hsquad).
    assert (r ∈ List.filter (database.in_group s) selected) as Hin.
    { apply filter_member. split; [done|]. by apply in_group_true. }
    destruct (List.filter (database.in_group s) selected); [|cbn; lia].
    by apply elem_of_nil in Hin.
Qed.

(** X17: every record that passes the filter of the statistics query is
    counted in exactly one row: the totals of the rows add up to the number
    of selected records. *)
Theorem stats_totals_add_up
    (strftime_s : string -> option Z) (t : database.Tables) (projectId : Z)
    (startDate endDate : option string) :
  sum_Z (map database.total_mrs
             (database.getMergeRequestStats strftime_s t projectId
                                            startDate endDate))
  = Z.of_nat (length (List.filter
                        (database.stats_where projectId startDate endDate)
                        (database.rows t))).
Proof.
  unfold database.getMergeRequestStats. rewrite map_map. cbn.
  apply groups_partition; [apply NoDup_remove_dups|].
  apply selected_rows_are_labelled, stats_where_labelled.
Qed.

(** X18: closed records, records without a squad and records of other
    projects are invisible to both queries: a table that holds nothing else
    gives no row at all. *)
Theorem excluded_records_give_no_rows
    (strftime_s : string -> option Z) (t : database.Tables) (projectId : Z)
    (thresholdMinutes : float) (startDate endDate : option string) :
  (forall r, r ∈ database.rows t ->
     database.state r = "closed" \/ database.squad r = None
     \/ database.project_id r <> projectId) ->
  database.getMergeRequestStats strftime_s t projectId startDate endDate = []
  /\ database.countMrsWithLateFirstComment strftime_s t projectId
       thresholdMinutes startDate endDate = [].
Proof.
  intros Hexcluded.
  assert (Hnone : List.filter
                    (database.stats_where projectId startDate endDate)
                    (database.rows t) = []).
  { induction (database.rows t) as [|r l IH]; [done|]. cbn [List.filter].
    assert (database.stats_where projectId startDate endDate r = false)
      as ->.
    { unfold database.stats_where.
      destruct (Hexcluded r) as [Hc|[Hs|Hp]]; [by left|..].
      - rewrite Hc. cbn. by rewrite andb_false_r.
      - rewrite Hs. cbn. by rewrite andb_false_r.
      - apply Z.eqb_neq in Hp. by rewrite Hp. }
    apply IH. intros r' Hr'. apply Hexcluded. by right. }
  split.
  - unfold database.getMergeRequestStats. by rewrite Hnone.
  - unfold database.countMrsWithLateFirstComment.
    assert (List.filter
              (database.late_where strftime_s projectId thresholdMinutes
                                   startDate endDate)
              (database.rows t) = []) as ->; [|done].
    destruct (List.filter (database.late_where _ _ _ _ _) _) as [|r l] eqn:Hl;
      [done|].
    assert (r ∈ List.filter
                  (database.stats_where projectId startDate endDate)
                  (database.rows t)) as Hin.
    { assert (r ∈ r :: l) as Hr by left. rewrite <- Hl in Hr.
      apply filter_member in Hr as [Hr Hlate]. apply filter_member.
      split; [done|]. by apply late_where_stats_where in Hlate as [? _]. }
    rewrite Hnone in Hin. by apply elem_of_nil in Hin.
Qed.

Lemma excluded_records_give_no_rows_witness :
  database.getMergeRequestStats clock.strftime_s excluded_rows 1 None None = []
  /\ database.countMrsWithLateFirstComment clock.strftime_s excluded_rows 1
       60%float None None = [].
Proof.
  apply (excluded_records_give_no_rows clock.strftime_s excluded_rows 1).
  intros r Hr. vm_compute in Hr.
  repeat (apply elem_of_cons in Hr as [->|Hr]);
    [| | |by apply elem_of_nil in Hr];
    first [left; reflexivity
          |right; left; reflexivity
          |right; right; discriminate].
Defined.

(** X19: a record is counted as late exactly when it passes the filter of
    the statistics query and its first-comment delta is strictly greater
    than the threshold (a delta equal to the threshold does not count); the
    counts of the rows add up to the number of such records; and raising
    the threshold never adds a record. *)
Theorem late_count_is_strict_and_monotone
    (strftime_s : string -> option Z) (t : database.Tables) (projectId : Z)
    (thresholdMinutes : float) (startDate endDate : option string) :
  (forall r,
     database.late_where strftime_s projectId thresholdMinutes
                         startDate endDate r = true
     <-> database.stats_where projectId startDate endDate r = true
         /\ exists m,
              database.time_to strftime_s database.first_comment_at r = Some m
              /\ PrimFloat.ltb thresholdMinutes m = true)
  /\ sum_Z (map database.count
                (database.countMrsWithLateFirstComment strftime_s t projectId
                   thresholdMinutes startDate endDate))
     = Z.of_nat (length (List.filter
                           (database.late_where strftime_s projectId
                              thresholdMinutes startDate endDate)
                           (database.rows t)))
  /\ (forall higher r,
        PrimFloat.leb thresholdMinutes higher = true ->
        database.late_where strftime_s projectId higher startDate endDate r
        = true ->
        database.late_where strftime_s projectId thresholdMinutes
                            startDate endDate r = true).
Proof.
  split; [|split].
  - intros r. apply late_where_stats_where.
  - unfold database.countMrsWithLateFirstComment. rewrite map_map. cbn.
    apply groups_partition; [apply NoDup_remove_dups|].
    apply selected_rows_are_labelled. intros r Hr.
    apply late_where_stats_where in Hr as [Hr _].
    by apply stats_where_labelled in Hr.
  - intros higher r Hle Hlate.
    apply late_where_stats_where in Hlate as (Hstats & m & Hm & Hlt).
    apply late_where_stats_where. split; [done|]. exists m. split; [done|].
    by apply float_leb_ltb_trans with higher.
Qed.

Lemma filter_length_le {A : Type} (f g h : A -> bool) (l : list A) :
  (forall x, f x = true -> g x = true) ->
  (length (List.filter h (List.filter f l))
   <= length (List.filter h (List.filter g l)))%nat.
Proof.
  intros Hfg. induction l as [|x l IH]; [done|]. cbn [List.filter].
  destruct (f x) eqn:Hf.
  - rewrite (Hfg x Hf). cbn [List.filter]. destruct (h x); cbn [length]; lia.
  - destruct (g x); [|done]. cbn [List.filter].
    destruct (h x); cbn [length]; lia.
Qed.

(** X20: with the same project and date bounds, every squad that has a late
    count also has a statistics row, and its late count lies between 1 and
    that row's total. *)
Theorem late_count_is_bounded_by_total
    (strftime_s : string -> option Z) (t : database.Tables) (projectId : Z)
    (thresholdMinutes : float) (startDate endDate : option string)
    (late : database.LateRow) :
  late ∈ database.countMrsWithLateFirstComment strftime_s t projectId
           thresholdMinutes startDate endDate ->
  exists row,
    row ∈ database.getMergeRequestStats strftime_s t projectId
            startDate endDate
    /\ database.stats_squad row = database.late_squad late
    /\ 1 <= database.count late <= database.total_mrs row.
Proof.
  unfold database.countMrsWithLateFirstComment, database.getMergeRequestStats.
  set (f := database.late_where strftime_s projectId thresholdMinutes
                                startDate endDate).
  set (g := database.stats_where projectId startDate endDate).
  assert (Hfg : forall r, f r = true -> g r = true).
  { intros r Hr. by apply late_where_stats_where in Hr as [? _]. }
  intros (s & -> & Hs)%list_elem_of_fmap. cbn.
  apply group_by_squad_member in Hs as (r & Hr & Hsquad).
  apply filter_member in Hr as [Hr Hfr].
  exists (database.stats_row strftime_s s
            (List.filter (database.in_group s) (List.filter g (database.rows t)))).
  split; [|split; [done|]].
  - apply list_elem_of_fmap. exists s. split; [done|].
    apply group_by_squad_member. exists r. split; [|done].
    apply filter_member. auto.
  - cbn. split.
    + assert (r ∈ List.filter (database.in_group s)
                    (List.filter f (database.rows t))) as Hin.
      { apply filter_member. split; [by apply filter_member|].
        by apply in_group_true. }
      destruct (List.filter (database.in_group s) (List.filter f _));
        [by apply elem_of_nil in Hin|cbn; lia].
    + apply Nat2Z.inj_le. by apply filter_length_le.
Qed.

Lemma late_count_is_bounded_by_total_witness :
  exists row,
    row ∈ database.getMergeRequestStats clock.strftime_s april_30 1 None None
    /\ database.stats_squad row = "WEB"
    /\ 1 <= 1 <= database.total_mrs row.
Proof.
  apply (late_count_is_bounded_by_total clock.strftime_s april_30 1
           60%float None None (database.mkLateRow "WEB" 1)).
  vm_compute. left.
Defined.

Lemma stats_rows_are_distinct_nonempty_groups_witness :
  1 <= database.total_mrs
         (database.stats_row clock.strftime_s "WEB" (database.rows april_30))
  /\ 0 <= database.merged_mrs
            (database.stats_row clock.strftime_s "WEB" (database.rows april_30))
       <= database.total_mrs
            (database.stats_row clock.strftime_s "WEB" (database.rows april_30)).
Proof.
  apply (proj2 (stats_rows_are_distinct_nonempty_groups clock.strftime_s
                  april_30 1 None None)).
  vm_compute. left.
Defined.

Lemma late_count_is_strict_and_monotone_witness :
  database.late_where clock.strftime_s 1 30%float None None
    (web_row 1 "2025-04-30T10:20:30.000Z" (Some "2025-04-30T12:20:30.000Z"))
  = true.
Proof.
  apply (proj2 (proj2 (late_count_is_strict_and_monotone clock.strftime_s
                         april_30 1 30%float None None))
           60%float).
  - vm_compute. reflexivity.
  - vm_compute. reflexivity.
Defined.

(** ** update_squads.sql *)

Lemma with_squad_same (r : database.MergeRequestData) :
  database.with_squad (database.squad r) r = r.
Proof. by destruct r. Qed.

Lemma username_in_app (l1 l2 : list string) (u : string) :
  database.username_in (l1 ++ l2) u
  = database.username_in l1 u || database.username_in l2 u.
Proof. unfold database.username_in. apply existsb_app. Qed.

Lemma set_web_set_cms (r : database.MergeRequestData) :
  database.set_web (database.set_cms r)
  = database.with_squad (label_after r) r.
Proof.
  unfold database.set_web, database.set_cms, label_after.
  rewrite username_in_app.
  destruct (database.username_in database.cms_usernames
              (database.author_username r)) eqn:Hcms.
  - cbn [database.with_squad database.author_username]. rewrite Hcms.
    by cbn [orb negb andb].
  - rewrite Hcms. unfold database.username_in at 1. cbn [existsb orb].
    rewrite orb_false_r.
    destruct (String.eqb (database.author_username r) "ikhsan.hari").
    + cbn [negb andb]. by rewrite with_squad_same.
    + destruct (database.squad r) as [s|] eqn:Hs; cbn.
      * by rewrite <- Hs, with_squad_same.
      * done.
Qed.

(** X21: what the two UPDATE statements of update_squads.sql do to a table,
    row by row: only the squad column changes; rows of the five CMS
    usernames are labelled CMS whatever they held, rows of ikhsan.hari keep
    what they held, and any other row keeps its label or gets WEB when it
    had none. No row is added or removed. *)
Theorem update_squads_relabels_by_author (t : database.Tables) :
  database.projects (database.update_squads t) = database.projects t
  /\ forall k,
       database.merge_requests (database.update_squads t) !! k
       = (fun r => database.with_squad (label_after r) r)
           <$> database.merge_requests t !! k.
Proof.
  split; [done|]. intros k. unfold database.update_squads. cbn.
  rewrite !lookup_fmap.
  destruct (database.merge_requests t !! k) as [r|]; [|done]. cbn.
  by rewrite set_web_set_cms.
Qed.

Lemma label_after_stable (r : database.MergeRequestData) :
  label_after (database.with_squad (label_after r) r) = label_after r.
Proof.
  unfold label_after.
  cbn [database.with_squad database.author_username database.squad].
  destruct (database.username_in database.cms_usernames
              (database.author_username r)); [done|].
  destruct (String.eqb (database.author_username r) "ikhsan.hari"); [done|].
  by destruct (database.squad r).
Qed.

(** X22: running update_squads.sql a second time changes nothing, and after
    a run every row is labelled except unlabelled rows of ikhsan.hari. *)
Theorem update_squads_is_idempotent (t : database.Tables) :
  database.update_squads (database.update_squads t) = database.update_squads t
  /\ forall k r,
       database.merge_requests (database.update_squads t) !! k = Some r ->
       database.squad r = None ->
       database.author_username r = "ikhsan.hari".
Proof.
  split.
  - unfold database.update_squads.
    cbn [database.projects database.merge_requests]. f_equal.
    rewrite <- !map_fmap_compose. apply map_fmap_ext. intros k r _.
    cbn [compose]. rewrite !set_web_set_cms, label_after_stable. done.
  - intros k r. unfold database.update_squads.
    cbn [database.merge_requests]. rewrite !lookup_fmap.
    destruct (database.merge_requests t !! k) as [r0|]; [|done].
    cbn [fmap option_fmap option_map]. rewrite set_web_set_cms.
    intros [= <-]. unfold label_after.
    cbn [database.with_squad database.author_username database.squad].
    destruct (database.username_in database.cms_usernames
                (database.author_username r0)); [done|].
    destruct (String.eqb (database.author_username r0) "ikhsan.hari") eqn:Hik.
    + intros _. by apply String.eqb_eq.
    + by destruct (database.squad r0).
Qed.

Lemma update_squads_is_idempotent_witness :
  database.author_username
    (database.mkMergeRequestData 5 1 "Docs" None "2025-04-01T10:00:00Z"
       "2025-04-01T10:00:00Z" "opened" 13 "ikhsan.hari" None None None None)
  = "ikhsan.hari".
Proof.
  apply (proj2 (update_squads_is_idempotent ikhsan_table) (5, 1)).
  - vm_compute. reflexivity.
  - reflexivity.
Defined.

(** ** The schema *)

Lemma same_name_refl (a : string) : schema.same_name a a = true.
Proof. apply String.eqb_refl. Qed.

Lemma find_table_app (name : string) (a b : list schema.Table) :
  schema.find_table name (a ++ b)
  = match schema.find_table name a with
    | Some t => Some t
    | None => schema.find_table name b
    end.
Proof.
  unfold schema.find_table. induction a as [|t a IH]; [done|].
  cbn. by destruct (schema.same_name _ _).
Qed.

Lemma try_add_column_alter (table column : string) (s : list schema.Table) :
  schema.try_add_column table column s
  = alter_first table (with_column column) s.
Proof.
  unfold schema.try_add_column.
  induction s as [|[name cols] s IH]; [done|].
  cbn [schema.add_column alter_first schema.table_name schema.columns].
  destruct (schema.same_name name table).
  - unfold with_column.
    destruct (Nat.ltb _ _); [done|].
    by destruct (schema.has_column column cols).
  - destruct (schema.add_column table column s); by rewrite <- IH.
Qed.

Lemma alter_first_compose (table : string) (f g : list string -> list string)
    (s : list schema.Table) :
  alter_first table f (alter_first table g s)
  = alter_first table (fun cols => f (g cols)) s.
Proof.
  induction s as [|t s IH]; [done|]. cbn [alter_first].
  destruct (schema.same_name (schema.table_name t) table) eqn:Hname;
    cbn [alter_first schema.table_name schema.columns]; rewrite Hname.
  - done.
  - by rewrite IH.
Qed.

Lemma alter_first_ext (table : string) (f g : list string -> list string)
    (s : list schema.Table) :
  (forall cols, f cols = g cols) ->
  alter_first table f s = alter_first table g s.
Proof.
  intros Hfg. induction s as [|t s IH]; [done|]. cbn [alter_first].
  by rewrite Hfg, IH.
Qed.

Lemma alter_first_app (table : string) (f : list string -> list string)
    (a b : list schema.Table) :
  exists b', alter_first table f (a ++ b) = alter_first table f a ++ b'
             /\ length b' = length b.
Proof.
  induction a as [|t a IH].
  - exists (alter_first table f b). split; [done|].
    induction b as [|t b IHb]; [done|]. cbn [alter_first].
    destruct (schema.same_name _ _); cbn [length]; by rewrite ?IHb.
  - cbn [app alter_first]. destruct (schema.same_name _ _).
    + by exists b.
    + destruct IH as (b' & -> & Hlen). by exists b'.
Qed.

(** Altering columns moves no table and renames none. *)
Lemma find_table_alter (table : string) (f : list string -> list string)
    (s : list schema.Table) :
  schema.find_table table (alter_first table f s)
  = (fun t => schema.mkTable (schema.table_name t) (f (schema.columns t)))
    <$> schema.find_table table s.
Proof.
  unfold schema.find_table.
  induction s as [|t s IH]; [done|]. cbn [alter_first List.find].
  destruct (schema.same_name (schema.table_name t) table) eqn:Htable.
  - cbn [List.find schema.table_name]. by rewrite Htable.
  - cbn [List.find]. by rewrite Htable.
Qed.

Lemma find_table_alter_is_Some (name table : string)
    (f : list string -> list string) (s : list schema.Table) :
  is_Some (schema.find_table name s) ->
  is_Some (schema.find_table name (alter_first table f s)).
Proof.
  unfold schema.find_table.
  induction s as [|t s IH]; [done|]. cbn [alter_first List.find].
  destruct (schema.same_name (schema.table_name t) table);
    cbn [List.find schema.table_name];
    destruct (schema.same_name (schema.table_name t) name); eauto.
Qed.

(** [migrate] as a whole: the two CREATE statements append the tables that
    are missing, the two ALTER statements change the columns of the first
    table named [merge_requests]. *)
Lemma migrate_shape (s : list schema.Table) :
  schema.migrate s
  = alter_first "merge_requests" upgraded (s ++ fresh_tables s).
Proof.
  unfold schema.migrate. rewrite !try_add_column_alter, alter_first_compose.
  f_equal. unfold schema.create_table_if_not_exists, fresh_tables.
  destruct (schema.find_table "projects" s) as [p|] eqn:Hp.
  - destruct (schema.find_table "merge_requests" s); [|done].
    by rewrite app_nil_r.
  - rewrite find_table_app.
    destruct (schema.find_table "merge_requests" s).
    + done.
    + by rewrite <- app_assoc.
Qed.

Lemma find_fresh_projects (s : list schema.Table) :
  is_Some (schema.find_table "projects" (s ++ fresh_tables s)).
Proof.
  rewrite find_table_app. unfold fresh_tables.
  destruct (schema.find_table "projects" s); [done|]. by eexists.
Qed.

Lemma find_fresh_merge_requests (s : list schema.Table) :
  schema.find_table "merge_requests" (s ++ fresh_tables s)
  = Some (default (schema.mkTable "merge_requests"
                                  schema.merge_requests_columns)
                  (schema.find_table "merge_requests" s)).
Proof.
  rewrite find_table_app. unfold fresh_tables.
  destruct (schema.find_table "merge_requests" s); [done|].
  by destruct (schema.find_table "projects" s).
Qed.

Lemma with_column_extends (column : string) (cols : list string) :
  exists more, with_column column cols = cols ++ more.
Proof.
  unfold with_column. destruct (_ || _).
  - exists []. by rewrite app_nil_r.
  - by eexists.
Qed.

Lemma has_column_app_l (column : string) (cols more : list string) :
  schema.has_column column cols = true ->
  schema.has_column column (cols ++ more) = true.
Proof.
  unfold schema.has_column. rewrite existsb_app. by intros ->.
Qed.

Lemma has_column_with_column (column : string) (cols : list string) :
  (length cols + 1 <= schema.SQLITE_MAX_COLUMN)%nat ->
  schema.has_column column (with_column column cols) = true.
Proof.
  intros Hroom. unfold with_column.
  rewrite (proj2 (Nat.ltb_ge _ _) Hroom). cbn [orb].
  destruct (schema.has_column column cols) eqn:Hhas; [done|].
  unfold schema.has_column. rewrite existsb_app. cbn [existsb].
  by rewrite same_name_refl, orb_true_r.
Qed.

Lemma with_column_again (column : string) (cols : list string) :
  with_column column (with_column column cols) = with_column column cols.
Proof.
  unfold with_column at 2 3.
  destruct (Nat.ltb _ _) eqn:Hfull; cbn [orb].
  - unfold with_column. by rewrite Hfull.
  - destruct (schema.has_column column cols) eqn:Hhas.
    + unfold with_column. by rewrite Hfull, Hhas.
    + unfold with_column.
      assert (Hnow : schema.has_column column (cols ++ [column]) = true).
      { unfold schema.has_column. rewrite existsb_app. cbn [existsb].
        by rewrite same_name_refl, orb_true_r. }
      by rewrite Hnow, orb_true_r.
Qed.

Lemma with_column_after (column other : string) (cols : list string) :
  with_column column (with_column other (with_column column cols))
  = with_column other (with_column column cols).
Proof.
  unfold with_column at 3 5.
  destruct (Nat.ltb schema.SQLITE_MAX_COLUMN (length cols + 1)) eqn:Hfull;
    cbn [orb].
  - unfold with_column. rewrite Hfull. cbn [orb]. by rewrite Hfull.
  - assert (Hhas : schema.has_column column
                     (if schema.has_column column cols then cols
                      else cols ++ [column]) = true).
    { destruct (schema.has_column column cols) eqn:H; [done|].
      unfold schema.has_column. rewrite existsb_app. cbn [existsb].
      by rewrite same_name_refl, orb_true_r. }
    destruct (with_column_extends other
                (if schema.has_column column cols then cols
                 else cols ++ [column])) as [more Hmore].
    rewrite Hmore. unfold with_column.
    by rewrite (has_column_app_l _ _ more Hhas), orb_true_r.
Qed.

Lemma upgraded_again (cols : list string) :
  upgraded (upgraded cols) = upgraded cols.
Proof.
  unfold upgraded.
  by rewrite (with_column_after "squad" "description"), with_column_again.
Qed.

Lemma upgraded_extends (cols : list string) :
  exists more, upgraded cols = cols ++ more.
Proof.
  unfold upgraded.
  destruct (with_column_extends "squad" cols) as [m1 ->].
  destruct (with_column_extends "description" (cols ++ m1)) as [m2 ->].
  exists (m1 ++ m2). by rewrite app_assoc.
Qed.

Lemma upgraded_has_both (cols : list string) :
  (length cols + 2 <= schema.SQLITE_MAX_COLUMN)%nat ->
  schema.has_column "squad" (upgraded cols) = true
  /\ schema.has_column "description" (upgraded cols) = true.
Proof.
  intros Hroom. unfold upgraded.
  assert (Hsquad : schema.has_column "squad" (with_column "squad" cols)
                   = true) by (apply has_column_with_column; lia).
  split.
  - destruct (with_column_extends "description" (with_column "squad" cols))
      as [more ->].
    by apply has_column_app_l.
  - apply has_column_with_column.
    unfold with_column. destruct (_ || _); [lia|].
    rewrite length_app. cbn [length]. lia.
Qed.

Lemma alter_first_kept (s : list schema.Table) :
  Forall2 kept_as s (alter_first "merge_requests" upgraded s).
Proof.
  induction s as [|t s IH]; [constructor|]. cbn [alter_first].
  destruct (schema.same_name (schema.table_name t) "merge_requests") eqn:Hmr.
  - constructor.
    + split; [done|]. cbn [schema.columns].
      destruct (upgraded_extends (schema.columns t)) as [more Hmore].
      exists more. split; [done|]. by rewrite Hmr.
    + apply Forall2_same_length_lookup_2; [done|].
      intros i x y Hx Hy. rewrite Hx in Hy. injection Hy as <-.
      split; [done|]. exists []. by rewrite app_nil_r.
  - constructor; [|done].
    split; [done|]. exists []. by rewrite app_nil_r.
Qed.

(** X23: whatever ordinary tables and columns a database file holds, after
    [initDatabase] both tables exist, under the names they had if they were
    there, and [merge_requests] has a [squad] and a [description] column,
    in whatever case they are spelled, provided the table had room for two
    more columns; every table that was there keeps its place, its name and
    its columns, in order, new columns only appended and only to
    [merge_requests]; new tables come last; and initialising an initialised
    file changes nothing. A file of the first version ends with the same
    thirteen columns as a fresh one; a column spelled SQUAD is not doubled;
    a table of 1999 columns gets [squad] and no [description]. *)
Theorem initDatabase_upgrades_any_file :
  (forall s,
     is_Some (schema.find_table "projects" (schema.migrate s))
     /\ is_Some (schema.find_table "merge_requests" (schema.migrate s)))
  /\ (forall s t,
        schema.find_table "merge_requests" (schema.migrate s) = Some t ->
        (forall t0,
           schema.find_table "merge_requests" s = Some t0 ->
           (length (schema.columns t0) + 2 <= schema.SQLITE_MAX_COLUMN)%nat) ->
        schema.has_column "squad" (schema.columns t) = true
        /\ schema.has_column "description" (schema.columns t) = true)
  /\ (forall s, exists kept created,
        schema.migrate s = kept ++ created
        /\ Forall2 kept_as s kept
        /\ (length created <= 2)%nat)
  /\ (forall s,
        schema.initDatabase false (schema.initDatabase false s).2
        = schema.initDatabase false s)
  /\ schema.migrate old_file = schema.migrate []
  /\ schema.find_table "merge_requests" (schema.migrate [])
     = Some (schema.mkTable "merge_requests"
               (schema.merge_requests_columns ++ ["squad"; "description"]))
  /\ schema.migrate shouting_file
     = [schema.mkTable "merge_requests" ["id"; "SQUAD"; "description"];
        schema.mkTable "projects" schema.projects_columns]
  /\ schema.find_table "merge_requests" (schema.migrate crowded_file)
     = Some (schema.mkTable "MERGE_REQUESTS" (crowded_columns ++ ["squad"])).
Proof.
  split; [|split; [|split; [|split; [|split; [|split; [|split]]]]]].
  - intros s. rewrite migrate_shape. split.
    + apply find_table_alter_is_Some, find_fresh_projects.
    + apply find_table_alter_is_Some. rewrite find_fresh_merge_requests.
      by eexists.
  - intros s t Ht Hroom. rewrite migrate_shape in Ht.
    rewrite find_table_alter, find_fresh_merge_requests in Ht.
    cbn [fmap option_fmap option_map] in Ht. injection Ht as <-.
    cbn [schema.columns]. apply upgraded_has_both.
    destruct (schema.find_table "merge_requests" s) as [t0|].
    + by apply Hroom.
    + apply Nat.leb_le. vm_compute. reflexivity.
  - intros s. rewrite migrate_shape.
    destruct (alter_first_app "merge_requests" upgraded s (fresh_tables s))
      as (created & -> & Hlen).
    exists (alter_first "merge_requests" upgraded s), created.
    split; [done|]. split; [apply alter_first_kept|].
    rewrite Hlen. unfold fresh_tables. rewrite length_app.
    destruct (schema.find_table "projects" s),
             (schema.find_table "merge_requests" s); cbn [length]; lia.
  - intros s. unfold schema.initDatabase. cbn [snd]. f_equal.
    rewrite (migrate_shape (schema.migrate s)).
    assert (Hfresh : fresh_tables (schema.migrate s) = []).
    { unfold fresh_tables. rewrite (migrate_shape s).
      destruct (find_table_alter_is_Some "projects" "merge_requests"
                  upgraded _ (find_fresh_projects s)) as [p ->].
      destruct (find_table_alter_is_Some "merge_requests" "merge_requests"
                  upgraded (s ++ fresh_tables s)) as [m ->]; [|done].
      rewrite find_fresh_merge_requests. by eexists. }
    rewrite Hfresh, app_nil_r, migrate_shape, alter_first_compose.
    apply alter_first_ext, upgraded_again.
  - vm_compute. reflexivity.
  - vm_compute. reflexivity.
  - vm_compute. reflexivity.
  - vm_compute. reflexivity.
Qed.

(** ** The helpers of index.ts *)

Lemma find_first {A : Type} (f : A -> bool) (l : list A) :
  match List.find f l with
  | Some x => exists pre post, l = pre ++ x :: post /\ f x = true
                /\ forall y, y ∈ pre -> f y = false
  | None => forall y, y ∈ l -> f y = false
  end.
Proof.
  induction l as [|a l IH]; cbn.
  - intros y Hy. by apply elem_of_nil in Hy.
  - destruct (f a) eqn:Hfa.
    + exists [], l. split; [done|]. split; [done|].
      intros y Hy. by apply elem_of_nil in Hy.
    + destruct (List.find f l) as [x|].
      * destruct IH as (pre & post & -> & Hx & Hpre).
        exists (a :: pre), post. split; [done|]. split; [done|].
        intros y [->|Hy]%elem_of_cons; [done|by apply Hpre].
      * intros y [->|Hy]%elem_of_cons; [done|by apply IH].
Qed.

Lemma group_matches_test (groupName : string) (g : Group) :
  String.eqb (group_name g) groupName || String.eqb (group_path g) groupName
  = true
  <-> group_matches groupName g.
Proof.
  unfold group_matches. by rewrite orb_true_iff, !String.eqb_eq.
Qed.

(** X24: [getGroupId] answers the id of the first group of the search
    result whose name or path equals the group name exactly; groups that
    merely contain the term are passed over. It answers null when no group
    matches exactly and when the request fails. *)
Theorem getGroupId_is_first_exact_match :
  (forall groups groupName,
     match getGroupId (Some groups) groupName with
     | Some i =>
         exists pre g post,
           groups = pre ++ g :: post /\ group_id g = i
           /\ group_matches groupName g
           /\ forall g', g' ∈ pre -> ~ group_matches groupName g'
     | None => forall g, g ∈ groups -> ~ group_matches groupName g
     end)
  /\ (forall groupName, getGroupId None groupName = None)
  /\ getGroupId (Some murid_groups) "murid" = Some 9.
Proof.
  split; [|split; [done|reflexivity]].
  intros groups groupName. unfold getGroupId.
  pose proof (find_first
                (fun g => String.eqb (group_name g) groupName
                          || String.eqb (group_path g) groupName) groups) as H.
  destruct (List.find _ groups) as [g|].
  - destruct H as (pre & post & -> & Hg & Hpre).
    exists pre, g, post. split; [done|]. split; [done|].
    split; [by apply group_matches_test|].
    intros g' Hg' Hmatch. apply group_matches_test in Hmatch.
    by rewrite (Hpre g' Hg') in Hmatch.
  - intros g Hg Hmatch. apply group_matches_test in Hmatch.
    by rewrite (H g Hg) in Hmatch.
Qed.

(** X25: for a whole, non-negative number of minutes that a double holds
    exactly (up to 2^53 - 1) the three numbers [formatTime] prints are the
    days, hours (below 24) and minutes (below 60) that add up to the input,
    so nothing is lost; a negative input, down to -(2^53 - 1), is printed as
    its remainder modulo 60 alone; null and NaN print as N/A. *)
Theorem formatTime_splits_minutes :
  (forall m, 0 <= m <= MAX_SAFE_INTEGER ->
     exists days hours mins,
       time_parts m = Some (days, hours, mins)
       /\ days * 1440 + hours * 60 + mins = m
       /\ 0 <= days /\ 0 <= hours < 24 /\ 0 <= mins < 60)
  /\ (forall m, - MAX_SAFE_INTEGER <= m < 0 ->
        formatTime (Some (Some m)) = Some (pretty (Z.rem m 60) +:+ "m"))
  /\ formatTime None = Some "N/A"
  /\ formatTime (Some NaN) = Some "N/A"
  /\ formatTime (Some (Some 1505)) = Some "1d 1h 5m"
  /\ formatTime (Some (Some 65)) = Some "1h 5m"
  /\ formatTime (Some (Some 59)) = Some "59m"
  /\ formatTime (Some (Some (-90))) = Some "-30m"
  /\ formatTime (Some (Some MAX_SAFE_INTEGER)) = Some "6254999482459d 0h 31m".
Proof.
  split; [|split].
  - intros m Hm. unfold time_parts, isSafeInteger.
    rewrite (proj2 (Z.leb_le _ _)) by lia.
    do 3 eexists. split; [reflexivity|].
    change (60 * 24) with 1440.
    Z.to_euclidean_division_equations. lia.
  - intros m Hm. unfold formatTime, time_parts, isSafeInteger.
    rewrite (proj2 (Z.leb_le _ _)) by lia.
    change (60 * 24) with 1440.
    assert (m / 1440 < 0) by (Z.to_euclidean_division_equations; lia).
    assert (Z.rem m 1440 / 60 <= 0)
      by (Z.to_euclidean_division_equations; lia).
    rewrite (proj2 (Z.ltb_ge 0 (m / 1440))) by lia.
    rewrite (proj2 (Z.ltb_ge 0 (Z.rem m 1440 / 60))) by lia. done.
  - repeat split; vm_compute; reflexivity.
Qed.
